(** * Route composition engine of the city-guide bot

    A shallow embedding of [model_trainer.py] (class [SmartCityGuideTrainer])
    and of the walking-time helper of [route_planner.py].

    Python floats are modelled as exact rationals ([Q]); numeric results are
    compared with [==] ([Qeq]).  A sum of doubles can differ from the exact
    sum in its last bit, and a budget test met or missed exactly at the
    boundary then comes out the other way.  The selection therefore takes
    the rounding of its float operations as a parameter [fl], so that which
    places the loops accept follows the rounded sums; its properties hold
    for every [fl], or name what they need of it.  The callees
    [calculate_walking_time], [calculate_time_for_place] and
    [calculate_total_route_time] are kept exact.  The two external
    capabilities the engine relies on are parameters of the development:
    - [geodesic a b]   : [geopy.distance.geodesic(a, b).km];
    - [cos_sim q i]    : [util.cos_sim(encode(q), place_embeddings)[0][i].item()].
    A Python dictionary describing a place is a record of the keys the loader
    always writes; the four keys added by [find_optimal_places] live in a
    second record, and a lookup of a derived key in a raw catalog entry
    raises [KeyError]. *)

From Stdlib Require Import String QArith Qabs Lqa ZArith Lia Bool List.
From Stdlib Require Import Permutation Sorted.
Import ListNotations.

Open Scope Q_scope.

(** ** Python primitives *)

Module Py.

(** [a < b] on floats. *)
Definition Qlt_bool (a b : Q) : bool := negb (Qle_bool b a).

(** [min(a, b)]: the first argument wins unless the second is strictly
    smaller. *)
Definition min (a b : Q) : Q := if Qlt_bool b a then b else a.

(** [max(a, b)]: the first argument wins unless the second is strictly
    larger. *)
Definition max (a b : Q) : Q := if Qlt_bool a b then b else a.

(** Outcome of a call: a value, or a raised [KeyError]. *)
Inductive Exc (A : Type) : Type :=
| Ret (a : A)
| KeyError (key : string).
Arguments Ret {A} a.
Arguments KeyError {A} key.

Definition bind {A B : Type} (m : Exc A) (k : A -> Exc B) : Exc B :=
  match m with
  | Ret a => k a
  | KeyError key => KeyError key
  end.

(** [float('inf')] is [None]. *)
Definition lt_inf (a : Q) (b : option Q) : bool :=
  match b with
  | None => true
  | Some b' => Qlt_bool a b'
  end.

End Py.

Notation "x <- m ;; k" := (Py.bind m (fun x => k))
  (at level 61, m at next level, right associativity).

(** ** Data model *)

Definition Coord : Type := (Q * Q)%type.

(** A catalog entry as [load_places_from_excel] builds it. *)
Record Place : Type := mkPlace {
  id : Z;
  address : string;
  coords : Coord;
  description : string;
  name : string;
  url : string;
  category_id : option Z
}.

(** A catalog entry extended by [find_optimal_places] with the four derived
    keys. *)
Record Candidate : Type := mkCandidate {
  base : Place;
  similarity_score : Q;
  distance_to_start : Q;
  walk_time_to_place : Q;
  time_required : Q
}.

(** A place dictionary as the route functions receive it: either a raw
    catalog entry or a scored one. *)
Inductive PlaceDict : Type :=
| Raw (p : Place)
| Scored (c : Candidate).

(** [d['coords']] (every dictionary has the key). *)
Definition dict_coords (d : PlaceDict) : Coord :=
  match d with
  | Raw p => coords p
  | Scored c => coords (base c)
  end.

(** [d['time_required']]. *)
Definition dict_time_required (d : PlaceDict) : Py.Exc Q :=
  match d with
  | Raw _ => Py.KeyError "time_required"
  | Scored c => Py.Ret (time_required c)
  end.

(** [d['similarity_score']]. *)
Definition dict_similarity_score (d : PlaceDict) : Py.Exc Q :=
  match d with
  | Raw _ => Py.KeyError "similarity_score"
  | Scored c => Py.Ret (similarity_score c)
  end.

(** ** [route_planner.py] *)

Module Planner.

Definition calculate_walking_time (distance_km : Q) : Q :=
  let walking_speed := 4 in
  let walking_time_minutes := (distance_km / walking_speed) * 60 in
  Py.max 5 (Py.min 120 walking_time_minutes).

End Planner.

(** The clamp of the specification: [x] limited to the interval [lo, hi]. *)
Definition clamp (x lo hi : Q) : Q :=
  if Py.Qlt_bool x lo then lo else if Py.Qlt_bool hi x then hi else x.

(** ** [model_trainer.py] *)

Module Trainer.

Definition calculate_walking_time (distance_km : Q) : Q :=
  let walking_speed := 4 in
  let walking_time_minutes := (distance_km / walking_speed) * 60 in
  Py.max 5 (Py.min 120 walking_time_minutes).

(** The [place] argument is unused by the source. *)
Definition calculate_time_for_place (place : Place) (similarity_score : Q) : Q :=
  if Py.Qlt_bool 0.7 similarity_score then 0.4
  else if Py.Qlt_bool 0.5 similarity_score then 0.3
  else if Py.Qlt_bool 0.3 similarity_score then 0.25
  else 0.2.


(** Python's [==] on place dictionaries: same keys, equal values. *)
Definition coord_eqb (a b : Coord) : bool :=
  Qeq_bool (fst a) (fst b) && Qeq_bool (snd a) (snd b).

Definition place_eqb (a b : Place) : bool :=
  Z.eqb (id a) (id b) && String.eqb (address a) (address b) &&
  coord_eqb (coords a) (coords b) &&
  String.eqb (description a) (description b) &&
  String.eqb (name a) (name b) && String.eqb (url a) (url b) &&
  match category_id a, category_id b with
  | Some x, Some y => Z.eqb x y
  | None, None => true
  | _, _ => false
  end.

Definition candidate_eqb (a b : Candidate) : bool :=
  place_eqb (base a) (base b) &&
  Qeq_bool (similarity_score a) (similarity_score b) &&
  Qeq_bool (distance_to_start a) (distance_to_start b) &&
  Qeq_bool (walk_time_to_place a) (walk_time_to_place b) &&
  Qeq_bool (time_required a) (time_required b).

(** [place in combination]. *)
Definition py_in (place : Candidate) (combination : list Candidate) : bool :=
  existsb (fun other => candidate_eqb other place) combination.

(** [sorted]/[list.sort] with a key whose values are pairs of floats: tuples
    compare lexicographically, the second component deciding only when the
    first components are equal. *)
Definition tuple_lt (a b : Q * Q) : bool :=
  if Qeq_bool (fst a) (fst b) then Py.Qlt_bool (snd a) (snd b)
  else Py.Qlt_bool (fst a) (fst b).

Section StableSort.
Context {A : Type} (key : A -> Q * Q).

(** [x] is placed after the elements whose key is strictly smaller, hence
    before every element of equal key that is already there. *)
Fixpoint insert_by_key (x : A) (l : list A) : list A :=
  match l with
  | [] => [x]
  | y :: rest =>
      if tuple_lt (key y) (key x) then y :: insert_by_key x rest
      else x :: y :: rest
  end.

(** [list.sort(key=key)]: a stable sort, here by insertion from the right. *)
Fixpoint py_sort (l : list A) : list A :=
  match l with
  | [] => []
  | x :: rest => insert_by_key x (py_sort rest)
  end.
End StableSort.

(** [min(unvisited, key=key)] when [unvisited] iterates as [x :: rest]: the
    first element with the least key. *)
Fixpoint py_min_by (key : nat -> Q) (x : nat) (rest : list nat) : nat :=
  match rest with
  | [] => x
  | y :: rest' =>
      if Py.Qlt_bool (key y) (key x) then py_min_by key y rest'
      else py_min_by key x rest'
  end.

Section Engine.

(** [geodesic(a, b).km] *)
Variable geodesic : Coord -> Coord -> Q.
(** [util.cos_sim(self.model.encode(q), self.place_embeddings)[0][i].item()] *)
Variable cos_sim : string -> nat -> Q.
(** The double nearest to a real number.  A float operation of the selection
    yields [fl] of its exact result, so which places pass the budget test
    follows the rounded sums, as in the code. *)
Variable fl : Q -> Q.

(** *** calculate_total_route_time *)

(** [sum(place['time_required'] for place in places)], accumulator made
    explicit. *)
Fixpoint sum_time_required (acc : Q) (places : list PlaceDict) : Py.Exc Q :=
  match places with
  | [] => Py.Ret acc
  | place :: rest =>
      t <- dict_time_required place ;;
      sum_time_required (acc + t) rest
  end.

(** The loop [for i in range(1, len(places))]. *)
Fixpoint walking_loop (rest : list PlaceDict) (total_walking_time_min : Q)
    (current_coords : Coord) : Q :=
  match rest with
  | [] => total_walking_time_min
  | place :: rest' =>
      let dist := geodesic current_coords (dict_coords place) in
      walking_loop rest'
        (total_walking_time_min + calculate_walking_time dist)
        (dict_coords place)
  end.

(** Returns [(total_route_time, total_walking_time_min, total_walking_hours)]. *)
Definition calculate_total_route_time (places : list PlaceDict)
    (start_coords : Coord) : Py.Exc (Q * Q * Q) :=
  match places with
  | [] => Py.Ret (0, 0, 0)
  | first :: rest =>
      total_visit_time <- sum_time_required 0 places ;;
      let first_dist := geodesic start_coords (dict_coords first) in
      let total_walking_time_min := 0 + calculate_walking_time first_dist in
      let total_walking_time_min :=
        walking_loop rest total_walking_time_min (dict_coords first) in
      let total_walking_hours := total_walking_time_min / 60 in
      let total_route_time := total_visit_time + total_walking_hours in
      Py.Ret (total_route_time, total_walking_time_min, total_walking_hours)
  end.

(** *** optimize_route_sequence *)

(** [graph[i][j]['weight']]: the edge was added once, for the smaller index
    first. *)
Definition edge_weight (all_points : list Coord) (i j : nat) : Q :=
  geodesic (nth (Nat.min i j) all_points (0, 0))
           (nth (Nat.max i j) all_points (0, 0)).

(** The [while unvisited] loop of [greedy_tsp]; [unvisited] lists the set in
    iteration order, and each round removes one node, so [fuel] is the
    number of nodes still to visit. *)
Fixpoint greedy_loop (fuel : nat) (all_points : list Coord)
    (unvisited tour : list nat) (current : nat) : list nat :=
  match fuel with
  | O => tour
  | S fuel' =>
      match unvisited with
      | [] => tour
      | x :: rest =>
          let next_node :=
            py_min_by (fun n => edge_weight all_points current n) x rest in
          greedy_loop fuel' all_points
            (remove Nat.eq_dec next_node unvisited)
            (tour ++ [next_node]) next_node
      end
  end.

(** [set(graph.nodes())] holds the small integers [0 .. n-1], which a set
    iterates in increasing order. *)
Definition greedy_tsp (all_points : list Coord) (start_node : nat) : list nat :=
  let nodes := seq 0 (length all_points) in
  let unvisited := remove Nat.eq_dec start_node nodes in
  greedy_loop (length unvisited) all_points unvisited [start_node] start_node.

Definition optimize_route_sequence (places : list PlaceDict)
    (start_coords : Coord) : list PlaceDict :=
  match places with
  | [] | [_] => places
  | p0 :: _ =>
      let all_points := start_coords :: map dict_coords places in
      let tour := greedy_tsp all_points 0 in
      map (fun i => nth (i - 1) places p0) (tl tour)
  end.

(** *** find_optimal_places *)

(** The dictionary appended to [places_with_scores] for catalog index [i]. *)
Definition score_place (user_interests : string) (start_coords : Coord)
    (i : nat) (place : Place) : Candidate :=
  let dist_to_start := geodesic start_coords (coords place) in
  let walk_time_to_place := fl (calculate_walking_time dist_to_start / 60) in
  {| base := place;
     similarity_score := cos_sim user_interests i;
     distance_to_start := dist_to_start;
     walk_time_to_place := walk_time_to_place;
     time_required :=
       calculate_time_for_place place (cos_sim user_interests i) |}.

(** [for i, place in enumerate(self.places)], from index [i]. *)
Fixpoint score_places (user_interests : string) (start_coords : Coord)
    (i : nat) (places : list Place) : list Candidate :=
  match places with
  | [] => []
  | place :: rest =>
      score_place user_interests start_coords i place
      :: score_places user_interests start_coords (S i) rest
  end.

(** [key=lambda x: (-x['similarity_score'], x['distance_to_start'])] *)
Definition sort_key (x : Candidate) : Q * Q :=
  (- similarity_score x, distance_to_start x).

Definition ranked_candidates (self_places : list Place)
    (user_interests : string) (start_coords : Coord) : list Candidate :=
  py_sort sort_key (score_places user_interests start_coords 0 self_places).

(** Visit time of [place] plus the walk to it: from the start when the
    combination is empty, from its last place otherwise. *)
Definition place_total_time (combination : list Candidate)
    (place : Candidate) : Q :=
  match combination with
  | [] => fl (time_required place + walk_time_to_place place)
  | _ :: _ =>
      let last_place := last combination place in
      let dist_between :=
        geodesic (coords (base last_place)) (coords (base place)) in
      let walk_time_between :=
        fl (calculate_walking_time dist_between / 60) in
      fl (time_required place + walk_time_between)
  end.

(** The inner loop of a [target_count] pass over the rest of
    [places_with_scores]. *)
Fixpoint fill_loop (target_count : nat) (max_time : Q)
    (rest : list Candidate) (combination : list Candidate)
    (current_total_time : Q) : list Candidate :=
  match rest with
  | [] => combination
  | place :: rest' =>
      if (target_count <=? length combination)%nat then combination
      else if py_in place combination then
        fill_loop target_count max_time rest' combination current_total_time
      else
        let t := place_total_time combination place in
        if Qle_bool (fl (current_total_time + t)) max_time then
          fill_loop target_count max_time rest' (combination ++ [place])
            (fl (current_total_time + t))
        else
          fill_loop target_count max_time rest' combination
            current_total_time
  end.

(** One iteration of [for target_count in [5, 4, 3]]; the state is
    [(best_combination, best_time_diff)].  The window test and the distance
    to the midpoint are taken on the total as [calculate_total_route_time]
    gives it. *)
Definition try_target (places_with_scores : list Candidate)
    (min_time max_time : Q) (start_coords : Coord)
    (best : list Candidate * option Q) (target_count : nat)
    : Py.Exc (list Candidate * option Q) :=
  let combination := fill_loop target_count max_time places_with_scores [] 0 in
  if (3 <=? length combination)%nat then
    r <- calculate_total_route_time (map Scored combination) start_coords ;;
    let total_route_time := fst (fst r) in
    if Qle_bool min_time total_route_time
       && Qle_bool total_route_time max_time then
      let time_diff := Qabs (total_route_time - (min_time + max_time) / 2) in
      if Py.lt_inf time_diff (snd best) then
        Py.Ret (combination, Some time_diff)
      else Py.Ret best
    else Py.Ret best
  else Py.Ret best.

Fixpoint target_loop (places_with_scores : list Candidate)
    (min_time max_time : Q) (start_coords : Coord)
    (targets : list nat) (best : list Candidate * option Q)
    : Py.Exc (list Candidate * option Q) :=
  match targets with
  | [] => Py.Ret best
  | target_count :: targets' =>
      best' <- try_target places_with_scores min_time max_time start_coords
                 best target_count ;;
      target_loop places_with_scores min_time max_time start_coords
        targets' best'
  end.

(** The loop run when no combination was kept: at most 5 places, bounded by
    [max_time] only. *)
Fixpoint fallback_loop (max_time : Q) (rest : list Candidate)
    (best_combination : list Candidate) (current_time : Q)
    : list Candidate :=
  match rest with
  | [] => best_combination
  | place :: rest' =>
      if (5 <=? length best_combination)%nat then best_combination
      else if py_in place best_combination then
        fallback_loop max_time rest' best_combination current_time
      else
        let t := place_total_time best_combination place in
        if Qle_bool (fl (current_time + t)) max_time then
          fallback_loop max_time rest' (best_combination ++ [place])
            (fl (current_time + t))
        else fallback_loop max_time rest' best_combination current_time
  end.

(** The loop that tops the combination up to 3 places. *)
Fixpoint minimum_loop (rest : list Candidate)
    (best_combination : list Candidate) : list Candidate :=
  match rest with
  | [] => best_combination
  | place :: rest' =>
      if (3 <=? length best_combination)%nat then best_combination
      else if negb (py_in place best_combination) then
        minimum_loop rest' (best_combination ++ [place])
      else minimum_loop rest' best_combination
  end.

Definition find_optimal_places (self_places : list Place)
    (user_interests : string) (min_time max_time : Q)
    (start_coords : Coord) : Py.Exc (list Candidate) :=
  match self_places with
  | [] => Py.Ret []
  | _ :: _ =>
      let places_with_scores :=
        ranked_candidates self_places user_interests start_coords in
      best <- target_loop places_with_scores min_time max_time start_coords
                [5; 4; 3]%nat ([], None) ;;
      let best_combination := fst best in
      let best_combination :=
        match best_combination with
        | [] => fallback_loop max_time places_with_scores [] 0
        | _ :: _ => best_combination
        end in
      let best_combination :=
        if (length best_combination <? 3)%nat
           && (3 <=? length places_with_scores)%nat
        then minimum_loop places_with_scores best_combination
        else best_combination in
      Py.Ret best_combination
  end.

(** *** generate_route_plan *)

(** What the messages of a plan are built from. *)
Record RoutePlan : Type := mkRoutePlan {
  optimized_places : list PlaceDict;
  total_route_time : Q;
  total_walking_time_min : Q;
  total_visit_time : Q;
  (** per stop: [similarity_score] and the visit in minutes *)
  stops : list (Q * Q)
}.

Inductive PlanOutcome : Type :=
| NotEnoughData            (** the single message about missing data *)
| Messages (plan : RoutePlan).

(** The per-place lookups of the message loop. *)
Fixpoint stop_lines (places : list PlaceDict) : Py.Exc (list (Q * Q)) :=
  match places with
  | [] => Py.Ret []
  | place :: rest =>
      s <- dict_similarity_score place ;;
      t <- dict_time_required place ;;
      lines <- stop_lines rest ;;
      Py.Ret ((s, t * 60) :: lines)
  end.

Definition generate_route_plan (self_places : list Place)
    (places : list PlaceDict) (min_time max_time : Q)
    (user_interests start_location : string) (start_coords : Coord)
    : Py.Exc PlanOutcome :=
  let substituted :=
    if (length places <? 3)%nat then
      match self_places with
      | [] => None
      | _ :: _ => Some (map Raw (firstn 5 self_places))
      end
    else Some places in
  match substituted with
  | None => Py.Ret NotEnoughData
  | Some places =>
      let places :=
        if (5 <? length places)%nat then firstn 5 places else places in
      let optimized_places := optimize_route_sequence places start_coords in
      r <- calculate_total_route_time optimized_places start_coords ;;
      total_visit_time <- sum_time_required 0 optimized_places ;;
      lines <- stop_lines optimized_places ;;
      Py.Ret (Messages
        {| optimized_places := optimized_places;
           total_route_time := fst (fst r);
           total_walking_time_min := snd (fst r);
           total_visit_time := total_visit_time;
           stops := lines |})
  end.

End Engine.

End Trainer.

(** ** Vocabulary of the specification *)

(** Sum of a list of numbers. *)
Definition Qsum (l : list Q) : Q := fold_right Qplus 0 l.

(** The transitions of a walk that leaves [from] and visits [stops] in
    order: start to first stop, then each consecutive pair. *)
Fixpoint legs (from : Coord) (stops : list Coord) : list (Coord * Coord) :=
  match stops with
  | [] => []
  | c :: rest => (from, c) :: legs c rest
  end.

(** Total walking minutes over the legs of a walk. *)
Definition walking_minutes (geodesic : Coord -> Coord -> Q)
    (from : Coord) (stops : list Coord) : Q :=
  Qsum (map (fun leg =>
               Trainer.calculate_walking_time (geodesic (fst leg) (snd leg)))
            (legs from stops)).

(** ** Sample data *)

(** Arithmetic without rounding, for the samples. *)
Definition no_rounding (x : Q) : Q := x.

Definition mk (i : Z) (lat lon : Q) : Place :=
  {| id := i; address := "Nizhny Novgorod"; coords := (lat, lon);
     description := "sight"; name := "place"; url := "";
     category_id := None |}.

Definition kremlin : Place := mk 1 56.328 44.003.

(** A symmetric stand-in for the geodesic capability: taxicab distance on
    the coordinate grid, 100 km per degree. *)
Definition taxicab (a b : Coord) : Q :=
  100 * (Qabs (fst a - fst b) + Qabs (snd a - snd b)).


(** A tour is greedy from [current] when each stop is a nearest one, by
    geodesic distance from the position before it, among the stops not yet
    visited. *)
Fixpoint greedy_order (geodesic : Coord -> Coord -> Q) (current : Coord)
    (tour : list PlaceDict) : Prop :=
  match tour with
  | [] => True
  | p :: rest =>
      (forall q, In q (p :: rest) ->
         geodesic current (dict_coords p) <= geodesic current (dict_coords q))
      /\ greedy_order geodesic (dict_coords p) rest
  end.

(** The same on node indices with an arbitrary weight. *)
Fixpoint greedy_nodes (w : nat -> nat -> Q) (current : nat)
    (order : list nat) : Prop :=
  match order with
  | [] => True
  | n :: rest =>
      (forall m, In m (n :: rest) -> w current n <= w current m)
      /\ greedy_nodes w n rest
  end.


(** [a] may stand before [b] in the ranking: more similar, or equally
    similar and not farther from the start. *)
Definition ranks_before (a b : Candidate) : Prop :=
  similarity_score b < similarity_score a \/
  (similarity_score a == similarity_score b /\
   distance_to_start a <= distance_to_start b).

(** [a] and [b] tie on both sort keys. *)
Definition same_rank (a b : Candidate) : bool :=
  Qeq_bool (similarity_score a) (similarity_score b) &&
  Qeq_bool (distance_to_start a) (distance_to_start b).

(** [s] is [l] with some elements left out, order kept. *)
Inductive subseq {A : Type} : list A -> list A -> Prop :=
| subseq_nil : subseq [] []
| subseq_skip (x : A) (s l : list A) : subseq s l -> subseq s (x :: l)
| subseq_take (x : A) (s l : list A) : subseq s l -> subseq (x :: s) (x :: l).


(** In a list sorted by [key], [b] may follow [a]: its key is not strictly
    below that of [a]. *)
Definition not_after {A : Type} (key : A -> Q * Q) (a b : A) : Prop :=
  Trainer.tuple_lt (key b) (key a) = false.

(** Both components of the keys are equal. *)
Definition same_key {A : Type} (key : A -> Q * Q) (a b : A) : bool :=
  Qeq_bool (fst (key a)) (fst (key b)) &&
  Qeq_bool (snd (key a)) (snd (key b)).


(** ** Vocabulary for the selection tiers *)

Section SelectionVocabulary.
Variable geodesic : Coord -> Coord -> Q.
Variable fl : Q -> Q.
Variable places_with_scores : list Candidate.
Variables min_time max_time : Q.
Variable start_coords : Coord.

(** The accumulator built by the pass for [target_count]. *)
Definition pass (target_count : nat) : list Candidate :=
  Trainer.fill_loop geodesic fl target_count max_time places_with_scores [] 0.

(** The pass for [target_count] yields a candidate result of exact time
    [total]: at least 3 places, and the total computed by
    [calculate_total_route_time] in accumulation order lies in the
    window. *)
Definition window_fit (target_count : nat) (total : Q) : Prop :=
  (3 <= length (pass target_count))%nat /\
  (exists walk hours,
     Trainer.calculate_total_route_time geodesic
       (map Scored (pass target_count)) start_coords
     = Py.Ret (total, walk, hours)) /\
  min_time <= total <= max_time.

(** Distance of a total to the midpoint of the window. *)
Definition midpoint_distance (total : Q) : Q :=
  Qabs (total - (min_time + max_time) / 2).

(** Loop invariant of [for target_count in [5, 4, 3]]: after the targets
    [seen], the state holds nothing when no pass fitted, and otherwise a
    fitting pass that no other fitting pass beats. *)
Definition best_so_far (seen : list nat)
    (best : list Candidate * option Q) : Prop :=
  match snd best with
  | None =>
      fst best = [] /\
      forall t total, In t seen -> ~ window_fit t total
  | Some diff =>
      exists t total,
        In t seen /\ window_fit t total /\ fst best = pass t /\
        diff = midpoint_distance total /\
        forall t' total', In t' seen -> window_fit t' total' ->
          diff <= midpoint_distance total'
  end.
End SelectionVocabulary.


(** What [find_optimal_places] returns when no pass fitted the window: the
    best-effort fill, topped up to 3 places when the catalog has 3. *)
Definition fallback_result (geodesic : Coord -> Coord -> Q) (fl : Q -> Q)
    (places_with_scores : list Candidate) (max_time : Q) : list Candidate :=
  let filled := pass geodesic fl places_with_scores max_time 5 in
  if (length filled <? 3)%nat && (3 <=? length places_with_scores)%nat
  then Trainer.minimum_loop places_with_scores filled
  else filled.


(** A candidate can open a route within [max_time]: its visit plus the walk
    from the start fits. *)
Definition fits_first (fl : Q -> Q) (max_time : Q) (c : Candidate) : Prop :=
  fl (0 + fl (time_required c + walk_time_to_place c)) <= max_time.


(** Five places around (56.32, 44.00) and their similarities to a query. *)
Definition sample_catalog : list Place :=
  [mk 1 56.33 44; mk 2 56.32 44.01; mk 3 56.325 44.005;
   mk 4 56.31 44; mk 5 56.32 43.98].

Definition sample_scores (query : string) (i : nat) : Q :=
  nth i [0.8; 0.6; 0.4; 0.35; 0.1] 0.

Definition sample_start : Coord := (56.32, 44).


(** A catalog in which one row occurs five times, with the similarity every
    copy gets (equal texts have equal embeddings). *)
Definition repeated_catalog : list Place :=
  [kremlin; kremlin; kremlin; kremlin; kremlin].

Definition constant_scores (query : string) (i : nat) : Q := 0.8.




(** ** Further vocabulary *)

(** The dictionary carries the derived keys. *)
Definition is_scored (d : PlaceDict) : bool :=
  match d with
  | Scored _ => true
  | Raw _ => false
  end.

(** The number of entries of a list, as a rational. *)
Definition count {A : Type} (l : list A) : Q := inject_Z (Z.of_nat (length l)).

(** Two entries are different dictionaries, compared by value. *)
Definition differ_by_value (a b : Candidate) : Prop :=
  Trainer.candidate_eqb a b = false.


(** The stored walk from the start is the walking time of the geodesic
    distance from the start, in hours, as rounded. *)
Definition walk_from_start_ok (geodesic : Coord -> Coord -> Q)
    (fl : Q -> Q) (start_coords : Coord) (c : Candidate) : Prop :=
  walk_time_to_place c
  = fl (Trainer.calculate_walking_time
          (geodesic start_coords (coords (base c))) / 60).

(** What the proofs use of rounding to the nearest double: it keeps the
    order, it leaves a double unchanged, and its relative error is tiny
    (one part in 10^12 is far more than a double ever loses). *)
Definition monotone (fl : Q -> Q) : Prop :=
  forall x y, x <= y -> fl x <= fl y.

Definition representable (fl : Q -> Q) (x : Q) : Prop := fl x == x.

Definition accurate (fl : Q -> Q) : Prop :=
  forall x, Qabs (fl x - x) <= Qabs x * (1 # 1000000000000).


(** ** Input handling and callers *)

(** [word in text] on strings. *)
Definition py_contains (word text : string) : bool :=
  match String.index 0 word text with
  | Some _ => true
  | None => false
  end.

(** [lo <= x <= hi] on floats. *)
Definition between (lo x hi : Q) : bool := Qle_bool lo x && Qle_bool x hi.

(** *** [model_trainer.py]: reading a coordinate cell *)

Module TrainerInput.
Section Parsing.

(** [str.strip] *)
Variable strip : string -> string.
(** [[float(m) for m in re.findall(r'[-+]?\d*\.\d+|\d+', s)]]: every match
    of the pattern is a decimal numeral *)
Variable findall_numbers : string -> list Q.
(** [re.split(r'[,\s]+', s)] *)
Variable re_split : string -> list string.
(** [float(s)]; [None] when it raises [ValueError] or yields no number *)
Variable to_float : string -> option Q.

(** The argument is the cell as text, as the loader passes it. *)
Definition parse_coordinates (coord_str : string) : option Coord :=
  if String.eqb coord_str "nan" then None
  else
    let clean_str := strip coord_str in
    if String.prefix "POINT" clean_str then
      match findall_numbers clean_str with
      | n0 :: n1 :: _ =>
          let lon := n0 in
          let lat := n1 in
          if between 43.0 lon 44.5 && between 56.0 lat 56.5
          then Some (lat, lon) else None
      | _ => None
      end
    else if py_contains "," clean_str || py_contains " " clean_str then
      match re_split clean_str with
      | p0 :: p1 :: _ =>
          match to_float (strip p0) with
          | Some lat =>
              match to_float (strip p1) with
              | Some lon =>
                  if between 56.0 lat 56.5 && between 43.0 lon 44.5
                  then Some (lat, lon) else None
              | None => None
              end
          | None => None
          end
      | _ => None
      end
    else None.

End Parsing.
End TrainerInput.

(** *** [route_planner.py]: the start point and the planning run *)

Module Guide.
Section Run.

Variable geodesic : Coord -> Coord -> Q.
Variable cos_sim : string -> nat -> Q.
Variable fl : Q -> Q.
(** [str.strip], [str.lower] *)
Variable strip : string -> string.
Variable lower : string -> string.
(** [re.sub(r'[,\s]+', ' ', s).strip().split()] *)
Variable tokens : string -> list string.
(** [float(s)]; [None] when it raises [ValueError] or yields no number *)
Variable to_float : string -> option Q.
(** [Nominatim.geocode(query, timeout=10)] as latitude, longitude and
    address; [None] when nothing is found or the service fails *)
Variable geocode : string -> option (Q * Q * string).
(** [f"Координаты ({lat:.6f}, {lon:.6f})"] *)
Variable coordinates_label : Q -> Q -> string.

Definition geocode_address (address_query : string)
    : option (Coord * string) :=
  let query := strip address_query in
  if String.eqb query "" then None
  else
    let full_query :=
      if negb (existsb (fun word => py_contains word (lower query))
                 ["нижний новгород"; "nizhny novgorod"; "нижний";
                  "новгород"]%string)
      then ("Нижний Новгород, " ++ query)%string
      else query in
    match geocode full_query with
    | Some (lat, lon, address) =>
        if between 55.8 lat 56.8 && between 43.0 lon 44.8
        then Some ((lat, lon), address) else None
    | None => None
    end.

Definition parse_user_coordinates (coord_str : string)
    : option (Coord * string) :=
  if String.eqb coord_str "" then None
  else
    let parts := tokens coord_str in
    let parsed :=
      match parts with
      | [p0; p1] =>
          match to_float p0 with
          | Some lat =>
              match to_float p1 with
              | Some lon =>
                  if between 55.8 lat 56.8 && between 43.0 lon 44.8
                  then Some ((lat, lon), coordinates_label lat lon)
                  else None
              | None => None
              end
          | None => None
          end
      | _ => None
      end in
    match parsed with
    | Some r => Some r
    | None => geocode_address coord_str
    end.

(** What [create_walk_plan] prints. *)
Inductive WalkOutcome : Type :=
| NoPlaceData                       (** no data about places *)
| NothingFound                      (** no suitable places found *)
| PlanPrinted (plan : Trainer.PlanOutcome).

(** [create_walk_plan], given what [get_user_input] returned. *)
Definition create_walk_plan (self_places : list Place)
    (user_interests : string) (min_time max_time : Q)
    (start_coords : Coord) (start_location : string)
    : Py.Exc WalkOutcome :=
  match self_places with
  | [] => Py.Ret NoPlaceData
  | _ :: _ =>
      relevant_places <-
        Trainer.find_optimal_places geodesic cos_sim fl self_places
          user_interests min_time max_time start_coords ;;
      match relevant_places with
      | [] => Py.Ret NothingFound
      | _ :: _ =>
          plan <- Trainer.generate_route_plan geodesic self_places
                    (map Scored relevant_places) min_time max_time
                    user_interests start_location start_coords ;;
          Py.Ret (PlanPrinted plan)
      end
  end.

End Run.
End Guide.

(** *** [tg_bot.py]: generating and sending the route *)

Module Bot.

(** [range(0, stop, step)] for a positive step. *)
Definition py_range_step (stop step : nat) : list nat :=
  map (fun k => (k * step)%nat) (seq 0 ((stop + step - 1) / step)).

(** [msg[i:j]] *)
Definition py_slice {Char : Type} (msg : list Char) (i j : nat) : list Char :=
  firstn (j - i) (skipn i msg).

(** The texts sent for one message of the plan; a message is a sequence of
    characters. *)
Definition message_parts {Char : Type} (msg : list Char) : list (list Char) :=
  if (4096 <? length msg)%nat then
    map (fun i => py_slice msg i (i + 4096)) (py_range_step (length msg) 4096)
  else [msg].

(** What the [except Exception] clause of [generate_route_state] caught. *)
Inductive Raised : Type :=
| RaisedKeyError (key : string)
| RaisedTypeError.       (** [None['model']]: no model was loaded *)

(** What the user receives from [generate_route_state]. *)
Inductive Reply : Type :=
| NoPlacesFound
| RouteSent (plan : Trainer.PlanOutcome)
| GenerationError (e : Raised).

Section Generation.
Variable geodesic : Coord -> Coord -> Q.
Variable cos_sim : string -> nat -> Q.
Variable fl : Q -> Q.

(** The session fields [generate_route_state] reads, the start being set. *)
Record UserSession : Type := mkUserSession {
  user_interests : string;
  min_time : Q;
  max_time : Q;
  start_coords : Coord;
  start_location : string
}.

(** [trained_model] is [session.trained_model] reduced to its ['places']:
    [None] until the catalog was loaded, which an empty catalog never is
    ([get_trained_model] raises for it and the session keeps [None]). *)
Definition generate_route_state (trained_model : option (list Place))
    (session : UserSession) : Reply :=
  match trained_model with
  | None => GenerationError RaisedTypeError
  | Some trained_places =>
      let attempt :=
        relevant_places <-
          Trainer.find_optimal_places geodesic cos_sim fl trained_places
            (user_interests session) (min_time session) (max_time session)
            (start_coords session) ;;
        match relevant_places with
        | [] => Py.Ret NoPlacesFound
        | _ :: _ =>
            messages <- Trainer.generate_route_plan geodesic trained_places
                          (map Scored relevant_places) (min_time session)
                          (max_time session) (user_interests session)
                          (start_location session) (start_coords session) ;;
            Py.Ret (RouteSent messages)
        end in
      match attempt with
      | Py.Ret reply => reply
      | Py.KeyError key => GenerationError (RaisedKeyError key)
      end
  end.

End Generation.
End Bot.


(** ** Sample input handling *)

(** The scored sample catalog, in catalog order. *)
Definition sample_selection : list Candidate :=
  Trainer.score_places taxicab sample_scores no_rounding
    "museums" sample_start 0
    sample_catalog.

(** A reader of two numerals, standing in for [float]. *)
Definition sample_float (s : string) : option Q :=
  if String.eqb s "56.3" then Some 56.3
  else if String.eqb s "44.0" then Some 44.0
  else None.

(** A tokenizer for the text ["56.3, 44.0"]. *)
Definition sample_tokens (s : string) : list string := ["56.3"; "44.0"]%string.

(** A geocoder that finds nothing. *)
Definition no_geocoder (query : string) : option (Q * Q * string) := None.

Definition sample_label (lat lon : Q) : string := "coordinates".

Definition sample_session : Bot.UserSession :=
  {| Bot.user_interests := "museums"; Bot.min_time := 1; Bot.max_time := 2;
     Bot.start_coords := sample_start; Bot.start_location := "Pokrovskaya" |}.


(** ** Rows compared by value *)

(** A row with its coordinates in lowest terms: two rows are equal by value
    exactly when these normal forms are the same record. *)
Definition row_key (p : Place) : Place :=
  {| id := id p; address := address p;
     coords := (Qred (fst (coords p)), Qred (snd (coords p)));
     description := description p; name := name p; url := url p;
     category_id := category_id p |}.

Definition candidate_key (c : Candidate) : Place := row_key (base c).

(** No two rows of the catalog are equal by value; rows with distinct ids
    are. *)
Definition distinct_rows (l : list Place) : Prop :=
  ForallOrdPairs (fun a b => Trainer.place_eqb a b = false) l.

(** The catalog holds three rows that differ from one another by value; any
    three rows do when no two rows are the same. *)
Definition three_different_rows (l : list Place) : Prop :=
  exists a b c,
    In a l /\ In b l /\ In c l /\
    Trainer.place_eqb a b = false /\ Trainer.place_eqb a c = false /\
    Trainer.place_eqb b c = false.

(** ** The tiers as walks of a list *)

(** One candidate offered to the accumulator of a [target_count] pass; the
    state is the accumulator and its running total. *)
Definition offer (geodesic : Coord -> Coord -> Q) (fl : Q -> Q)
    (target_count : nat)
    (max_time : Q) (state : list Candidate * Q) (place : Candidate)
    : list Candidate * Q :=
  if (target_count <=? length (fst state))%nat then state
  else if Trainer.py_in place (fst state) then state
  else
    let t := Trainer.place_total_time geodesic fl (fst state) place in
    if Qle_bool (fl (snd state + t)) max_time
    then (fst state ++ [place], fl (snd state + t))
    else state.

(** One candidate offered to the list being topped up to 3 places. *)
Definition top_up (best : list Candidate) (place : Candidate)
    : list Candidate :=
  if (3 <=? length best)%nat then best
  else if negb (Trainer.py_in place best) then best ++ [place]
  else best.


(** * Properties *)

(** ** Comparisons and clamping *)

Lemma Qlt_bool_iff (a b : Q) : Py.Qlt_bool a b = true <-> a < b.
Proof.
  unfold Py.Qlt_bool. rewrite negb_true_iff.
  split; intro H.
  - destruct (Qlt_le_dec a b) as [Hl|Hl]; [exact Hl|].
    apply Qle_bool_iff in Hl. congruence.
  - destruct (Qle_bool b a) eqn:E; [|reflexivity].
    apply Qle_bool_iff in E. lra.
Qed.

Lemma Qlt_bool_false_iff (a b : Q) : Py.Qlt_bool a b = false <-> b <= a.
Proof.
  unfold Py.Qlt_bool. rewrite negb_false_iff. apply Qle_bool_iff.
Qed.

Lemma Qle_bool_false_iff (a b : Q) : Qle_bool a b = false <-> b < a.
Proof.
  rewrite <- Qlt_bool_iff. unfold Py.Qlt_bool.
  destruct (Qle_bool a b); simpl; split; congruence.
Qed.

Lemma py_max_spec (a b : Q) : a <= Py.max a b /\ b <= Py.max a b /\
  (Py.max a b == a \/ Py.max a b == b).
Proof.
  unfold Py.max. destruct (Py.Qlt_bool a b) eqn:E.
  - apply Qlt_bool_iff in E. repeat split; try lra; right; reflexivity.
  - apply Qlt_bool_false_iff in E. repeat split; try lra; left; reflexivity.
Qed.

Lemma py_min_spec (a b : Q) : Py.min a b <= a /\ Py.min a b <= b /\
  (Py.min a b == a \/ Py.min a b == b).
Proof.
  unfold Py.min. destruct (Py.Qlt_bool b a) eqn:E.
  - apply Qlt_bool_iff in E. repeat split; try lra; right; reflexivity.
  - apply Qlt_bool_false_iff in E. repeat split; try lra; left; reflexivity.
Qed.

Lemma clamp_max_min (x : Q) : Py.max 5 (Py.min 120 x) == clamp x 5 120.
Proof.
  unfold clamp, Py.max, Py.min.
  destruct (Py.Qlt_bool x 120) eqn:E1; destruct (Py.Qlt_bool x 5) eqn:E2;
    destruct (Py.Qlt_bool 120 x) eqn:E3; simpl;
    repeat match goal with
    | H : Py.Qlt_bool _ _ = true |- _ => apply Qlt_bool_iff in H
    | H : Py.Qlt_bool _ _ = false |- _ => apply Qlt_bool_false_iff in H
    end;
    try lra;
    match goal with
    | |- (if ?b then _ else _) == _ => destruct b eqn:E4
    end;
    repeat match goal with
    | H : Py.Qlt_bool _ _ = true |- _ => apply Qlt_bool_iff in H
    | H : Py.Qlt_bool _ _ = false |- _ => apply Qlt_bool_false_iff in H
    end; lra.
Qed.

Lemma walking_time_bounds (d : Q) :
  5 <= Trainer.calculate_walking_time d <= 120.
Proof.
  unfold Trainer.calculate_walking_time.
  rewrite clamp_max_min. unfold clamp.
  destruct (Py.Qlt_bool (d / 4 * 60) 5) eqn:E1; [lra|].
  destruct (Py.Qlt_bool 120 (d / 4 * 60)) eqn:E2; [lra|].
  apply Qlt_bool_false_iff in E1, E2. lra.
Qed.

(** ** Dwell tiers (C4) *)

(** C4, as stated, fails: similarity exactly 0.5 is not above the 0.5
    threshold, so it receives 0.25 hours and not 0.3. *)
Lemma dwell_half_is_not_030 :
  ~ (Trainer.calculate_time_for_place kremlin 0.5 == 0.3).
Proof. vm_compute. discriminate. Qed.

(** C4, amended: [calculate_time_for_place] is the 4-tier step function of
    similarity with strict thresholds: above 0.7 gives 0.4 hours, otherwise
    above 0.5 gives 0.3, otherwise above 0.3 gives 0.25, anything else 0.2.
    In particular 0.75 gives 0.4, exactly 0.5 gives 0.25 and 0.1 gives 0.2. *)
Theorem dwell_tiers (p : Place) (s : Q) :
  (0.7 < s -> Trainer.calculate_time_for_place p s = 0.4) /\
  (s <= 0.7 -> 0.5 < s -> Trainer.calculate_time_for_place p s = 0.3) /\
  (s <= 0.5 -> 0.3 < s -> Trainer.calculate_time_for_place p s = 0.25) /\
  (s <= 0.3 -> Trainer.calculate_time_for_place p s = 0.2) /\
  Trainer.calculate_time_for_place p 0.75 = 0.4 /\
  Trainer.calculate_time_for_place p 0.5 = 0.25 /\
  Trainer.calculate_time_for_place p 0.1 = 0.2.
Proof.
  unfold Trainer.calculate_time_for_place.
  repeat split; try reflexivity; intros;
    repeat match goal with
    | |- (if Py.Qlt_bool ?a ?b then _ else _) = _ =>
        let E := fresh "E" in
        destruct (Py.Qlt_bool a b) eqn:E;
        [apply Qlt_bool_iff in E | apply Qlt_bool_false_iff in E]
    end; try reflexivity; lra.
Qed.

(** ** Walking time (C5) *)

(** C5: for every non-negative distance, the walking time in minutes is the
    distance at 4 km/h clamped to [5, 120], in the trainer and in the planner
    alike; 0.1 km gives 5, 50 km gives 120 and 4 km gives 60. *)
Theorem walking_time_is_clamp (d : Q) (Hd : 0 <= d) :
  Trainer.calculate_walking_time d == clamp (d / 4 * 60) 5 120 /\
  Planner.calculate_walking_time d == clamp (d / 4 * 60) 5 120 /\
  Trainer.calculate_walking_time 0.1 == 5 /\
  Trainer.calculate_walking_time 50 == 120 /\
  Trainer.calculate_walking_time 4 == 60 /\
  Planner.calculate_walking_time 0.1 == 5 /\
  Planner.calculate_walking_time 50 == 120 /\
  Planner.calculate_walking_time 4 == 60.
Proof.
  repeat split; try reflexivity;
    unfold Trainer.calculate_walking_time, Planner.calculate_walking_time;
    apply clamp_max_min.
Qed.

Lemma walking_time_is_clamp_witness :
  0 <= 2 /\ Trainer.calculate_walking_time 2 == clamp (2 / 4 * 60) 5 120.
Proof.
  split; [lra | apply (walking_time_is_clamp 2); lra].
Defined.

Lemma dwell_tiers_witness :
  0.7 < 0.8 /\ Trainer.calculate_time_for_place kremlin 0.8 = 0.4.
Proof.
  split; [lra | apply (dwell_tiers kremlin 0.8); lra].
Defined.

(** ** Route time accounting (C9) *)

Section Accounting.
Variable geodesic : Coord -> Coord -> Q.
Variable fl : Q -> Q.

Lemma sum_time_required_scored (cs : list Candidate) (acc : Q) :
  exists v, Trainer.sum_time_required acc (map Scored cs) = Py.Ret v /\
            v == acc + Qsum (map time_required cs).
Proof.
  revert acc. induction cs as [|c cs IH]; intros acc; simpl.
  - exists acc. split; [reflexivity | lra].
  - destruct (IH (acc + time_required c)) as [v [Hv Heq]].
    exists v. split; [exact Hv|]. rewrite Heq. unfold Qsum. simpl. lra.
Qed.

Lemma walking_loop_sum (rest : list PlaceDict) (total : Q) (current : Coord) :
  Trainer.walking_loop geodesic rest total current ==
  total + walking_minutes geodesic current (map dict_coords rest).
Proof.
  revert total current. induction rest as [|p rest IH]; intros; simpl.
  - unfold walking_minutes, Qsum. simpl. lra.
  - rewrite IH. unfold walking_minutes, Qsum. simpl. lra.
Qed.

Lemma route_time_scored (cs : list Candidate) (start_coords : Coord) :
  exists visit total walk hours,
    Trainer.sum_time_required 0 (map Scored cs) = Py.Ret visit /\
    Trainer.calculate_total_route_time geodesic (map Scored cs) start_coords
      = Py.Ret (total, walk, hours) /\
    visit == Qsum (map time_required cs) /\
    walk == walking_minutes geodesic start_coords
              (map (fun c => coords (base c)) cs) /\
    hours == walk / 60 /\
    total == visit + walk / 60.
Proof.
  destruct cs as [|c cs].
  - exists 0, 0, 0, 0. unfold walking_minutes, Qsum. simpl.
    repeat split; lra.
  - destruct (sum_time_required_scored (c :: cs) 0) as [v [Hv Heq]].
    unfold Trainer.calculate_total_route_time.
    change (map Scored (c :: cs)) with (Scored c :: map Scored cs) in *.
    rewrite Hv. simpl Py.bind.
    eexists; eexists; eexists; eexists.
    split; [reflexivity|]. split; [reflexivity|].
    split; [rewrite Heq; lra|].
    split; [|split; reflexivity].
    rewrite walking_loop_sum. rewrite map_map.
    unfold walking_minutes, Qsum. simpl. lra.
Qed.

Lemma route_time_returns (cs : list Candidate) (start_coords : Coord) :
  exists total walk hours,
    Trainer.calculate_total_route_time geodesic (map Scored cs) start_coords
    = Py.Ret (total, walk, hours).
Proof.
  destruct (route_time_scored cs start_coords)
    as [visit [total [walk [hours [_ [H _]]]]]].
  exists total, walk, hours. exact H.
Qed.

(** C9: for a non-empty ordered list of scored places and a start
    coordinate, [calculate_total_route_time] returns; the visit time it
    adds up is the sum of the places' [time_required]; the walking minutes
    are the sum of [calculate_walking_time] over the start-to-first leg and
    every consecutive pair; the total is the visit time plus the walking
    minutes divided by 60 (also returned on its own as the walking
    hours). *)
Theorem route_time_accounting (cs : list Candidate) (start_coords : Coord)
    (Hne : cs <> []) :
  exists visit total walk hours,
    Trainer.sum_time_required 0 (map Scored cs) = Py.Ret visit /\
    Trainer.calculate_total_route_time geodesic (map Scored cs) start_coords
      = Py.Ret (total, walk, hours) /\
    visit == Qsum (map time_required cs) /\
    walk == walking_minutes geodesic start_coords
              (map (fun c => coords (base c)) cs) /\
    hours == walk / 60 /\
    total == visit + walk / 60.
Proof.
  apply route_time_scored.
Qed.

End Accounting.

Lemma route_time_accounting_witness :
  exists visit total walk hours,
    Trainer.sum_time_required 0
      (map Scored [Trainer.score_place taxicab (fun _ _ => 0.8) no_rounding
                    "museums"
                     (56.32, 44) 0%nat kremlin]) = Py.Ret visit /\
    Trainer.calculate_total_route_time taxicab
      (map Scored [Trainer.score_place taxicab (fun _ _ => 0.8) no_rounding
                    "museums"
                     (56.32, 44) 0%nat kremlin]) (56.32, 44)
      = Py.Ret (total, walk, hours) /\
    visit == Qsum (map time_required
               [Trainer.score_place taxicab (fun _ _ => 0.8) no_rounding
                 "museums"
                  (56.32, 44) 0%nat kremlin]) /\
    walk == walking_minutes taxicab (56.32, 44)
              (map (fun c => coords (base c))
                 [Trainer.score_place taxicab (fun _ _ => 0.8) no_rounding
                   "museums"
                    (56.32, 44) 0%nat kremlin]) /\
    hours == walk / 60 /\
    total == visit + walk / 60.
Proof.
  apply (route_time_accounting taxicab
           [Trainer.score_place taxicab (fun _ _ => 0.8) no_rounding "museums"
              (56.32, 44) 0%nat kremlin] (56.32, 44)).
  discriminate.
Defined.

(** ** Nearest-neighbour sequencing (C6) *)

Lemma py_min_by_in (key : nat -> Q) (rest : list nat) (x : nat) :
  In (Trainer.py_min_by key x rest) (x :: rest).
Proof.
  revert x. induction rest as [|y rest IH]; intros x; simpl.
  - left; reflexivity.
  - destruct (Py.Qlt_bool (key y) (key x)).
    + right. apply IH.
    + destruct (IH x) as [H|H]; [left; exact H | right; right; exact H].
Qed.

Lemma py_min_by_least (key : nat -> Q) (rest : list nat) (x m : nat) :
  In m (x :: rest) -> key (Trainer.py_min_by key x rest) <= key m.
Proof.
  revert x m. induction rest as [|y rest IH]; intros x m Hin; simpl.
  - destruct Hin as [->|[]]. lra.
  - destruct (Py.Qlt_bool (key y) (key x)) eqn:E.
    + apply Qlt_bool_iff in E.
      destruct Hin as [<-|[<-|Hin]].
      * pose proof (IH y y (or_introl eq_refl)). lra.
      * apply IH. left; reflexivity.
      * apply IH. right; exact Hin.
    + apply Qlt_bool_false_iff in E.
      destruct Hin as [<-|[<-|Hin]].
      * apply IH. left; reflexivity.
      * pose proof (IH x x (or_introl eq_refl)). lra.
      * apply IH. right; exact Hin.
Qed.

Lemma remove_present_perm (x : nat) (l : list nat) :
  NoDup l -> In x l -> Permutation (x :: remove Nat.eq_dec x l) l.
Proof.
  induction l as [|y l IH]; intros Hnd Hin; [destruct Hin|].
  inversion Hnd as [|? ? Hny Hnd']; subst.
  simpl. destruct (Nat.eq_dec x y) as [->|Hxy].
  - rewrite notin_remove by exact Hny. apply Permutation_refl.
  - destruct Hin as [Heq|Hin]; [congruence|].
    eapply Permutation_trans; [apply perm_swap|].
    apply perm_skip. apply IH; assumption.
Qed.

Lemma remove_keeps_NoDup (x : nat) (l : list nat) :
  NoDup l -> NoDup (remove Nat.eq_dec x l).
Proof.
  induction l as [|y l IH]; intros Hnd; simpl; [constructor|].
  inversion Hnd as [|? ? Hny Hnd']; subst.
  destruct (Nat.eq_dec x y); [apply IH; exact Hnd'|].
  constructor; [|apply IH; exact Hnd'].
  intro Hin. apply in_remove in Hin. tauto.
Qed.

Lemma nth_over_seq {A : Type} (l : list A) (d : A) :
  map (fun i => nth i l d) (seq 0 (length l)) = l.
Proof.
  induction l as [|a l IH]; [reflexivity|].
  simpl. f_equal. rewrite <- seq_shift, map_map. exact IH.
Qed.

Lemma places_of_nodes (places : list PlaceDict) (p0 : PlaceDict) :
  map (fun i => nth (i - 1) places p0) (seq 1 (length places)) = places.
Proof.
  rewrite <- seq_shift, map_map.
  erewrite map_ext; [apply nth_over_seq|].
  intros i. simpl. rewrite Nat.sub_0_r. reflexivity.
Qed.

Lemma point_of_node (places : list PlaceDict) (p0 : PlaceDict)
    (start_coords : Coord) (i : nat) :
  (1 <= i <= length places)%nat ->
  nth i (start_coords :: map dict_coords places) (0, 0)
  = dict_coords (nth (i - 1) places p0).
Proof.
  intros Hi. destruct i as [|k]; [lia|].
  simpl. rewrite Nat.sub_0_r.
  rewrite (nth_indep _ (0, 0) (dict_coords p0))
    by (rewrite length_map; lia).
  apply map_nth.
Qed.

Section Sequencing.
Variable geodesic : Coord -> Coord -> Q.
Variable fl : Q -> Q.

Lemma greedy_loop_spec (all_points : list Coord) (fuel : nat) :
  forall unvisited tour current,
    NoDup unvisited -> fuel = length unvisited ->
    exists order,
      Trainer.greedy_loop geodesic fuel all_points unvisited tour current
        = tour ++ order /\
      Permutation order unvisited /\
      greedy_nodes (Trainer.edge_weight geodesic all_points) current order.
Proof.
  induction fuel as [|fuel IH]; intros unvisited tour current Hnd Hlen.
  - destruct unvisited; [|discriminate]. exists []. simpl.
    rewrite app_nil_r. repeat split. constructor.
  - destruct unvisited as [|x rest]; [discriminate|].
    cbn [Trainer.greedy_loop].
    set (key := fun n => Trainer.edge_weight geodesic all_points current n).
    set (next := Trainer.py_min_by key x rest).
    assert (Hin : In next (x :: rest)) by apply py_min_by_in.
    pose proof (remove_present_perm next (x :: rest) Hnd Hin) as Hperm.
    assert (Hlen' : fuel = length (remove Nat.eq_dec next (x :: rest))).
    { apply Permutation_length in Hperm.
      change (length (next :: remove Nat.eq_dec next (x :: rest)))
        with (S (length (remove Nat.eq_dec next (x :: rest)))) in Hperm.
      rewrite <- Hlen in Hperm. injection Hperm as Hperm. symmetry.
      exact Hperm. }
    destruct (IH (remove Nat.eq_dec next (x :: rest)) (tour ++ [next]) next
                (remove_keeps_NoDup _ _ Hnd) Hlen') as [order [Heq [Hp Hg]]].
    exists (next :: order). split; [|split].
    + rewrite Heq. rewrite <- app_assoc. reflexivity.
    + eapply Permutation_trans; [apply perm_skip; exact Hp | exact Hperm].
    + split; [|exact Hg].
      intros m Hm. apply (py_min_by_least key rest x m).
      eapply Permutation_in; [|exact Hm].
      eapply Permutation_trans; [apply perm_skip; exact Hp | exact Hperm].
Qed.

Lemma greedy_tsp_spec (all_points : list Coord) :
  exists order,
    Trainer.greedy_tsp geodesic all_points 0 = 0%nat :: order /\
    Permutation order (seq 1 (length all_points - 1)) /\
    greedy_nodes (Trainer.edge_weight geodesic all_points) 0 order.
Proof.
  unfold Trainer.greedy_tsp.
  destruct all_points as [|c pts].
  - exists []. simpl. repeat split. constructor.
  - assert (Hrem : remove Nat.eq_dec 0%nat (seq 0 (length (c :: pts)))
                   = seq 1 (length pts)).
    { simpl. apply notin_remove. rewrite in_seq. lia. }
    rewrite Hrem.
    destruct (greedy_loop_spec (c :: pts) (length (seq 1 (length pts)))
                (seq 1 (length pts)) [0%nat] 0%nat (seq_NoDup _ _) eq_refl)
      as [order [Heq [Hp Hg]]].
    exists order.
    replace (length (c :: pts) - 1)%nat with (length pts) by (simpl; lia).
    split; [exact Heq | split; assumption].
Qed.

Lemma tour_permutation (places : list PlaceDict) (start_coords : Coord) :
  Permutation (Trainer.optimize_route_sequence geodesic places start_coords)
    places.
Proof.
  destruct places as [|p0 [|p1 rest]]; try apply Permutation_refl.
  set (places := p0 :: p1 :: rest).
  change (Trainer.optimize_route_sequence geodesic places start_coords)
    with (map (fun i => nth (i - 1) places p0)
            (tl (Trainer.greedy_tsp geodesic
                   (start_coords :: map dict_coords places) 0))).
  destruct (greedy_tsp_spec (start_coords :: map dict_coords places))
    as [order [Heq [Hp _]]].
  rewrite Heq. cbn [tl].
  replace (length (start_coords :: map dict_coords places) - 1)%nat
    with (length places) in Hp by (simpl; rewrite length_map; lia).
  eapply Permutation_trans; [apply Permutation_map; exact Hp|].
  rewrite places_of_nodes. apply Permutation_refl.
Qed.

End Sequencing.

Section Anchoring.
Variable geodesic : Coord -> Coord -> Q.
Variable fl : Q -> Q.
Hypothesis geodesic_sym : forall a b, geodesic a b == geodesic b a.

Lemma edge_weight_geodesic (all_points : list Coord) (i j : nat) :
  Trainer.edge_weight geodesic all_points i j ==
  geodesic (nth i all_points (0, 0)) (nth j all_points (0, 0)).
Proof.
  unfold Trainer.edge_weight.
  destruct (Nat.le_gt_cases i j) as [H|H].
  - rewrite Nat.min_l, Nat.max_r by lia. reflexivity.
  - rewrite Nat.min_r, Nat.max_l by lia. apply geodesic_sym.
Qed.

Lemma greedy_nodes_order (places : list PlaceDict) (p0 : PlaceDict)
    (start_coords : Coord) (order : list nat) :
  forall current,
    (forall i, In i order -> (1 <= i <= length places)%nat) ->
    greedy_nodes
      (Trainer.edge_weight geodesic (start_coords :: map dict_coords places))
      current order ->
    greedy_order geodesic
      (nth current (start_coords :: map dict_coords places) (0, 0))
      (map (fun i => nth (i - 1) places p0) order).
Proof.
  induction order as [|n rest IH]; intros current Hrange Hg;
    [exact I|].
  destruct Hg as [Hmin Hg]. split.
  - intros q Hq. change (In q (map (fun i => nth (i - 1) places p0)
                                 (n :: rest))) in Hq.
    apply in_map_iff in Hq. destruct Hq as [m [<- Hm]].
    specialize (Hmin m Hm). rewrite !edge_weight_geodesic in Hmin.
    rewrite (point_of_node places p0 start_coords n) in Hmin
      by (apply Hrange; left; reflexivity).
    rewrite (point_of_node places p0 start_coords m) in Hmin
      by (apply Hrange; exact Hm).
    exact Hmin.
  - rewrite <- (point_of_node places p0 start_coords n)
      by (apply Hrange; left; reflexivity).
    apply IH; [|exact Hg].
    intros i Hi. apply Hrange. right; exact Hi.
Qed.

(** C6: the tour returned by [optimize_route_sequence] is a reordering of
    the given places (the start is not part of it); its first place is a
    geodesically nearest member to the start coordinate, and every later
    place is a nearest not-yet-visited member to the place visited just
    before it.  The distance capability is symmetric. *)
Theorem tour_is_nearest_neighbour (places : list PlaceDict)
    (start_coords : Coord) :
  Permutation (Trainer.optimize_route_sequence geodesic places start_coords)
    places /\
  greedy_order geodesic start_coords
    (Trainer.optimize_route_sequence geodesic places start_coords).
Proof.
  destruct places as [|p0 [|p1 rest]].
  - split; [constructor | exact I].
  - split; [apply Permutation_refl|].
    split; [|exact I]. intros q [<-|[]]. lra.
  - set (places := p0 :: p1 :: rest).
    change (Trainer.optimize_route_sequence geodesic places start_coords)
      with (map (fun i => nth (i - 1) places p0)
              (tl (Trainer.greedy_tsp geodesic
                     (start_coords :: map dict_coords places) 0))).
    destruct (greedy_tsp_spec geodesic
                (start_coords :: map dict_coords places))
      as [order [Heq [Hp Hg]]].
    replace (length (start_coords :: map dict_coords places) - 1)%nat
      with (length places) in Hp by (simpl; rewrite length_map; lia).
    split; [exact (tour_permutation geodesic places start_coords)|].
    rewrite Heq. cbn [tl].
    apply (greedy_nodes_order places p0 start_coords order 0%nat);
      [|exact Hg].
    intros i Hi. apply (Permutation_in _ Hp) in Hi.
    apply in_seq in Hi. lia.
Qed.

End Anchoring.

Lemma taxicab_sym (a b : Coord) : taxicab a b == taxicab b a.
Proof.
  unfold taxicab.
  rewrite (Qabs_Qminus (fst a) (fst b)), (Qabs_Qminus (snd a) (snd b)).
  reflexivity.
Qed.

Lemma tour_is_nearest_neighbour_witness :
  Permutation
    (Trainer.optimize_route_sequence taxicab
       [Raw (mk 1 56.33 44.01); Raw (mk 2 56.321 44); Raw (mk 3 56.4 44.1)]
       (56.32, 44))
    [Raw (mk 1 56.33 44.01); Raw (mk 2 56.321 44); Raw (mk 3 56.4 44.1)] /\
  greedy_order taxicab (56.32, 44)
    (Trainer.optimize_route_sequence taxicab
       [Raw (mk 1 56.33 44.01); Raw (mk 2 56.321 44); Raw (mk 3 56.4 44.1)]
       (56.32, 44)).
Proof.
  exact (tour_is_nearest_neighbour taxicab taxicab_sym
           [Raw (mk 1 56.33 44.01); Raw (mk 2 56.321 44); Raw (mk 3 56.4 44.1)]
           (56.32, 44)).
Defined.

Example tour_sample :
  Trainer.optimize_route_sequence taxicab
    [Raw (mk 1 56.33 44.01); Raw (mk 2 56.321 44); Raw (mk 3 56.4 44.1)]
    (56.32, 44)
  = [Raw (mk 2 56.321 44); Raw (mk 1 56.33 44.01); Raw (mk 3 56.4 44.1)].
Proof. vm_compute. reflexivity. Qed.

(** ** Substituting raw catalog entries (C10) *)

Section RawSubstitution.
Variable geodesic : Coord -> Coord -> Q.
Variable fl : Q -> Q.

Lemma raw_tour_shape (raw : list Place) (start_coords : Coord) :
  raw <> [] ->
  exists p rest,
    Trainer.optimize_route_sequence geodesic (map Raw raw) start_coords
    = Raw p :: rest.
Proof.
  intros Hne.
  pose proof (tour_permutation geodesic (map Raw raw) start_coords) as Hp.
  destruct (Trainer.optimize_route_sequence geodesic (map Raw raw)
              start_coords) as [|d rest].
  - apply Permutation_nil in Hp. destruct raw; [congruence|discriminate].
  - assert (Hin : In d (map Raw raw)).
    { eapply Permutation_in; [exact Hp | left; reflexivity]. }
    apply in_map_iff in Hin. destruct Hin as [p [<- _]].
    exists p, rest. reflexivity.
Qed.

(** C10: with a non-empty catalog, an input of fewer than 3 places is
    replaced by the first 5 raw catalog entries; these have no
    [time_required], so the total-time computation on the sequenced
    entries raises [KeyError('time_required')] and so does the whole
    call: no itinerary is returned. *)
Theorem short_input_raises (self_places : list Place)
    (places : list PlaceDict) (min_time max_time : Q)
    (user_interests start_location : string) (start_coords : Coord) :
  self_places <> [] -> (length places < 3)%nat ->
  Trainer.calculate_total_route_time geodesic
    (Trainer.optimize_route_sequence geodesic
       (map Raw (firstn 5 self_places)) start_coords) start_coords
    = Py.KeyError "time_required" /\
  Trainer.generate_route_plan geodesic self_places places min_time max_time
    user_interests start_location start_coords
    = Py.KeyError "time_required".
Proof.
  intros Hne Hlen.
  assert (Hfirst : firstn 5 self_places <> []).
  { destruct self_places; [congruence | discriminate]. }
  destruct (raw_tour_shape (firstn 5 self_places) start_coords Hfirst)
    as [p [rest Heq]].
  assert (Hraise :
    Trainer.calculate_total_route_time geodesic
      (Trainer.optimize_route_sequence geodesic
         (map Raw (firstn 5 self_places)) start_coords) start_coords
    = Py.KeyError "time_required").
  { rewrite Heq. reflexivity. }
  split; [exact Hraise|].
  unfold Trainer.generate_route_plan.
  apply Nat.ltb_lt in Hlen. rewrite Hlen.
  destruct self_places as [|p0 ps]; [congruence|].
  assert (Hshort : (5 <? length (map Raw (firstn 5 (p0 :: ps))))%nat = false).
  { apply Nat.ltb_ge. rewrite length_map. apply firstn_le_length. }
  rewrite Hshort, Hraise. reflexivity.
Qed.

End RawSubstitution.

Lemma short_input_raises_witness :
  Trainer.generate_route_plan taxicab [kremlin; mk 2 56.321 44] [] 2 3
    "museums" "Pokrovskaya, 12" (56.32, 44)
  = Py.KeyError "time_required".
Proof.
  apply (short_input_raises taxicab [kremlin; mk 2 56.321 44] [] 2 3
           "museums" "Pokrovskaya, 12" (56.32, 44)).
  - discriminate.
  - simpl. lia.
Defined.

(** ** The stable sort *)

Lemma tuple_lt_true (a b : Q * Q) :
  Trainer.tuple_lt a b = true <->
  fst a < fst b \/ (fst a == fst b /\ snd a < snd b).
Proof.
  unfold Trainer.tuple_lt.
  destruct (Qeq_bool (fst a) (fst b)) eqn:E.
  - apply Qeq_bool_iff in E. rewrite Qlt_bool_iff. split.
    + intros H. right. split; assumption.
    + intros [H|[_ H]]; [lra | exact H].
  - apply Qeq_bool_neq in E. rewrite Qlt_bool_iff. split.
    + intros H. left. exact H.
    + intros [H|[H _]]; [exact H | contradiction].
Qed.

Lemma tuple_lt_false (a b : Q * Q) :
  Trainer.tuple_lt a b = false <->
  fst b < fst a \/ (fst a == fst b /\ snd b <= snd a).
Proof.
  unfold Trainer.tuple_lt.
  destruct (Qeq_bool (fst a) (fst b)) eqn:E.
  - apply Qeq_bool_iff in E. rewrite Qlt_bool_false_iff. split.
    + intros H. right. split; assumption.
    + intros [H|[_ H]]; [lra | exact H].
  - apply Qeq_bool_neq in E. rewrite Qlt_bool_false_iff. split.
    + intros H. left. destruct (Qlt_le_dec (fst b) (fst a)) as [Hl|Hl];
        [exact Hl|]. exfalso. apply E. lra.
    + intros [H|[H _]]; [lra | contradiction].
Qed.

Section StableSortFacts.
Context {A : Type} (key : A -> Q * Q).

Lemma insert_by_key_perm (x : A) (l : list A) :
  Permutation (Trainer.insert_by_key key x l) (x :: l).
Proof.
  induction l as [|y l IH]; simpl; [apply Permutation_refl|].
  destruct (Trainer.tuple_lt (key y) (key x)).
  - eapply Permutation_trans; [apply perm_skip; exact IH | apply perm_swap].
  - apply Permutation_refl.
Qed.

Lemma py_sort_perm (l : list A) : Permutation (Trainer.py_sort key l) l.
Proof.
  induction l as [|x l IH]; simpl; [constructor|].
  eapply Permutation_trans; [apply insert_by_key_perm|].
  apply perm_skip. exact IH.
Qed.

Lemma insert_by_key_sorted (x : A) (l : list A) :
  StronglySorted (not_after key) l ->
  StronglySorted (not_after key) (Trainer.insert_by_key key x l).
Proof.
  induction l as [|y l IH]; intros Hs; simpl.
  - constructor; constructor.
  - inversion Hs as [|? ? Hs' Hall]; subst.
    destruct (Trainer.tuple_lt (key y) (key x)) eqn:E.
    + constructor; [apply IH; exact Hs'|].
      apply Forall_forall. intros z Hz.
      apply (Permutation_in _ (insert_by_key_perm x l)) in Hz.
      destruct Hz as [<-|Hz].
      * unfold not_after. apply tuple_lt_true in E.
        apply tuple_lt_false. lra.
      * rewrite Forall_forall in Hall. apply Hall. exact Hz.
    + constructor; [exact Hs|].
      constructor; [exact E|].
      apply Forall_forall. intros z Hz.
      rewrite Forall_forall in Hall. specialize (Hall z Hz).
      unfold not_after in *.
      apply tuple_lt_false in E, Hall. apply tuple_lt_false. lra.
Qed.

Lemma py_sort_sorted (l : list A) :
  StronglySorted (not_after key) (Trainer.py_sort key l).
Proof.
  induction l as [|x l IH]; simpl; [constructor|].
  apply insert_by_key_sorted. exact IH.
Qed.

Lemma insert_by_key_stable (t x : A) (l : list A) :
  filter (same_key key t) (Trainer.insert_by_key key x l)
  = filter (same_key key t) (x :: l).
Proof.
  induction l as [|y l IH]; [reflexivity|].
  cbn [Trainer.insert_by_key].
  destruct (Trainer.tuple_lt (key y) (key x)) eqn:E; [|reflexivity].
  cbn [filter] in *. rewrite IH.
  destruct (same_key key t y) eqn:Ey; [|reflexivity].
  destruct (same_key key t x) eqn:Ex; [|reflexivity].
  exfalso. unfold same_key in Ex, Ey.
  apply andb_true_iff in Ex, Ey.
  destruct Ex as [Ex1 Ex2], Ey as [Ey1 Ey2].
  apply Qeq_bool_iff in Ex1, Ex2, Ey1, Ey2.
  apply tuple_lt_true in E. lra.
Qed.

Lemma py_sort_stable (t : A) (l : list A) :
  filter (same_key key t) (Trainer.py_sort key l) = filter (same_key key t) l.
Proof.
  induction l as [|x l IH]; [reflexivity|].
  cbn [Trainer.py_sort]. rewrite insert_by_key_stable.
  cbn [filter]. rewrite IH. reflexivity.
Qed.

(** The stable sorted rearrangement of a list is unique, so every stable
    sorting algorithm returns the list that [py_sort] computes. *)
Lemma same_key_refl (a : A) : same_key key a a = true.
Proof.
unfold same_key. apply andb_true_iff.
split; apply Qeq_bool_iff; reflexivity.
Qed.

Lemma stable_sorted_unique (l1 : list A) :
  forall l2,
    Permutation l1 l2 ->
    StronglySorted (not_after key) l1 ->
    StronglySorted (not_after key) l2 ->
    (forall t, filter (same_key key t) l1 = filter (same_key key t) l2) ->
    l1 = l2.
Proof.
induction l1 as [|a l1 IH]; intros l2 Hp Hs1 Hs2 Hst.
- apply Permutation_nil in Hp. congruence.
- destruct l2 as [|b l2].
  { apply Permutation_sym, Permutation_nil in Hp. discriminate. }
  inversion Hs1 as [|? ? Hs1' Hall1]; subst.
  inversion Hs2 as [|? ? Hs2' Hall2]; subst.
  rewrite Forall_forall in Hall1, Hall2.
  assert (Hab : a = b).
  { pose proof (Hst a) as Ha. cbn [filter] in Ha.
    rewrite same_key_refl in Ha.
    destruct (same_key key a b) eqn:Ekey; [congruence|].
    exfalso.
    assert (Hb1 : In b l1).
    { assert (Hin : In b (a :: l1)).
      { apply (Permutation_in _ (Permutation_sym Hp)). left; reflexivity. }
      destruct Hin as [Heq|Hin]; [|exact Hin].
      subst b. rewrite same_key_refl in Ekey. discriminate. }
    assert (Ha2 : In a l2).
    { assert (Hin : In a (b :: l2)).
      { apply (Permutation_in _ Hp). left; reflexivity. }
      destruct Hin as [Heq|Hin]; [|exact Hin].
      subst b. rewrite same_key_refl in Ekey. discriminate. }
    pose proof (Hall1 b Hb1) as H1. pose proof (Hall2 a Ha2) as H2.
    unfold not_after in H1, H2. apply tuple_lt_false in H1, H2.
    unfold same_key in Ekey. apply andb_false_iff in Ekey.
    destruct Ekey as [E|E]; apply Qeq_bool_neq in E; apply E; lra. }
  subst b. f_equal. apply IH.
  + exact (Permutation_cons_inv Hp).
  + exact Hs1'.
  + exact Hs2'.
  + intros t. specialize (Hst t). cbn [filter] in Hst.
    destruct (same_key key t a); congruence.
Qed.

End StableSortFacts.

(** ** Subsequences *)

Lemma subseq_nil_l {A : Type} (l : list A) : subseq [] l.
Proof. induction l; constructor; assumption. Qed.

Lemma subseq_length {A : Type} (s l : list A) :
  subseq s l -> (length s <= length l)%nat.
Proof. induction 1; simpl; lia. Qed.

Lemma subseq_in {A : Type} (s l : list A) (x : A) :
  subseq s l -> In x s -> In x l.
Proof.
  induction 1; intros Hin; [exact Hin | right; auto |].
  destruct Hin as [->|Hin]; [left; reflexivity | right; auto].
Qed.

#[local] Hint Constructors subseq : core.
#[local] Hint Resolve subseq_nil_l : core.

(** ** The selection loops *)

Section Loops.
Variable geodesic : Coord -> Coord -> Q.
Variable fl : Q -> Q.

Lemma fill_loop_shape (target_count : nat) (max_time : Q)
    (rest : list Candidate) :
  forall combination current,
    exists extra,
      Trainer.fill_loop geodesic fl target_count max_time rest combination
        current = combination ++ extra /\
      subseq extra rest /\
      ((length combination <= target_count)%nat ->
       (length (combination ++ extra) <= target_count)%nat).
Proof.
  induction rest as [|place rest IH]; intros combination current.
  - exists []. simpl. rewrite app_nil_r. auto.
  - cbn [Trainer.fill_loop].
    destruct (target_count <=? length combination)%nat eqn:Efull.
    { exists []. rewrite app_nil_r. auto. }
    apply Nat.leb_gt in Efull.
    destruct (Trainer.py_in place combination).
    { destruct (IH combination current) as [extra [H1 [H2 H3]]].
      exists extra. auto. }
    destruct (Qle_bool _ max_time).
    + destruct (IH (combination ++ [place])
                  (fl (current
                       + Trainer.place_total_time geodesic fl combination
                           place)))
        as [extra [H1 [H2 H3]]].
      exists (place :: extra). rewrite H1, <- app_assoc.
      split; [reflexivity|]. split; [auto|].
      intros _. rewrite <- app_assoc in H3. apply H3.
      rewrite length_app. simpl. lia.
    + destruct (IH combination current) as [extra [H1 [H2 H3]]].
      exists extra. auto.
Qed.

Lemma fallback_is_pass (max_time : Q) (rest : list Candidate) :
  forall best_combination current_time,
    Trainer.fallback_loop geodesic fl max_time rest best_combination
      current_time
    = Trainer.fill_loop geodesic fl 5 max_time rest best_combination
        current_time.
Proof.
  induction rest as [|place rest IH]; intros; [reflexivity|].
  cbn [Trainer.fallback_loop Trainer.fill_loop].
  rewrite !IH. reflexivity.
Qed.

Lemma minimum_loop_shape (rest : list Candidate) :
  forall best_combination,
    exists extra,
      Trainer.minimum_loop rest best_combination
        = best_combination ++ extra /\
      subseq extra rest /\
      (length (best_combination ++ extra)
       <= Nat.max 3 (length best_combination))%nat.
Proof.
  induction rest as [|place rest IH]; intros best.
  - exists []. cbn [Trainer.minimum_loop]. rewrite app_nil_r.
    split; [reflexivity|]. split; [auto | lia].
  - cbn [Trainer.minimum_loop].
    destruct (3 <=? length best)%nat eqn:Efull.
    { exists []. rewrite app_nil_r. split; [reflexivity|].
      split; [auto | lia]. }
    apply Nat.leb_gt in Efull.
    destruct (negb (Trainer.py_in place best)).
    + destruct (IH (best ++ [place])) as [extra [H1 [H2 H3]]].
      exists (place :: extra). rewrite H1, <- app_assoc.
      split; [reflexivity|]. split; [auto|].
      rewrite <- app_assoc in H3. cbn [app] in H3.
      rewrite (length_app best [place]) in H3. cbn [length] in H3. lia.
    + destruct (IH best) as [extra [H1 [H2 H3]]].
      exists extra. auto.
Qed.

Lemma pass_subseq (pws : list Candidate) (max_time : Q) (t : nat) :
  subseq (pass geodesic fl pws max_time t) pws /\
  (length (pass geodesic fl pws max_time t) <= t)%nat.
Proof.
  unfold pass.
  destruct (fill_loop_shape t max_time pws [] 0) as [extra [H1 [H2 H3]]].
  rewrite H1. simpl in *. split; [exact H2 | apply H3; lia].
Qed.

End Loops.

(** ** The pass over the target counts *)

Section Targets.
Variable geodesic : Coord -> Coord -> Q.
Variable fl : Q -> Q.
Variable pws : list Candidate.
Variables min_time max_time : Q.
Variable start_coords : Coord.

Let fits := window_fit geodesic fl pws min_time max_time start_coords.
Let inv := best_so_far geodesic fl pws min_time max_time start_coords.
Let dist := midpoint_distance min_time max_time.

Lemma window_fit_unique (t : nat) (a b : Q) : fits t a -> fits t b -> a = b.
Proof.
  intros [_ [[w [h Ha]] _]] [_ [[w' [h' Hb]] _]].
  rewrite Ha in Hb. congruence.
Qed.

Lemma best_so_far_skip (seen : list nat) (best : list Candidate * option Q)
    (t : nat) :
  inv seen best -> (forall total, ~ fits t total) -> inv (seen ++ [t]) best.
Proof.
  unfold inv, best_so_far. intros Hinv Hno.
  destruct (snd best) as [diff|].
  - destruct Hinv as [t0 [tot0 [Hin [Hfit [Hb [Hd Hmin]]]]]].
    exists t0, tot0. split; [apply in_or_app; left; exact Hin|].
    split; [exact Hfit|]. split; [exact Hb|]. split; [exact Hd|].
    intros t' total' Hin' Hfit'. apply in_app_or in Hin'.
    destruct Hin' as [Hin'|[<-|[]]]; [eauto|].
    exfalso. exact (Hno total' Hfit').
  - destruct Hinv as [Hb Hnone]. split; [exact Hb|].
    intros t' total' Hin' Hfit'. apply in_app_or in Hin'.
    destruct Hin' as [Hin'|[<-|[]]]; [exact (Hnone _ _ Hin' Hfit')|].
    exact (Hno total' Hfit').
Qed.

Lemma try_target_inv (seen : list nat) (best : list Candidate * option Q)
    (t : nat) :
  inv seen best ->
  exists best',
    Trainer.try_target geodesic fl pws min_time max_time start_coords best t
      = Py.Ret best' /\
    inv (seen ++ [t]) best'.
Proof.
  intros Hinv. unfold Trainer.try_target.
  fold (pass geodesic fl pws max_time t).
  destruct (3 <=? length (pass geodesic fl pws max_time t))%nat eqn:Elen.
  2:{ exists best. split; [reflexivity|].
      apply best_so_far_skip; [exact Hinv|].
      intros total [Hl _]. apply Nat.leb_gt in Elen. lia. }
  apply Nat.leb_le in Elen.
  destruct (route_time_returns geodesic (pass geodesic fl pws max_time t)
              start_coords) as [tot [w [h Hr]]].
  rewrite Hr. cbn [Py.bind fst snd].
  destruct (Qle_bool min_time tot && Qle_bool tot max_time) eqn:Ewin.
  2:{ exists best. split; [reflexivity|].
      apply best_so_far_skip; [exact Hinv|].
      intros total [_ [[w' [h' Hr']] [Hlo Hhi]]].
      assert (total = tot) by congruence. subst total.
      apply Qle_bool_iff in Hlo, Hhi. rewrite Hlo, Hhi in Ewin.
      discriminate. }
  apply andb_true_iff in Ewin. destruct Ewin as [Hlo Hhi].
  apply Qle_bool_iff in Hlo, Hhi.
  assert (Hfit : fits t tot).
  { split; [exact Elen|]. split; [exists w, h; exact Hr|]. split; assumption. }
  change (Qabs (tot - (min_time + max_time) / 2)) with (dist tot).
  unfold inv, best_so_far in Hinv.
  destruct best as [b [d0|]]; cbn [fst snd Py.lt_inf] in *.
  - destruct Hinv as [t0 [tot0 [Hin [Hfit0 [Hb [Hd Hmin]]]]]].
    destruct (Py.Qlt_bool (dist tot) d0) eqn:Elt.
    + apply Qlt_bool_iff in Elt.
      exists (pass geodesic fl pws max_time t, Some (dist tot)).
      split; [reflexivity|]. unfold inv, best_so_far. cbn [fst snd].
      exists t, tot. split; [apply in_or_app; right; left; reflexivity|].
      split; [exact Hfit|]. split; [reflexivity|]. split; [reflexivity|].
      intros t' total' Hin' Hfit'. apply in_app_or in Hin'.
      destruct Hin' as [Hin'|[<-|[]]].
      * specialize (Hmin t' total' Hin' Hfit'). unfold dist in *. lra.
      * rewrite (window_fit_unique _ _ _ Hfit' Hfit). unfold dist. lra.
    + apply Qlt_bool_false_iff in Elt.
      exists (b, Some d0). split; [reflexivity|].
      unfold inv, best_so_far. cbn [fst snd].
      exists t0, tot0. split; [apply in_or_app; left; exact Hin|].
      split; [exact Hfit0|]. split; [exact Hb|]. split; [exact Hd|].
      intros t' total' Hin' Hfit'. apply in_app_or in Hin'.
      destruct Hin' as [Hin'|[<-|[]]]; [eauto|].
      rewrite (window_fit_unique _ _ _ Hfit' Hfit). exact Elt.
  - destruct Hinv as [Hb Hnone].
    exists (pass geodesic fl pws max_time t, Some (dist tot)).
    split; [reflexivity|]. unfold inv, best_so_far. cbn [fst snd].
    exists t, tot. split; [apply in_or_app; right; left; reflexivity|].
    split; [exact Hfit|]. split; [reflexivity|]. split; [reflexivity|].
    intros t' total' Hin' Hfit'. apply in_app_or in Hin'.
    destruct Hin' as [Hin'|[<-|[]]].
    * exfalso. exact (Hnone _ _ Hin' Hfit').
    * rewrite (window_fit_unique _ _ _ Hfit' Hfit). unfold dist. lra.
Qed.

Lemma target_loop_inv (targets : list nat) :
  forall seen best,
    inv seen best ->
    exists best',
      Trainer.target_loop geodesic fl pws min_time max_time start_coords
        targets best = Py.Ret best' /\
      inv (seen ++ targets) best'.
Proof.
  induction targets as [|t targets IH]; intros seen best Hinv.
  - exists best. rewrite app_nil_r. split; [reflexivity | exact Hinv].
  - destruct (try_target_inv seen best t Hinv) as [b1 [H1 Hinv1]].
    destruct (IH (seen ++ [t]) b1 Hinv1) as [b2 [H2 Hinv2]].
    exists b2. cbn [Trainer.target_loop]. rewrite H1. cbn [Py.bind].
    rewrite <- app_assoc in Hinv2. split; [exact H2 | exact Hinv2].
Qed.

Lemma target_loop_result :
  exists best,
    Trainer.target_loop geodesic fl pws min_time max_time start_coords
      [5; 4; 3]%nat ([], None) = Py.Ret best /\
    inv [5; 4; 3]%nat best.
Proof.
  apply (target_loop_inv [5; 4; 3]%nat [] ([], None)).
  unfold inv, best_so_far. cbn [fst snd]. split; [reflexivity|].
  intros t total [].
Qed.

End Targets.

(** ** Outcome of [find_optimal_places] *)

Lemma score_places_length (geodesic : Coord -> Coord -> Q)
    (cos_sim : string -> nat -> Q) (fl : Q -> Q)
    (user_interests : string)
    (start_coords : Coord) (l : list Place) :
  forall i,
    length (Trainer.score_places geodesic cos_sim fl user_interests
              start_coords i l) = length l.
Proof.
  induction l as [|p l IH]; intros i; [reflexivity|].
  simpl. f_equal. apply IH.
Qed.

Lemma ranked_length (geodesic : Coord -> Coord -> Q)
    (cos_sim : string -> nat -> Q) (fl : Q -> Q)
    (self_places : list Place)
    (user_interests : string) (start_coords : Coord) :
  length (Trainer.ranked_candidates geodesic cos_sim fl self_places
            user_interests start_coords) = length self_places.
Proof.
  unfold Trainer.ranked_candidates.
  rewrite (Permutation_length (py_sort_perm Trainer.sort_key _)).
  apply score_places_length.
Qed.

Section Outcome.
Variable geodesic : Coord -> Coord -> Q.
Variable cos_sim : string -> nat -> Q.
Variable fl : Q -> Q.
Variable self_places : list Place.
Variable user_interests : string.
Variables min_time max_time : Q.
Variable start_coords : Coord.

Let pws :=
  Trainer.ranked_candidates geodesic cos_sim fl self_places user_interests
    start_coords.
Let fits := window_fit geodesic fl pws min_time max_time start_coords.
Let dist := midpoint_distance min_time max_time.
Let result :=
  Trainer.find_optimal_places geodesic cos_sim fl self_places user_interests
    min_time max_time start_coords.

(** Either some pass fits, and the result is a fitting pass nearest to the
    midpoint; or none does, and the result is the fallback. *)
Lemma find_optimal_places_outcome :
  self_places <> [] ->
  (exists t total,
      In t [5; 4; 3]%nat /\ fits t total /\
      result = Py.Ret (pass geodesic fl pws max_time t) /\
      forall t' total', In t' [5; 4; 3]%nat -> fits t' total' ->
        dist total <= dist total')
  \/
  ((forall t total, In t [5; 4; 3]%nat -> ~ fits t total) /\
   result = Py.Ret (fallback_result geodesic fl pws max_time)).
Proof.
  intros Hne.
  destruct (target_loop_result geodesic fl pws min_time max_time start_coords)
    as [[b d] [Hloop Hinv]].
  assert (Hres : result =
    Py.Ret
      (let best_combination :=
         match b with
         | [] => Trainer.fallback_loop geodesic fl max_time pws [] 0
         | _ :: _ => b
         end in
       if (length best_combination <? 3)%nat && (3 <=? length pws)%nat
       then Trainer.minimum_loop pws best_combination
       else best_combination)).
  { unfold result, Trainer.find_optimal_places.
    destruct self_places as [|p ps]; [congruence|].
    fold pws. rewrite Hloop. reflexivity. }
  unfold best_so_far in Hinv. cbn [fst snd] in Hinv.
  destruct d as [diff|].
  - left. destruct Hinv as [t [total [Hin [Hfit [Hb [Hd Hmin]]]]]].
    exists t, total. split; [exact Hin|]. split; [exact Hfit|].
    split.
    + rewrite Hres. destruct Hfit as [Hlen _]. rewrite <- Hb in *.
      destruct b as [|c b']; [simpl in Hlen; lia|].
      cbv zeta. apply Nat.ltb_ge in Hlen. rewrite Hlen. reflexivity.
    + intros t' total' Hin' Hfit'. unfold dist. rewrite <- Hd.
      exact (Hmin t' total' Hin' Hfit').
  - right. destruct Hinv as [Hb Hnone]. split; [exact Hnone|].
    rewrite Hres. subst b. rewrite fallback_is_pass. reflexivity.
Qed.


End Outcome.

(** ** Containment by value and row keys *)

Lemma place_eqb_key (a b : Place) :
  Trainer.place_eqb a b = true <-> row_key a = row_key b.
Proof.
  destruct a as [i1 a1 [x1 y1] d1 n1 u1 c1], b as [i2 a2 [x2 y2] d2 n2 u2 c2].
  unfold Trainer.place_eqb, Trainer.coord_eqb, row_key.
  cbn [id address coords description name url category_id fst snd].
  split.
  - intros H. repeat (apply andb_true_iff in H; destruct H as [H ?]).
    repeat match goal with
           | E : _ && _ = true |- _ =>
               apply andb_true_iff in E; destruct E as [? ?]
           end.
    repeat match goal with
           | E : Z.eqb _ _ = true |- _ => apply Z.eqb_eq in E
           | E : String.eqb _ _ = true |- _ => apply String.eqb_eq in E
           | E : Qeq_bool _ _ = true |- _ =>
               apply Qeq_bool_iff, Qred_complete in E
           end.
    assert (Hc : c1 = c2).
    { destruct c1, c2; try discriminate; [|reflexivity].
      f_equal. apply Z.eqb_eq. assumption. }
    congruence.
  - intros H. injection H as Hi Ha Hx Hy Hd Hn Hu Hc. subst.
    rewrite Z.eqb_refl, !String.eqb_refl. cbn [andb].
    assert (Ex : Qeq_bool x1 x2 = true).
    { apply Qeq_bool_iff. rewrite <- (Qred_correct x1), <- (Qred_correct x2).
      rewrite Hx. reflexivity. }
    assert (Ey : Qeq_bool y1 y2 = true).
    { apply Qeq_bool_iff. rewrite <- (Qred_correct y1), <- (Qred_correct y2).
      rewrite Hy. reflexivity. }
    rewrite Ex, Ey. cbn [andb].
    destruct c2; [apply Z.eqb_refl | reflexivity].
Qed.

Lemma candidate_eqb_key (a b : Candidate) :
  Trainer.candidate_eqb a b = true -> candidate_key a = candidate_key b.
Proof.
  unfold Trainer.candidate_eqb, candidate_key.
  intros H. do 4 (apply andb_true_iff in H; destruct H as [H _]).
  apply place_eqb_key. exact H.
Qed.

Lemma distinct_rows_keys (l : list Place) :
  distinct_rows l -> NoDup (map row_key l).
Proof.
  unfold distinct_rows. induction 1 as [|a l Ha _ IH]; [constructor|].
  cbn [map]. constructor; [|exact IH].
  intros Hin. apply in_map_iff in Hin. destruct Hin as [b [Hk Hb]].
  rewrite Forall_forall in Ha. specialize (Ha b Hb).
  symmetry in Hk. apply place_eqb_key in Hk. congruence.
Qed.

Lemma unique_ids_distinct_rows (l : list Place) :
  NoDup (map id l) -> distinct_rows l.
Proof.
  unfold distinct_rows. induction l as [|a l IH]; intros Hnd; [constructor|].
  inversion Hnd as [|? ? Hnotin Hnd']; subst.
  constructor; [|apply IH; exact Hnd'].
  apply Forall_forall. intros b Hb.
  destruct (Trainer.place_eqb a b) eqn:E; [|reflexivity].
  exfalso. apply Hnotin.
  unfold Trainer.place_eqb in E.
  repeat (apply andb_true_iff in E; destruct E as [E _]).
  apply Z.eqb_eq in E. rewrite E. apply in_map. exact Hb.
Qed.

Lemma py_in_app (p : Candidate) (l1 l2 : list Candidate) :
  Trainer.py_in p (l1 ++ l2) = Trainer.py_in p l1 || Trainer.py_in p l2.
Proof. unfold Trainer.py_in. apply existsb_app. Qed.

Lemma py_in_key (p : Candidate) (l : list Candidate) :
  Trainer.py_in p l = true -> In (candidate_key p) (map candidate_key l).
Proof.
  unfold Trainer.py_in. intros H. apply existsb_exists in H.
  destruct H as [q [Hq Heq]]. apply candidate_eqb_key in Heq.
  rewrite <- Heq. apply in_map. exact Hq.
Qed.

Lemma filter_split_length {A : Type} (f : A -> bool) (l : list A) :
  (length (filter f l) + length (filter (fun x => negb (f x)) l))%nat
  = length l.
Proof.
  induction l as [|x l IH]; simpl; [reflexivity|].
  destruct (f x); simpl; lia.
Qed.

Lemma distinct_rows_three (l : list Place) :
  distinct_rows l -> (3 <= length l)%nat -> three_different_rows l.
Proof.
  intros Hd HN.
  destruct l as [|a [|b [|c l]]]; try (simpl in HN; lia).
  inversion Hd as [|? ? Ha Hd']; subst.
  inversion Hd' as [|? ? Hb _]; subst.
  inversion Ha as [|? ? Hab Ha']; subst.
  inversion Ha' as [|? ? Hac _]; subst.
  inversion Hb as [|? ? Hbc _]; subst.
  exists a, b, c. simpl. tauto.
Qed.

Lemma Place_eq_dec (a b : Place) : {a = b} + {a <> b}.
Proof.
  repeat decide equality.
Qed.

Lemma remove_one_length (k : Place) (ks : list Place) :
  NoDup ks -> (length ks <= S (length (remove Place_eq_dec k ks)))%nat.
Proof.
  induction 1 as [|x ks Hx Hnd IH]; [simpl; lia|].
  cbn [remove]. destruct (Place_eq_dec k x) as [->|Hne].
  - rewrite notin_remove by exact Hx. simpl. lia.
  - simpl. lia.
Qed.

Lemma remove_keeps_distinct (k : Place) (ks : list Place) :
  NoDup ks -> NoDup (remove Place_eq_dec k ks).
Proof.
  induction 1 as [|x ks Hx Hnd IH]; [constructor|].
  cbn [remove]. destruct (Place_eq_dec k x); [exact IH|].
  constructor; [|exact IH].
  intros Hin. apply in_remove in Hin. tauto.
Qed.

Lemma minimum_loop_reaches (rest : list Candidate) :
  forall best ks,
    NoDup ks ->
    (forall k, In k ks -> In k (map candidate_key rest)) ->
    (forall k, In k ks -> ~ In k (map candidate_key best)) ->
    (3 <= length best + length ks)%nat ->
    (3 <= length (Trainer.minimum_loop rest best))%nat.
Proof.
  induction rest as [|p rest IH]; intros best ks Hnd Hin Hout Hcount.
  - destruct ks as [|k ks]; [simpl in *; lia|].
    destruct (Hin k (or_introl eq_refl)).
  - cbn [Trainer.minimum_loop].
    destruct (3 <=? length best)%nat eqn:Efull;
      [apply Nat.leb_le; exact Efull|].
    destruct (Trainer.py_in p best) eqn:Ep; cbn [negb].
    + apply (IH best ks Hnd); [|exact Hout | exact Hcount].
      intros k Hk. destruct (Hin k Hk) as [Hkp|Hkr]; [|exact Hkr].
      exfalso. apply (Hout k Hk). rewrite <- Hkp.
      apply py_in_key. exact Ep.
    + apply (IH (best ++ [p]) (remove Place_eq_dec (candidate_key p) ks)).
      * apply remove_keeps_distinct. exact Hnd.
      * intros k Hk. apply in_remove in Hk. destruct Hk as [Hk Hne].
        destruct (Hin k Hk) as [Hkp|Hkr]; [congruence | exact Hkr].
      * intros k Hk. apply in_remove in Hk. destruct Hk as [Hk Hne].
        rewrite map_app, in_app_iff. cbn [map In].
        intros [Hb|[Hp|[]]]; [exact (Hout k Hk Hb) | congruence].
      * pose proof (remove_one_length (candidate_key p) ks Hnd).
        rewrite length_app. cbn [length]. lia.
Qed.

Lemma minimum_loop_reaches_three (rest best : list Candidate)
    (ks : list Place) :
  NoDup ks -> (3 <= length ks)%nat ->
  (forall k, In k ks -> In k (map candidate_key rest)) ->
  (3 <= length (Trainer.minimum_loop rest best))%nat.
Proof.
  intros Hnd Hthree Hin.
  set (covered := fun k =>
         if in_dec Place_eq_dec k (map candidate_key best)
         then true else false).
  apply (minimum_loop_reaches rest best
           (filter (fun k => negb (covered k)) ks)).
  - apply NoDup_filter. exact Hnd.
  - intros k Hk. apply filter_In in Hk. apply Hin. tauto.
  - intros k Hk Hb. apply filter_In in Hk. destruct Hk as [_ Hk].
    unfold covered in Hk.
    destruct (in_dec Place_eq_dec k (map candidate_key best));
      [discriminate | contradiction].
  - pose proof (filter_split_length covered ks) as Hsplit.
    assert (Hcov : (length (filter covered ks) <= length best)%nat).
    { rewrite <- (length_map candidate_key best).
      apply NoDup_incl_length; [apply NoDup_filter; exact Hnd|].
      intros k Hk. apply filter_In in Hk. destruct Hk as [_ Hk].
      unfold covered in Hk.
      destruct (in_dec Place_eq_dec k (map candidate_key best));
        [assumption | discriminate]. }
    lia.
Qed.

Lemma minimum_loop_from_nothing (rest : list Candidate) :
  rest <> [] -> Trainer.minimum_loop rest [] <> [].
Proof.
  destruct rest as [|p rest]; [congruence|]. intros _.
  cbn. destruct (minimum_loop_shape rest [p]) as [extra [H _]].
  rewrite H. discriminate.
Qed.

Section FirstPlace.
Variable geodesic : Coord -> Coord -> Q.
Variable fl : Q -> Q.

Lemma fill_from_nothing (target_count : nat) (max_time : Q)
    (rest : list Candidate) :
  (1 <= target_count)%nat ->
  Trainer.fill_loop geodesic fl target_count max_time rest [] 0 <> [] <->
  exists c, In c rest /\ fits_first fl max_time c.
Proof.
  intros Ht. induction rest as [|p rest IH].
  - simpl. split; [congruence | intros [c [[] _]]].
  - cbn [Trainer.fill_loop length Trainer.py_in existsb
         Trainer.place_total_time].
    destruct (target_count <=? 0)%nat eqn:E; [apply Nat.leb_le in E; lia|].
    destruct (Qle_bool
                (fl (0 + fl (time_required p + walk_time_to_place p)))
                max_time) eqn:Efit.
    + apply Qle_bool_iff in Efit. split.
      * intros _. exists p. split; [left; reflexivity | exact Efit].
      * intros _.
        destruct (fill_loop_shape geodesic fl target_count max_time rest
                    ([] ++ [p])
                    (fl (0 + fl (time_required p + walk_time_to_place p))))
          as [extra [H _]].
        rewrite H. discriminate.
    + apply Qle_bool_false_iff in Efit. rewrite IH. split.
      * intros [c [Hc Hf]]. exists c. split; [right; exact Hc | exact Hf].
      * intros [c [[<-|Hc] Hf]].
        -- unfold fits_first in Hf. lra.
        -- exists c. split; assumption.
Qed.

Lemma fill_of_nothing (target_count : nat) (max_time : Q)
    (rest : list Candidate) :
  (1 <= target_count)%nat ->
  Trainer.fill_loop geodesic fl target_count max_time rest [] 0 = [] <->
  forall c, In c rest -> ~ fits_first fl max_time c.
Proof.
  intros Ht. pose proof (fill_from_nothing target_count max_time rest Ht) as H.
  split.
  - intros Hnil c Hc Hf. apply (proj2 H); [exists c; auto | exact Hnil].
  - intros Hnone.
    destruct (Trainer.fill_loop geodesic fl target_count max_time rest [] 0)
      as [|x l] eqn:E; [reflexivity|].
    exfalso.
    destruct (proj1 H ltac:(discriminate)) as [c [Hc Hf]].
    exact (Hnone c Hc Hf).
Qed.

End FirstPlace.

(** ** Size of the result (C2, C3) *)

Section Cardinality.
Variable geodesic : Coord -> Coord -> Q.
Variable cos_sim : string -> nat -> Q.
Variable fl : Q -> Q.
Variable self_places : list Place.
Variable user_interests : string.
Variables min_time max_time : Q.
Variable start_coords : Coord.

Let pws :=
  Trainer.ranked_candidates geodesic cos_sim fl self_places user_interests
    start_coords.
Let result :=
  Trainer.find_optimal_places geodesic cos_sim fl self_places user_interests
    min_time max_time start_coords.

Lemma score_places_keys (i : nat) (l : list Place) :
  map candidate_key
    (Trainer.score_places geodesic cos_sim fl user_interests start_coords i l)
  = map row_key l.
Proof.
  revert i. induction l as [|p l IH]; intros i; [reflexivity|].
  simpl. f_equal. apply IH.
Qed.

Lemma ranked_keys_NoDup :
  distinct_rows self_places -> NoDup (map candidate_key pws).
Proof.
  intros Hnd. apply distinct_rows_keys in Hnd.
  rewrite <- (score_places_keys 0 self_places) in Hnd.
  eapply Permutation_NoDup; [|exact Hnd].
  apply Permutation_map, Permutation_sym, py_sort_perm.
Qed.

Lemma ranked_keys :
  forall k, In k (map row_key self_places) -> In k (map candidate_key pws).
Proof.
  intros k Hk. rewrite <- (score_places_keys 0 self_places) in Hk.
  eapply Permutation_in; [|exact Hk].
  apply Permutation_map, Permutation_sym, py_sort_perm.
Qed.

Lemma fallback_result_size :
  three_different_rows self_places ->
  (3 <= length (fallback_result geodesic fl pws max_time) <= 5)%nat /\
  (length (fallback_result geodesic fl pws max_time)
   <= length self_places)%nat.
Proof.
  intros [a [b [c [Ha [Hb [Hc [Hab [Hac Hbc]]]]]]]].
  assert (Hnd : NoDup [row_key a; row_key b; row_key c]).
  { assert (Hne : forall x y, Trainer.place_eqb x y = false ->
                              row_key x <> row_key y).
    { intros x y E Hk. apply place_eqb_key in Hk. congruence. }
    pose proof (Hne _ _ Hab). pose proof (Hne _ _ Hac).
    pose proof (Hne _ _ Hbc).
    repeat constructor; simpl; intuition congruence. }
  assert (Hin : forall k, In k [row_key a; row_key b; row_key c] ->
                          In k (map candidate_key pws)).
  { intros k [<-|[<-|[<-|[]]]]; apply ranked_keys, in_map; assumption. }
  assert (HN : (3 <= length self_places)%nat).
  { rewrite <- (length_map row_key self_places).
    change 3%nat with (length [row_key a; row_key b; row_key c]).
    apply NoDup_incl_length; [exact Hnd|].
    intros k [<-|[<-|[<-|[]]]]; apply in_map; assumption. }
  unfold fallback_result.
  pose proof (ranked_length geodesic cos_sim fl self_places user_interests
                start_coords) as Hlen. fold pws in Hlen.
  destruct (pass_subseq geodesic fl pws max_time 5) as [Hsub Hfive].
  apply subseq_length in Hsub.
  set (filled := pass geodesic fl pws max_time 5) in *.
  cbv zeta.
  destruct (length filled <? 3)%nat eqn:Eshort.
  - apply Nat.ltb_lt in Eshort.
    assert (Hthree : (3 <=? length pws)%nat = true)
      by (apply Nat.leb_le; lia).
    rewrite Hthree. cbn [andb].
    destruct (minimum_loop_shape pws filled) as [extra [Heq [_ Hmax]]].
    pose proof (minimum_loop_reaches_three pws filled
                  [row_key a; row_key b; row_key c] Hnd
                  (Nat.le_refl 3) Hin) as Hlow.
    rewrite Heq in *. lia.
  - apply Nat.ltb_ge in Eshort. cbn [andb]. lia.
Qed.

Lemma result_size_aux :
  three_different_rows self_places ->
  exists r,
    result = Py.Ret r /\
    (3 <= length r <= 5)%nat /\ (length r <= length self_places)%nat.
Proof.
  intros Hrows.
  assert (Hne : self_places <> []).
  { intros Hnil. destruct Hrows as [a [_ [_ [Ha _]]]].
    rewrite Hnil in Ha. destruct Ha. }
  pose proof (ranked_length geodesic cos_sim fl self_places user_interests
                start_coords) as Hlen. fold pws in Hlen.
  destruct (find_optimal_places_outcome geodesic cos_sim fl self_places
              user_interests min_time max_time start_coords Hne)
    as [[t [total [Hin [Hfit [Hres _]]]]]|[_ Hres]];
    fold pws in Hres; fold result in Hres.
  - exists (pass geodesic fl pws max_time t). split; [exact Hres|].
    destruct Hfit as [Hthree _]. fold pws in Hthree.
    destruct (pass_subseq geodesic fl pws max_time t) as [Hsub Hcap].
    apply subseq_length in Hsub.
    assert (t <= 5)%nat by (simpl in Hin; lia).
    lia.
  - exists (fallback_result geodesic fl pws max_time). split; [exact Hres|].
    apply fallback_result_size; assumption.
Qed.

(** C2: for every catalog that holds three rows differing from one another
    (as any 3 rows do when no row is listed twice, so in particular when
    the ids are unique and the catalog has at least 3 places), the call
    returns a list of at least 3 and at most 5 entries, and never more
    entries than the catalog has: between 3 and 5 for catalogs of 5 or
    more, between 3 and N for a catalog of N = 3 or 4 places. *)
Theorem result_has_three_to_five :
  three_different_rows self_places ->
  exists r,
    result = Py.Ret r /\
    (3 <= length r <= 5)%nat /\ (length r <= length self_places)%nat.
Proof.
  apply result_size_aux.
Qed.

(** C3, amended: the call always returns a list, and the list is non-empty
    whenever the catalog holds at least 3 places.  For a catalog of fewer
    than 3 places the top-up does not run: the list is what the fill
    bounded by [max_time] accepted, which is non-empty exactly when the
    budget test, on the sums as the code rounds them, admits some candidate
    as the first stop. *)
Theorem result_nonempty_when :
  exists r,
    result = Py.Ret r /\
    ((3 <= length self_places)%nat -> r <> []) /\
    ((length self_places < 3)%nat ->
     r = Trainer.fallback_loop geodesic fl max_time pws [] 0 /\
     (r <> [] <-> exists c, In c pws /\ fits_first fl max_time c)).
Proof.
  pose proof (ranked_length geodesic cos_sim fl self_places user_interests
                start_coords) as Hlen. fold pws in Hlen.
  assert (Hcases : self_places = [] \/ self_places <> []).
  { destruct self_places; [left; reflexivity | right; discriminate]. }
  destruct Hcases as [Hnil|Hne].
  - exists []. split; [unfold result; rewrite Hnil; reflexivity|].
    rewrite Hnil in Hlen. split; [rewrite Hnil; simpl; lia|].
    intros _. apply length_zero_iff_nil in Hlen.
    split; [rewrite Hlen; reflexivity|].
    split; [congruence|].
    intros [c [Hc _]]. rewrite Hlen in Hc. destruct Hc.
  - destruct (find_optimal_places_outcome geodesic cos_sim fl self_places
                user_interests min_time max_time start_coords Hne)
      as [[t [total [Hin [Hfit [Hres _]]]]]|[_ Hres]];
      fold pws in Hres; fold result in Hres.
    + exists (pass geodesic fl pws max_time t).
      split; [exact Hres|].
      destruct Hfit as [Hthree _]. fold pws in Hthree.
      destruct (pass_subseq geodesic fl pws max_time t) as [Hsub _].
      apply subseq_length in Hsub.
      split.
      * intros _ Hnil. rewrite Hnil in Hthree. simpl in Hthree. lia.
      * intros Hfew. lia.
    + exists (fallback_result geodesic fl pws max_time).
      split; [exact Hres|].
      unfold fallback_result. cbv zeta.
      set (filled := pass geodesic fl pws max_time 5).
      split.
      * intros HN.
        assert (Hthree : (3 <=? length pws)%nat = true)
          by (apply Nat.leb_le; lia).
        rewrite Hthree, andb_true_r.
        destruct (length filled <? 3)%nat eqn:Eshort.
        -- destruct filled as [|c filled'] eqn:Ef.
           ++ apply minimum_loop_from_nothing.
              intros Hnil. rewrite Hnil in Hlen. simpl in Hlen. lia.
           ++ destruct (minimum_loop_shape pws (c :: filled'))
                as [extra [Heq _]].
              rewrite Heq. discriminate.
        -- apply Nat.ltb_ge in Eshort. intros Hnil.
           rewrite Hnil in Eshort. simpl in Eshort. lia.
      * intros Hfew.
        assert (Hthree : (3 <=? length pws)%nat = false)
          by (apply Nat.leb_gt; lia).
        rewrite Hthree, andb_false_r.
        split.
        -- unfold filled, pass. rewrite fallback_is_pass. reflexivity.
        -- unfold filled, pass. apply fill_from_nothing. lia.
Qed.

End Cardinality.

(** The three different rows are needed: were the same row listed 5 times,
    the accumulated places being compared by value, a single entry would
    come back. *)
Example same_row_five_times :
  length repeated_catalog = 5%nat /\
  exists r,
    Trainer.find_optimal_places taxicab constant_scores no_rounding
      repeated_catalog "museums" 2 3 sample_start = Py.Ret r /\
    length r = 1%nat.
Proof.
  split; [reflexivity|].
  eexists. split; [vm_compute; reflexivity | reflexivity].
Qed.

Lemma result_has_three_to_five_witness :
  exists r,
    Trainer.find_optimal_places taxicab sample_scores no_rounding
      sample_catalog "museums" 1 2 sample_start = Py.Ret r /\
    (3 <= length r <= 5)%nat /\ (length r <= length sample_catalog)%nat.
Proof.
  apply (result_has_three_to_five taxicab sample_scores no_rounding
           sample_catalog "museums" 1 2 sample_start).
  exists (mk 1 56.33 44), (mk 2 56.32 44.01), (mk 3 56.325 44.005).
  simpl. intuition reflexivity.
Defined.

(** C3, as stated, fails: with a single place in the catalog and a budget
    of 0.2 hours, below the shortest visit plus the shortest walk by more
    than any rounding, the result is the empty list. *)
Lemma single_place_can_yield_nothing :
  [kremlin] <> [] /\
  Trainer.find_optimal_places taxicab sample_scores no_rounding [kremlin]
    "museums" 0.1 0.2 sample_start = Py.Ret [].
Proof.
  split; [discriminate | vm_compute; reflexivity].
Qed.

(** ** Ranking order (C7) *)

Lemma StronglySorted_weaken {A : Type} (R S : A -> A -> Prop) (l : list A) :
  (forall a b, R a b -> S a b) -> StronglySorted R l -> StronglySorted S l.
Proof.
  intros Himp. induction 1 as [|a l Hs IH Hall]; constructor.
  - exact IH.
  - eapply Forall_impl; [|exact Hall]. intros b Hb. apply Himp. exact Hb.
Qed.

Lemma not_after_ranks_before (a b : Candidate) :
  not_after Trainer.sort_key a b -> ranks_before a b.
Proof.
  unfold not_after, ranks_before, Trainer.sort_key. intros H.
  apply tuple_lt_false in H. cbn [fst snd] in H.
  destruct H as [H|[H1 H2]]; [left; lra | right; split; lra].
Qed.

Lemma same_rank_same_key (a b : Candidate) :
  same_rank a b = same_key Trainer.sort_key a b.
Proof.
  unfold same_rank, same_key, Trainer.sort_key. cbn [fst snd]. f_equal.
  destruct (Qeq_bool (similarity_score a) (similarity_score b)) eqn:E1;
    destruct (Qeq_bool (- similarity_score a) (- similarity_score b)) eqn:E2;
    try reflexivity; exfalso.
  - apply Qeq_bool_iff in E1. apply Qeq_bool_neq in E2. apply E2. lra.
  - apply Qeq_bool_iff in E2. apply Qeq_bool_neq in E1. apply E1. lra.
Qed.

(** *** The tiers as folds over the ranked list *)

Section Walks.
Variable geodesic : Coord -> Coord -> Q.
Variable fl : Q -> Q.

Lemma fill_loop_full (t : nat) (max_time : Q) (rest : list Candidate)
    (combination : list Candidate) (current : Q) :
  (t <= length combination)%nat ->
  Trainer.fill_loop geodesic fl t max_time rest combination current
  = combination.
Proof.
  intros Hfull. destruct rest as [|p rest]; [reflexivity|].
  cbn [Trainer.fill_loop].
  apply Nat.leb_le in Hfull. rewrite Hfull. reflexivity.
Qed.

Lemma fill_loop_is_fold (t : nat) (max_time : Q) (rest : list Candidate) :
  forall combination current,
    Trainer.fill_loop geodesic fl t max_time rest combination current
    = fst (fold_left (offer geodesic fl t max_time) rest
             (combination, current)).
Proof.
  induction rest as [|p rest IH]; intros combination current;
    [reflexivity|].
  cbn [fold_left]. unfold offer at 2. cbn [fst snd].
  destruct (t <=? length combination)%nat eqn:Efull.
  - rewrite <- IH. apply Nat.leb_le in Efull.
    rewrite !fill_loop_full by exact Efull. reflexivity.
  - cbn [Trainer.fill_loop]. rewrite Efull.
    destruct (Trainer.py_in p combination); [apply IH|].
    destruct (Qle_bool _ max_time); apply IH.
Qed.

Lemma minimum_loop_full (rest best : list Candidate) :
  (3 <= length best)%nat -> Trainer.minimum_loop rest best = best.
Proof.
  intros Hfull. destruct rest as [|p rest]; [reflexivity|].
  cbn [Trainer.minimum_loop].
  apply Nat.leb_le in Hfull. rewrite Hfull. reflexivity.
Qed.

Lemma minimum_loop_is_fold (rest : list Candidate) :
  forall best, Trainer.minimum_loop rest best = fold_left top_up rest best.
Proof.
  induction rest as [|p rest IH]; intros best; [reflexivity|].
  cbn [fold_left]. unfold top_up at 2.
  destruct (3 <=? length best)%nat eqn:Efull.
  - rewrite <- IH. apply Nat.leb_le in Efull.
    rewrite !minimum_loop_full by exact Efull. reflexivity.
  - cbn [Trainer.minimum_loop]. rewrite Efull.
    destruct (negb (Trainer.py_in p best)); apply IH.
Qed.

Lemma offer_keeps_budget (t : nat) (max_time : Q) (rest : list Candidate) :
  forall state,
    (fst state <> [] -> snd state <= max_time) ->
    fst (fold_left (offer geodesic fl t max_time) rest state) <> [] ->
    snd (fold_left (offer geodesic fl t max_time) rest state) <= max_time.
Proof.
  induction rest as [|p rest IH]; intros state Hinv; [exact Hinv|].
  cbn [fold_left]. apply IH. unfold offer.
  destruct (t <=? length (fst state))%nat; [exact Hinv|].
  destruct (Trainer.py_in p (fst state)); [exact Hinv|].
  cbv zeta.
  destruct (Qle_bool
              (fl (snd state
                   + Trainer.place_total_time geodesic fl (fst state) p))
              max_time) eqn:Efit; [|exact Hinv].
  cbn [fst snd]. intros _. apply Qle_bool_iff. exact Efit.
Qed.

(** The running total a pass compares with the budget never exceeds it:
    the walk over the candidates for a target count ends with the pass as
    its accumulator and, unless the pass is empty, with a running total, as
    the code rounds it, of at most [max_time]. *)
Theorem pass_within_budget (pws : list Candidate) (max_time : Q) (t : nat) :
  fst (fold_left (offer geodesic fl t max_time) pws ([], 0))
  = pass geodesic fl pws max_time t /\
  (pass geodesic fl pws max_time t <> [] ->
   snd (fold_left (offer geodesic fl t max_time) pws ([], 0)) <= max_time).
Proof.
  assert (Hfold : fst (fold_left (offer geodesic fl t max_time) pws ([], 0))
                  = pass geodesic fl pws max_time t).
  { unfold pass. symmetry. apply fill_loop_is_fold. }
  split; [exact Hfold|].
  rewrite <- Hfold. apply offer_keeps_budget.
  cbn [fst]. congruence.
Qed.

End Walks.

Section Ranking.
Variable geodesic : Coord -> Coord -> Q.
Variable cos_sim : string -> nat -> Q.
Variable fl : Q -> Q.
Variable self_places : list Place.
Variable user_interests : string.
Variable start_coords : Coord.

Let scored :=
  Trainer.score_places geodesic cos_sim fl user_interests start_coords 0
    self_places.
Let pws :=
  Trainer.ranked_candidates geodesic cos_sim fl self_places user_interests
    start_coords.

Lemma scored_entry (l : list Place) :
  forall i0 i p,
    nth_error l i = Some p ->
    exists c,
      nth_error (Trainer.score_places geodesic cos_sim fl user_interests
                   start_coords i0 l) i = Some c /\
      base c = p /\
      similarity_score c = cos_sim user_interests (i0 + i)%nat /\
      distance_to_start c = geodesic start_coords (coords p).
Proof.
  induction l as [|q l IH]; intros i0 i p Hp.
  - destruct i; discriminate.
  - destruct i as [|i].
    + injection Hp as <-. eexists. split; [reflexivity|].
      cbn [Trainer.score_place base similarity_score distance_to_start].
      rewrite Nat.add_0_r. auto.
    + cbn [nth_error] in Hp.
      destruct (IH (S i0) i p Hp) as [c [Hc [Hb [Hs Hd]]]].
      exists c. split; [exact Hc|]. split; [exact Hb|].
      split; [|exact Hd].
      rewrite Hs. f_equal. lia.
Qed.

(** C7: the candidate for catalog index [i] carries the similarity of the
    query to place [i] and the geodesic distance of that place from the
    start.  The list the selector iterates holds exactly these candidates,
    ordered by similarity descending and, for equal similarity, by
    distance from the start ascending; candidates that tie on both keys
    keep their catalog order.  Every tier walks this list from its first
    entry to its last: a pass for a target count, the fallback fill and
    the top-up are each a left fold over it, and what is returned is the
    outcome of these walks. *)
Theorem candidates_ranked_stably :
  length scored = length self_places /\
  (forall i p,
     nth_error self_places i = Some p ->
     exists c,
       nth_error scored i = Some c /\ base c = p /\
       similarity_score c = cos_sim user_interests i /\
       distance_to_start c = geodesic start_coords (coords p)) /\
  Permutation pws scored /\
  StronglySorted ranks_before pws /\
  (forall x, filter (same_rank x) pws = filter (same_rank x) scored) /\
  forall min_time max_time,
    (forall t,
       pass geodesic fl pws max_time t
       = fst (fold_left (offer geodesic fl t max_time) pws ([], 0))) /\
    Trainer.fallback_loop geodesic fl max_time pws [] 0
    = fst (fold_left (offer geodesic fl 5 max_time) pws ([], 0)) /\
    (forall best,
       Trainer.minimum_loop pws best = fold_left top_up pws best) /\
    exists r,
      Trainer.find_optimal_places geodesic cos_sim fl self_places
        user_interests min_time max_time start_coords = Py.Ret r /\
      ((exists t, In t [5; 4; 3]%nat /\
          r = pass geodesic fl pws max_time t) \/
       r = Trainer.fallback_loop geodesic fl max_time pws [] 0 \/
       r = Trainer.minimum_loop pws
             (Trainer.fallback_loop geodesic fl max_time pws [] 0)).
Proof.
  split; [apply score_places_length|].
  split; [intros i p Hp; apply (scored_entry self_places 0%nat i p Hp)|].
  split; [apply py_sort_perm|].
  split.
  { eapply StronglySorted_weaken; [apply not_after_ranks_before|].
    apply py_sort_sorted. }
  split.
  { intros x.
    rewrite (filter_ext _ _ (same_rank_same_key x) pws).
    rewrite (filter_ext _ _ (same_rank_same_key x) scored).
    apply py_sort_stable. }
  intros min_time max_time.
  split; [intros t; unfold pass; apply fill_loop_is_fold|].
  split; [rewrite fallback_is_pass; apply fill_loop_is_fold|].
  split; [apply minimum_loop_is_fold|].
  assert (Hcases : self_places = [] \/ self_places <> []).
  { destruct self_places; [left; reflexivity | right; discriminate]. }
  destruct Hcases as [Hnil|Hne].
  - exists []. split; [rewrite Hnil; reflexivity|]. right; left.
    unfold pws. rewrite Hnil. reflexivity.
  - destruct (find_optimal_places_outcome geodesic cos_sim fl self_places
                user_interests min_time max_time start_coords Hne)
      as [[t [total [Hin [_ [Hres _]]]]]|[_ Hres]]; fold pws in Hres.
    + exists (pass geodesic fl pws max_time t). split; [exact Hres|].
      left. exists t. auto.
    + exists (fallback_result geodesic fl pws max_time).
      split; [exact Hres|]. right.
      unfold fallback_result, pass. cbv zeta.
      rewrite <- (fallback_is_pass geodesic fl max_time pws [] 0).
      destruct ((length (Trainer.fallback_loop geodesic fl max_time pws
                           [] 0) <? 3)%nat
                && (3 <=? length pws)%nat); auto.
Qed.

End Ranking.

(** ** Repeatability (C8) *)

Lemma py_min_by_ext (key1 key2 : nat -> Q) (rest : list nat) :
  (forall n, key1 n = key2 n) ->
  forall x, Trainer.py_min_by key1 x rest = Trainer.py_min_by key2 x rest.
Proof.
  intros Hk. induction rest as [|y rest IH]; intros x; [reflexivity|].
  simpl. rewrite !Hk. destruct (Py.Qlt_bool (key2 y) (key2 x)); apply IH.
Qed.

Section Repeatability.
(** What the two capabilities answer during a first and a second call. *)
Variables geodesic1 geodesic2 : Coord -> Coord -> Q.
Variables cos_sim1 cos_sim2 : string -> nat -> Q.
Variable fl : Q -> Q.
Hypothesis same_distances : forall a b, geodesic1 a b = geodesic2 a b.
Hypothesis same_scores : forall q i, cos_sim1 q i = cos_sim2 q i.

Lemma walking_loop_ext (rest : list PlaceDict) :
  forall total current,
    Trainer.walking_loop geodesic1 rest total current
    = Trainer.walking_loop geodesic2 rest total current.
Proof.
  induction rest as [|p rest IH]; intros; [reflexivity|].
  simpl. rewrite same_distances. apply IH.
Qed.

Lemma calculate_total_route_time_ext (places : list PlaceDict)
    (start_coords : Coord) :
  Trainer.calculate_total_route_time geodesic1 places start_coords
  = Trainer.calculate_total_route_time geodesic2 places start_coords.
Proof.
  destruct places as [|p places]; [reflexivity|].
  unfold Trainer.calculate_total_route_time.
  rewrite same_distances, walking_loop_ext. reflexivity.
Qed.

Lemma greedy_loop_ext (all_points : list Coord) (fuel : nat) :
  forall unvisited tour current,
    Trainer.greedy_loop geodesic1 fuel all_points unvisited tour current
    = Trainer.greedy_loop geodesic2 fuel all_points unvisited tour current.
Proof.
  induction fuel as [|fuel IH]; intros; [reflexivity|].
  destruct unvisited as [|x rest]; [reflexivity|].
  cbn [Trainer.greedy_loop].
  rewrite (py_min_by_ext
             (fun n => Trainer.edge_weight geodesic1 all_points current n)
             (fun n => Trainer.edge_weight geodesic2 all_points current n))
    by (intros n; unfold Trainer.edge_weight; apply same_distances).
  apply IH.
Qed.

Lemma optimize_route_sequence_ext (places : list PlaceDict)
    (start_coords : Coord) :
  Trainer.optimize_route_sequence geodesic1 places start_coords
  = Trainer.optimize_route_sequence geodesic2 places start_coords.
Proof.
  destruct places as [|p0 [|p1 rest]]; try reflexivity.
  unfold Trainer.optimize_route_sequence, Trainer.greedy_tsp.
  rewrite greedy_loop_ext. reflexivity.
Qed.

Lemma score_places_ext (user_interests : string) (start_coords : Coord)
    (l : list Place) :
  forall i,
    Trainer.score_places geodesic1 cos_sim1 fl user_interests start_coords i l
    = Trainer.score_places geodesic2 cos_sim2 fl user_interests start_coords
        i l.
Proof.
  induction l as [|p l IH]; intros i; [reflexivity|].
  simpl. rewrite IH. unfold Trainer.score_place.
  rewrite same_distances, same_scores. reflexivity.
Qed.

Lemma place_total_time_ext (combination : list Candidate) (p : Candidate) :
  Trainer.place_total_time geodesic1 fl combination p
  = Trainer.place_total_time geodesic2 fl combination p.
Proof.
  destruct combination; [reflexivity|].
  unfold Trainer.place_total_time. rewrite same_distances. reflexivity.
Qed.

Lemma fill_loop_ext (target_count : nat) (max_time : Q)
    (rest : list Candidate) :
  forall combination current,
    Trainer.fill_loop geodesic1 fl target_count max_time rest combination
      current
    = Trainer.fill_loop geodesic2 fl target_count max_time rest combination
        current.
Proof.
  induction rest as [|p rest IH]; intros; [reflexivity|].
  cbn [Trainer.fill_loop]. rewrite place_total_time_ext, !IH.
  reflexivity.
Qed.

Lemma fallback_loop_ext (max_time : Q) (rest : list Candidate) :
  forall best current,
    Trainer.fallback_loop geodesic1 fl max_time rest best current
    = Trainer.fallback_loop geodesic2 fl max_time rest best current.
Proof.
  intros. rewrite !fallback_is_pass. apply fill_loop_ext.
Qed.

Lemma target_loop_ext (pws : list Candidate) (min_time max_time : Q)
    (start_coords : Coord) (targets : list nat) :
  forall best,
    Trainer.target_loop geodesic1 fl pws min_time max_time start_coords
      targets best
    = Trainer.target_loop geodesic2 fl pws min_time max_time start_coords
        targets best.
Proof.
  induction targets as [|t targets IH]; intros best; [reflexivity|].
  cbn [Trainer.target_loop]. unfold Trainer.try_target.
  rewrite fill_loop_ext, calculate_total_route_time_ext.
  destruct (3 <=? _)%nat; cbn [Py.bind]; [|apply IH].
  destruct (Trainer.calculate_total_route_time geodesic2 _ start_coords)
    as [r|key]; cbn [Py.bind]; [|reflexivity].
  destruct (Qle_bool min_time (fst (fst r))
            && Qle_bool (fst (fst r)) max_time); cbn [Py.bind];
    [|apply IH].
  destruct (Py.lt_inf _ (snd best)); cbn [Py.bind]; apply IH.
Qed.

(** C8: two calls of [find_optimal_places] with the same catalog, query,
    window and start, during which the embedding capability reports the
    same similarities and the distance capability the same distances,
    return identical lists; two calls of [optimize_route_sequence] on the
    same places and start return identical tours. *)
Theorem calls_are_repeatable (self_places : list Place)
    (user_interests : string) (min_time max_time : Q)
    (start_coords : Coord) (places : list PlaceDict) :
  Trainer.find_optimal_places geodesic1 cos_sim1 fl self_places user_interests
    min_time max_time start_coords
  = Trainer.find_optimal_places geodesic2 cos_sim2 fl self_places
      user_interests min_time max_time start_coords /\
  Trainer.optimize_route_sequence geodesic1 places start_coords
  = Trainer.optimize_route_sequence geodesic2 places start_coords.
Proof.
  split; [|apply optimize_route_sequence_ext].
  unfold Trainer.find_optimal_places, Trainer.ranked_candidates.
  destruct self_places as [|p ps]; [reflexivity|].
  rewrite score_places_ext, target_loop_ext, fallback_loop_ext.
  reflexivity.
Qed.

End Repeatability.

Lemma calls_are_repeatable_witness :
  Trainer.find_optimal_places taxicab sample_scores no_rounding
    sample_catalog "museums"
    1 2 sample_start
  = Trainer.find_optimal_places taxicab sample_scores no_rounding sample_catalog
      "museums" 1 2 sample_start /\
  Trainer.optimize_route_sequence taxicab (map Raw sample_catalog)
    sample_start
  = Trainer.optimize_route_sequence taxicab (map Raw sample_catalog)
      sample_start.
Proof.
  apply (calls_are_repeatable taxicab taxicab sample_scores sample_scores
           no_rounding (fun a b => eq_refl) (fun q i => eq_refl)).
Defined.



(** * Further properties of the engine *)

(** ** Walking time and dwell tiers *)

(** For every distance, negative ones included, the walking time lies
    between 5 and 120 minutes, in the trainer and in the planner. *)
Theorem walking_time_always_bounded (d : Q) :
  5 <= Trainer.calculate_walking_time d <= 120 /\
  5 <= Planner.calculate_walking_time d <= 120.
Proof.
  split; apply walking_time_bounds.
Qed.

Lemma minutes_per_km (d : Q) : d / 4 * 60 == 15 * d.
Proof. field. Qed.

(** A longer distance never takes less walking time. *)
Theorem walking_time_monotone (d1 d2 : Q) :
  d1 <= d2 ->
  Trainer.calculate_walking_time d1 <= Trainer.calculate_walking_time d2.
Proof.
  intros Hle. unfold Trainer.calculate_walking_time.
  rewrite !clamp_max_min. unfold clamp.
  pose proof (minutes_per_km d1). pose proof (minutes_per_km d2).
  repeat match goal with
  | |- context [Py.Qlt_bool ?a ?b] =>
      let E := fresh "E" in
      destruct (Py.Qlt_bool a b) eqn:E;
      [apply Qlt_bool_iff in E | apply Qlt_bool_false_iff in E]
  end; lra.
Qed.

Lemma walking_time_monotone_witness :
  Trainer.calculate_walking_time 1 <= Trainer.calculate_walking_time 3.
Proof.
  apply (walking_time_monotone 1 3). lra.
Defined.

(** Between a third of a kilometre and 8 km the clamp is inactive: the
    walking time is 15 minutes per kilometre. *)
Theorem walking_time_linear_range (d : Q) :
  1 # 3 <= d <= 8 -> Trainer.calculate_walking_time d == 15 * d.
Proof.
  intros [Hlo Hhi]. unfold Trainer.calculate_walking_time.
  rewrite clamp_max_min. unfold clamp.
  pose proof (minutes_per_km d).
  repeat match goal with
  | |- context [Py.Qlt_bool ?a ?b] =>
      let E := fresh "E" in
      destruct (Py.Qlt_bool a b) eqn:E;
      [apply Qlt_bool_iff in E | apply Qlt_bool_false_iff in E]
  end; lra.
Qed.

Lemma walking_time_linear_range_witness :
  Trainer.calculate_walking_time 2 == 15 * 2.
Proof.
  apply (walking_time_linear_range 2). lra.
Defined.

Lemma dwell_range (p : Place) (s : Q) :
  0.2 <= Trainer.calculate_time_for_place p s <= 0.4.
Proof.
  unfold Trainer.calculate_time_for_place.
  repeat match goal with
  | |- context [Py.Qlt_bool ?a ?b] => destruct (Py.Qlt_bool a b)
  end; lra.
Qed.

(** The visit time lies between 0.2 and 0.4 hours whatever the similarity,
    and a more similar place never gets a shorter visit. *)
Theorem dwell_bounded_and_monotone (p1 p2 : Place) (s1 s2 : Q) :
  s1 <= s2 ->
  0.2 <= Trainer.calculate_time_for_place p1 s1 /\
  Trainer.calculate_time_for_place p1 s1
    <= Trainer.calculate_time_for_place p2 s2 /\
  Trainer.calculate_time_for_place p2 s2 <= 0.4.
Proof.
  intros Hle.
  split; [apply dwell_range|]. split; [|apply dwell_range].
  unfold Trainer.calculate_time_for_place.
  repeat match goal with
  | |- context [Py.Qlt_bool ?a ?b] =>
      let E := fresh "E" in
      destruct (Py.Qlt_bool a b) eqn:E;
      [apply Qlt_bool_iff in E | apply Qlt_bool_false_iff in E]
  end; lra.
Qed.

Lemma dwell_bounded_and_monotone_witness :
  0.2 <= Trainer.calculate_time_for_place kremlin 0.4 /\
  Trainer.calculate_time_for_place kremlin 0.4
    <= Trainer.calculate_time_for_place kremlin 0.6 /\
  Trainer.calculate_time_for_place kremlin 0.6 <= 0.4.
Proof.
  apply (dwell_bounded_and_monotone kremlin kremlin 0.4 0.6). lra.
Defined.

(** ** Route time: failure and bounds *)

Section RouteTimeEdges.
Variable geodesic : Coord -> Coord -> Q.
Variable fl : Q -> Q.

Lemma sum_time_required_raises (places : list PlaceDict) :
  forall acc,
    (exists p, In (Raw p) places) ->
    Trainer.sum_time_required acc places = Py.KeyError "time_required".
Proof.
  induction places as [|d places IH]; intros acc [p Hin]; [destruct Hin|].
  destruct d as [q|c]; [reflexivity|].
  destruct Hin as [Heq|Hin]; [discriminate|].
  simpl. apply IH. exists p. exact Hin.
Qed.

Lemma sum_time_required_returns (places : list PlaceDict) :
  forall acc,
    forallb is_scored places = true ->
    exists v, Trainer.sum_time_required acc places = Py.Ret v.
Proof.
  induction places as [|d places IH]; intros acc Hall.
  - exists acc. reflexivity.
  - simpl in Hall. apply andb_true_iff in Hall. destruct Hall as [Hd Hall].
    destruct d as [q|c]; [discriminate|]. simpl. apply IH. exact Hall.
Qed.

Lemma scored_or_raw (places : list PlaceDict) :
  forallb is_scored places = true \/ exists p, In (Raw p) places.
Proof.
  induction places as [|d places IH]; [left; reflexivity|].
  destruct d as [q|c].
  - right. exists q. left; reflexivity.
  - destruct IH as [H|[p H]]; [left; exact H | right; exists p; right; exact H].
Qed.

Lemma route_time_raises_aux (places : list PlaceDict)
    (start_coords : Coord) :
  (exists p, In (Raw p) places) ->
  Trainer.calculate_total_route_time geodesic places start_coords
  = Py.KeyError "time_required".
Proof.
  intros Hraw. destruct places as [|d places]; [destruct Hraw as [p []]|].
  unfold Trainer.calculate_total_route_time.
  rewrite (sum_time_required_raises (d :: places) 0 Hraw). reflexivity.
Qed.

(** [calculate_total_route_time] raises [KeyError('time_required')] exactly
    when some place of the list is a raw catalog entry; otherwise it
    returns (for the empty list, three zeros). *)
Theorem route_time_raises_iff_raw (places : list PlaceDict)
    (start_coords : Coord) :
  ((exists p, In (Raw p) places) <->
   Trainer.calculate_total_route_time geodesic places start_coords
   = Py.KeyError "time_required") /\
  ((forall p, ~ In (Raw p) places) <->
   exists r,
     Trainer.calculate_total_route_time geodesic places start_coords
     = Py.Ret r).
Proof.
  destruct (scored_or_raw places) as [Hall|Hraw].
  - assert (Hret : exists r,
      Trainer.calculate_total_route_time geodesic places start_coords
      = Py.Ret r).
    { destruct places as [|d places]; [eexists; reflexivity|].
      destruct (sum_time_required_returns (d :: places) 0 Hall) as [v Hv].
      unfold Trainer.calculate_total_route_time. rewrite Hv.
      eexists. reflexivity. }
    assert (Hnone : forall p, ~ In (Raw p) places).
    { intros p Hin. rewrite forallb_forall in Hall.
      specialize (Hall _ Hin). discriminate. }
    split; split.
    + intros [p Hin]. exfalso. exact (Hnone p Hin).
    + intros Hk. destruct Hret as [r Hr]. congruence.
    + intros _. exact Hret.
    + intros _. exact Hnone.
  - assert (Hk :
      Trainer.calculate_total_route_time geodesic places start_coords
      = Py.KeyError "time_required").
    { destruct places as [|d places]; [destruct Hraw as [p []]|].
      unfold Trainer.calculate_total_route_time.
      rewrite (sum_time_required_raises (d :: places) 0 Hraw). reflexivity. }
    split; split.
    + intros _. exact Hk.
    + intros _. exact Hraw.
    + intros Hnone. destruct Hraw as [p Hin]. exfalso. exact (Hnone p Hin).
    + intros [r Hr]. congruence.
Qed.

Lemma walking_minutes_bounds (from : Coord) (stops : list Coord) :
  5 * count stops <= walking_minutes geodesic from stops
  <= 120 * count stops.
Proof.
  unfold walking_minutes, count. revert from.
  induction stops as [|c stops IH]; intros from.
  - unfold Qsum. cbn [legs map fold_right length].
    change (inject_Z (Z.of_nat 0)) with 0. lra.
  - specialize (IH c).
    pose proof (walking_time_bounds (geodesic from c)) as Hb.
    replace (Z.of_nat (length (c :: stops)))
      with (Z.of_nat (length stops) + 1)%Z by (simpl length; lia).
    rewrite inject_Z_plus.
    unfold Qsum in *. cbn [legs map fold_right fst snd].
    change (inject_Z 1) with 1. lra.
Qed.

Lemma route_walking_bounds_aux (places : list PlaceDict)
    (start_coords : Coord) (total walk hours : Q) :
  Trainer.calculate_total_route_time geodesic places start_coords
  = Py.Ret (total, walk, hours) ->
  5 * count places <= walk <= 120 * count places /\
  hours == walk / 60 /\
  exists visit,
    Trainer.sum_time_required 0 places = Py.Ret visit /\
    total == visit + hours.
Proof.
  intros Hr. destruct places as [|d places].
  - injection Hr as <- <- <-. unfold count. cbn [length].
    change (inject_Z (Z.of_nat 0)) with 0.
    split; [lra|]. split; [reflexivity|].
    exists 0. split; [reflexivity | lra].
  - unfold Trainer.calculate_total_route_time in Hr.
    destruct (Trainer.sum_time_required 0 (d :: places)) as [v|k] eqn:Ev;
      [|discriminate].
    cbn [Py.bind] in Hr. injection Hr as <- <- <-.
    split.
    + rewrite walking_loop_sum.
      pose proof (walking_minutes_bounds start_coords
                    (map dict_coords (d :: places))) as Hb.
      unfold count in *. rewrite length_map in Hb.
      unfold walking_minutes, Qsum in *.
      cbn [legs map fold_right fst snd] in *. lra.
    + split; [reflexivity|]. exists v. split; [reflexivity | lra].
Qed.


(** Whenever [calculate_total_route_time] returns for a list of n places,
    the walking time it reports lies between 5n and 120n minutes, the
    walking hours are these minutes divided by 60, and the total is the
    accumulated visit time plus the walking hours. *)
Theorem route_walking_bounds (places : list PlaceDict)
    (start_coords : Coord) (total walk hours : Q) :
  Trainer.calculate_total_route_time geodesic places start_coords
  = Py.Ret (total, walk, hours) ->
  5 * count places <= walk <= 120 * count places /\
  hours == walk / 60 /\
  exists visit,
    Trainer.sum_time_required 0 places = Py.Ret visit /\
    total == visit + hours.
Proof.
  apply route_walking_bounds_aux.
Qed.

End RouteTimeEdges.

Lemma route_walking_bounds_witness :
  5 * count [Scored (Trainer.score_place taxicab sample_scores no_rounding
                      "museums"
                       sample_start 0%nat kremlin)]
  <= 6600000000 # 400000000
  <= 120 * count [Scored (Trainer.score_place taxicab sample_scores no_rounding
                           "museums"
                            sample_start 0%nat kremlin)].
Proof.
  refine (proj1 (route_walking_bounds taxicab
            [Scored (Trainer.score_place taxicab sample_scores no_rounding
                      "museums"
                       sample_start 0%nat kremlin)]
            sample_start (162000000000 # 240000000000)
            (6600000000 # 400000000) (6600000000 # 24000000000) _)).
  vm_compute. reflexivity.
Defined.

(** ** Sequencing an already sequenced tour *)

Lemma py_min_by_keeps_least_head (key : nat -> Q) (rest : list nat) (x : nat) :
  (forall y, In y rest -> key x <= key y) ->
  Trainer.py_min_by key x rest = x.
Proof.
  induction rest as [|y rest IH]; intros Hmin; [reflexivity|].
  simpl.
  assert (E : Py.Qlt_bool (key y) (key x) = false).
  { apply Qlt_bool_false_iff. apply Hmin. left; reflexivity. }
  rewrite E. apply IH. intros z Hz. apply Hmin. right; exact Hz.
Qed.

Section FixedTour.
Variable geodesic : Coord -> Coord -> Q.
Variable fl : Q -> Q.

Lemma greedy_loop_in_order (all_points : list Coord) (m : nat) :
  forall c tour,
    greedy_nodes (Trainer.edge_weight geodesic all_points) c (seq (S c) m) ->
    Trainer.greedy_loop geodesic m all_points (seq (S c) m) tour c
    = tour ++ seq (S c) m.
Proof.
  induction m as [|m IH]; intros c tour Hg.
  - simpl. rewrite app_nil_r. reflexivity.
  - cbn [seq] in *. destruct Hg as [Hmin Hg].
    cbn [Trainer.greedy_loop].
    rewrite py_min_by_keeps_least_head
      by (intros y Hy; apply Hmin; right; exact Hy).
    cbn [remove]. destruct (Nat.eq_dec (S c) (S c)) as [_|Hne]; [|congruence].
    rewrite notin_remove by (rewrite in_seq; lia).
    rewrite (IH (S c) (tour ++ [S c]) Hg), <- app_assoc. reflexivity.
Qed.

Lemma greedy_order_nodes (tour : list PlaceDict) :
  forall (before : list Coord) (current : Coord),
    greedy_order geodesic current tour ->
    greedy_nodes
      (Trainer.edge_weight geodesic
         (before ++ current :: map dict_coords tour))
      (length before) (seq (S (length before)) (length tour)).
Proof.
  induction tour as [|p tour IH]; intros before current Hg; [exact I|].
  destruct Hg as [Hmin Hg]. cbn [length seq]. split.
  - intros m Hm.
    assert (Hrange : (S (length before) <= m
                      < S (length before) + S (length tour))%nat).
    { destruct Hm as [<-|Hm]; [lia|]. apply in_seq in Hm. lia. }
    unfold Trainer.edge_weight.
    rewrite !Nat.min_l, !Nat.max_r by lia.
    rewrite nth_middle.
    replace (S (length before)) with (length before + 1)%nat by lia.
    remember (m - S (length before))%nat as j eqn:Ej.
    replace m with (length before + S j)%nat by lia.
    rewrite !app_nth2_plus. cbn [nth map].
    destruct j as [|j].
    + lra.
    + rewrite (nth_indep _ (0, 0) (dict_coords p))
        by (rewrite length_map; lia).
      rewrite map_nth. apply Hmin. right. apply nth_In. lia.
  - specialize (IH (before ++ [current]) (dict_coords p) Hg).
    rewrite <- app_assoc in IH. rewrite length_app in IH.
    cbn [length app] in IH.
    replace (length before + 1)%nat with (S (length before)) in IH by lia.
    exact IH.
Qed.

Lemma greedy_tour_fixed (places : list PlaceDict)
    (start_coords : Coord) :
  greedy_order geodesic start_coords places ->
  Trainer.optimize_route_sequence geodesic places start_coords = places.
Proof.
  intros Hg. destruct places as [|p0 [|p1 rest]]; try reflexivity.
  set (places := p0 :: p1 :: rest) in *.
  change (Trainer.optimize_route_sequence geodesic places start_coords)
    with (map (fun i => nth (i - 1) places p0)
            (tl (Trainer.greedy_tsp geodesic
                   (start_coords :: map dict_coords places) 0))).
  unfold Trainer.greedy_tsp.
  assert (Hrem :
    remove Nat.eq_dec 0%nat
      (seq 0 (length (start_coords :: map dict_coords places)))
    = seq 1 (length places)).
  { cbn [length seq remove]. rewrite length_map.
    destruct (Nat.eq_dec 0 0) as [_|Hne]; [|congruence].
    apply notin_remove. rewrite in_seq. lia. }
  rewrite Hrem, length_seq.
  pose proof (greedy_order_nodes places [] start_coords Hg) as Hnodes.
  cbn [app length] in Hnodes.
  rewrite (greedy_loop_in_order _ (length places) 0%nat [0%nat] Hnodes).
  cbn [app tl]. apply places_of_nodes.
Qed.

(** A list of places that already is a nearest-neighbour tour from the
    start (each place nearest, among those after it, to the position before
    it) is returned unchanged. *)
Theorem greedy_tour_unchanged (places : list PlaceDict)
    (start_coords : Coord) :
  greedy_order geodesic start_coords places ->
  Trainer.optimize_route_sequence geodesic places start_coords = places.
Proof.
  apply greedy_tour_fixed.
Qed.

End FixedTour.

Lemma greedy_tour_unchanged_witness :
  Trainer.optimize_route_sequence taxicab
    [Raw (mk 2 56.321 44); Raw (mk 1 56.33 44.01); Raw (mk 3 56.4 44.1)]
    (56.32, 44)
  = [Raw (mk 2 56.321 44); Raw (mk 1 56.33 44.01); Raw (mk 3 56.4 44.1)].
Proof.
  apply (greedy_tour_unchanged taxicab).
  cbn [greedy_order dict_coords]. repeat split;
    intros q Hq; cbn [In] in Hq;
    repeat (destruct Hq as [<-|Hq]; [vm_compute; discriminate|]);
    destruct Hq.
Defined.

Section Idempotence.
Variable geodesic : Coord -> Coord -> Q.
Variable fl : Q -> Q.
Hypothesis geodesic_sym : forall a b, geodesic a b == geodesic b a.

Lemma sequenced_is_greedy (places : list PlaceDict) (start_coords : Coord) :
  greedy_order geodesic start_coords
    (Trainer.optimize_route_sequence geodesic places start_coords).
Proof.
  destruct places as [|p0 [|p1 rest]].
  - exact I.
  - split; [|exact I]. intros q [<-|[]]. lra.
  - set (places := p0 :: p1 :: rest).
    change (Trainer.optimize_route_sequence geodesic places start_coords)
      with (map (fun i => nth (i - 1) places p0)
              (tl (Trainer.greedy_tsp geodesic
                     (start_coords :: map dict_coords places) 0))).
    destruct (greedy_tsp_spec geodesic
                (start_coords :: map dict_coords places))
      as [order [Heq [Hp Hg]]].
    replace (length (start_coords :: map dict_coords places) - 1)%nat
      with (length places) in Hp by (simpl; rewrite length_map; lia).
    rewrite Heq. cbn [tl].
    apply (greedy_nodes_order geodesic geodesic_sym places p0 start_coords
             order 0%nat); [|exact Hg].
    intros i Hi. apply (Permutation_in _ Hp) in Hi.
    apply in_seq in Hi. lia.
Qed.

(** With a symmetric distance, sequencing is idempotent: sequencing the
    tour it returned gives the same tour again. *)
Theorem sequencing_idempotent (places : list PlaceDict)
    (start_coords : Coord) :
  Trainer.optimize_route_sequence geodesic
    (Trainer.optimize_route_sequence geodesic places start_coords)
    start_coords
  = Trainer.optimize_route_sequence geodesic places start_coords.
Proof.
  apply greedy_tour_fixed. apply sequenced_is_greedy.
Qed.

End Idempotence.

Lemma sequencing_idempotent_witness :
  Trainer.optimize_route_sequence taxicab
    (Trainer.optimize_route_sequence taxicab (map Raw sample_catalog)
       sample_start) sample_start
  = Trainer.optimize_route_sequence taxicab (map Raw sample_catalog)
      sample_start.
Proof.
  exact (sequencing_idempotent taxicab taxicab_sym (map Raw sample_catalog)
           sample_start).
Defined.

(** ** The passes of the selector *)

Section PassFacts.
Variable geodesic : Coord -> Coord -> Q.
Variable fl : Q -> Q.

Lemma fill_loop_prefix (t t' : nat) (max_time : Q) (rest : list Candidate) :
  (t <= t')%nat ->
  forall combination current,
    (length combination <= t)%nat ->
    Trainer.fill_loop geodesic fl t max_time rest combination current
    = firstn t
        (Trainer.fill_loop geodesic fl t' max_time rest combination current).
Proof.
  intros Htt. induction rest as [|p rest IH]; intros combination current Hlen.
  - cbn [Trainer.fill_loop]. symmetry. apply firstn_all2. exact Hlen.
  - destruct (fill_loop_shape geodesic fl t' max_time (p :: rest) combination
                current) as [extra [Hshape _]].
    cbn [Trainer.fill_loop] in *.
    destruct (t <=? length combination)%nat eqn:Efull.
    + apply Nat.leb_le in Efull. rewrite Hshape.
      rewrite firstn_app.
      replace (t - length combination)%nat with 0%nat by lia.
      rewrite firstn_all2 by lia. cbn [firstn]. rewrite app_nil_r.
      reflexivity.
    + apply Nat.leb_gt in Efull.
      assert (E' : (t' <=? length combination)%nat = false)
        by (apply Nat.leb_gt; lia).
      rewrite E'.
      destruct (Trainer.py_in p combination); [apply IH; exact Hlen|].
      destruct (Qle_bool _ max_time).
      * apply IH. rewrite length_app. cbn [length]. lia.
      * apply IH. exact Hlen.
Qed.

(** The pass for a smaller target count stops earlier on the same greedy
    fill: its combination is the first [t] places of the combination built
    for any larger target.  So the 4- and 3-place passes examine prefixes
    of the 5-place pass, which is also what the fallback fill builds. *)
Theorem passes_are_prefixes (pws : list Candidate) (max_time : Q)
    (t t' : nat) :
  (t <= t')%nat ->
  pass geodesic fl pws max_time t
  = firstn t (pass geodesic fl pws max_time t') /\
  Trainer.fallback_loop geodesic fl max_time pws [] 0
  = pass geodesic fl pws max_time 5.
Proof.
  intros Htt. split.
  - unfold pass. apply fill_loop_prefix; [exact Htt | simpl; lia].
  - apply fallback_is_pass.
Qed.

Lemma not_py_in (p : Candidate) (l : list Candidate) :
  Trainer.py_in p l = false -> Forall (fun a => differ_by_value a p) l.
Proof.
  unfold Trainer.py_in, differ_by_value.
  induction l as [|a l IH]; intros H; [constructor|].
  cbn [existsb] in H. apply orb_false_iff in H. destruct H as [Ha Hl].
  constructor; [exact Ha | apply IH; exact Hl].
Qed.

Lemma distinct_snoc (l : list Candidate) (p : Candidate) :
  ForallOrdPairs differ_by_value l ->
  Forall (fun a => differ_by_value a p) l ->
  ForallOrdPairs differ_by_value (l ++ [p]).
Proof.
  induction 1 as [|a l Ha Hl IH]; intros Hp.
  - cbn. constructor; constructor.
  - inversion Hp as [|? ? Hap Hlp]; subst.
    cbn. constructor; [|apply IH; exact Hlp].
    apply Forall_app. split; [exact Ha | constructor; [exact Hap|constructor]].
Qed.

Lemma fill_loop_distinct (target_count : nat) (max_time : Q)
    (rest : list Candidate) :
  forall combination current,
    ForallOrdPairs differ_by_value combination ->
    ForallOrdPairs differ_by_value
      (Trainer.fill_loop geodesic fl target_count max_time rest combination
         current).
Proof.
  induction rest as [|p rest IH]; intros combination current Hd;
    [exact Hd|].
  cbn [Trainer.fill_loop].
  destruct (target_count <=? length combination)%nat; [exact Hd|].
  destruct (Trainer.py_in p combination) eqn:Ein; [apply IH; exact Hd|].
  destruct (Qle_bool _ max_time); [|apply IH; exact Hd].
  apply IH. apply distinct_snoc; [exact Hd | apply not_py_in; exact Ein].
Qed.

Lemma minimum_loop_distinct (rest : list Candidate) :
  forall best,
    ForallOrdPairs differ_by_value best ->
    ForallOrdPairs differ_by_value (Trainer.minimum_loop rest best).
Proof.
  induction rest as [|p rest IH]; intros best Hd; [exact Hd|].
  cbn [Trainer.minimum_loop].
  destruct (3 <=? length best)%nat; [exact Hd|].
  destruct (Trainer.py_in p best) eqn:Ein; cbn [negb];
    [apply IH; exact Hd|].
  apply IH. apply distinct_snoc; [exact Hd | apply not_py_in; exact Ein].
Qed.

End PassFacts.

Lemma passes_are_prefixes_witness :
  pass taxicab no_rounding
    (Trainer.ranked_candidates taxicab sample_scores no_rounding
      sample_catalog "museums"
       sample_start) 3 4
  = firstn 4
      (pass taxicab no_rounding
         (Trainer.ranked_candidates taxicab sample_scores no_rounding
           sample_catalog
            "museums" sample_start) 3 5).
Proof.
  apply (passes_are_prefixes taxicab no_rounding
           (Trainer.ranked_candidates taxicab sample_scores no_rounding
             sample_catalog
              "museums" sample_start) 3 4 5).
  lia.
Defined.

Section ResultEntries.
Variable geodesic : Coord -> Coord -> Q.
Variable cos_sim : string -> nat -> Q.
Variable fl : Q -> Q.
Variable self_places : list Place.
Variable user_interests : string.
Variables min_time max_time : Q.
Variable start_coords : Coord.

(** Every entry of the returned list is one of the scored catalog entries,
    and no two entries of the list are equal by value. *)
Theorem result_entries_distinct :
  exists r,
    Trainer.find_optimal_places geodesic cos_sim fl self_places user_interests
      min_time max_time start_coords = Py.Ret r /\
    (forall c, In c r ->
       In c (Trainer.score_places geodesic cos_sim fl user_interests
               start_coords 0 self_places)) /\
    ForallOrdPairs differ_by_value r.
Proof.
  set (pws := Trainer.ranked_candidates geodesic cos_sim fl self_places
                user_interests start_coords).
  assert (Hpws : forall c, In c pws ->
            In c (Trainer.score_places geodesic cos_sim fl user_interests
                    start_coords 0 self_places)).
  { intros c Hc. eapply Permutation_in; [apply py_sort_perm | exact Hc]. }
  assert (Hpass : forall t,
            (forall c, In c (pass geodesic fl pws max_time t) -> In c pws) /\
            ForallOrdPairs differ_by_value (pass geodesic fl pws max_time t)).
  { intros t. split.
    - intros c Hc. destruct (pass_subseq geodesic fl pws max_time t) as [Hs _].
      exact (subseq_in _ _ _ Hs Hc).
    - unfold pass. apply fill_loop_distinct. constructor. }
  assert (Hcases : self_places = [] \/ self_places <> []).
  { destruct self_places; [left; reflexivity | right; discriminate]. }
  destruct Hcases as [Hnil|Hne].
  - exists []. rewrite Hnil. split; [reflexivity|].
    split; [intros c [] | constructor].
  - destruct (find_optimal_places_outcome geodesic cos_sim fl self_places
                user_interests min_time max_time start_coords Hne)
      as [[t [total [_ [_ [Hres _]]]]]|[_ Hres]]; fold pws in Hres.
    + exists (pass geodesic fl pws max_time t). split; [exact Hres|].
      destruct (Hpass t) as [Hin Hd]. split; [|exact Hd].
      intros c Hc. apply Hpws, Hin, Hc.
    + exists (fallback_result geodesic fl pws max_time). split; [exact Hres|].
      unfold fallback_result. cbv zeta.
      destruct (Hpass 5%nat) as [Hin Hd].
      destruct ((length (pass geodesic fl pws max_time 5) <? 3)%nat
                && (3 <=? length pws)%nat).
      * split; [|apply minimum_loop_distinct; exact Hd].
        destruct (minimum_loop_shape pws (pass geodesic fl pws max_time 5))
          as [extra [Heq [Hsub _]]].
        rewrite Heq. intros c Hc. apply Hpws. apply in_app_or in Hc.
        destruct Hc as [Hc|Hc]; [apply Hin, Hc|].
        exact (subseq_in _ _ _ Hsub Hc).
      * split; [|exact Hd]. intros c Hc. apply Hpws, Hin, Hc.
Qed.

End ResultEntries.

(** ** When the fill accepts nothing *)

Lemma minimum_loop_takes_first (rest : list Candidate) :
  forall best,
    NoDup (map candidate_key rest) ->
    (forall c, In c rest -> Trainer.py_in c best = false) ->
    Trainer.minimum_loop rest best
    = best ++ firstn (3 - length best) rest.
Proof.
  induction rest as [|p rest IH]; intros best Hnd Hfresh.
  - cbn. rewrite firstn_nil, app_nil_r. reflexivity.
  - cbn [Trainer.minimum_loop].
    destruct (3 <=? length best)%nat eqn:Efull.
    + apply Nat.leb_le in Efull.
      replace (3 - length best)%nat with 0%nat by lia.
      cbn. rewrite app_nil_r. reflexivity.
    + apply Nat.leb_gt in Efull.
      rewrite (Hfresh p (or_introl eq_refl)). cbn [negb].
      inversion Hnd as [|? ? Hnotin Hnd']; subst.
      rewrite IH.
      * rewrite <- app_assoc, length_app. cbn [length app].
        replace (3 - length best)%nat
          with (S (3 - (length best + 1)))%nat by lia.
        reflexivity.
      * exact Hnd'.
      * intros c Hc. rewrite py_in_app.
        rewrite (Hfresh c (or_intror Hc)). cbn [orb].
        destruct (Trainer.py_in c [p]) eqn:E; [|reflexivity].
        exfalso. apply py_in_key in E. cbn in E. destruct E as [E|[]].
        apply Hnotin. rewrite E. apply in_map. exact Hc.
Qed.

Lemma accurate_bounds (fl : Q -> Q) (x : Q) :
  accurate fl -> 0 <= x ->
  x * (999999999999 # 1000000000000) <= fl x
  /\ fl x <= x * (1000000000001 # 1000000000000).
Proof.
  intros Hacc Hx. specialize (Hacc x).
  rewrite (Qabs_pos x Hx) in Hacc.
  apply Qabs_Qle_condition in Hacc. destruct Hacc as [Hlo Hhi].
  split; lra.
Qed.

Section NothingAccepted.
Variable geodesic : Coord -> Coord -> Q.
Variable cos_sim : string -> nat -> Q.
Variable fl : Q -> Q.
Variable self_places : list Place.
Variable user_interests : string.
Variables min_time max_time : Q.
Variable start_coords : Coord.

Let pws :=
  Trainer.ranked_candidates geodesic cos_sim fl self_places user_interests
    start_coords.

Lemma scored_walk_ok (l : list Place) :
  forall i c,
    In c (Trainer.score_places geodesic cos_sim fl user_interests
            start_coords i l) ->
    walk_from_start_ok geodesic fl start_coords c /\
    0.2 <= time_required c <= 0.4.
Proof.
  induction l as [|p l IH]; intros i c Hc; [destruct Hc|].
  destruct Hc as [<-|Hc]; [|exact (IH _ _ Hc)].
  split; [unfold walk_from_start_ok; reflexivity | apply dwell_range].
Qed.

Lemma ranked_walk_ok (c : Candidate) :
  In c pws ->
  walk_from_start_ok geodesic fl start_coords c /\
  0.2 <= time_required c <= 0.4.
Proof.
  intros Hc. apply (scored_walk_ok self_places 0%nat).
  eapply Permutation_in; [apply py_sort_perm | exact Hc].
Qed.

Lemma empty_fill_result :
  self_places <> [] ->
  Trainer.fallback_loop geodesic fl max_time pws [] 0 = [] ->
  Trainer.find_optimal_places geodesic cos_sim fl self_places user_interests
    min_time max_time start_coords
  = Py.Ret (if (3 <=? length pws)%nat then Trainer.minimum_loop pws []
            else []).
Proof.
  intros Hne Hnil. rewrite fallback_is_pass in Hnil.
  assert (Hnone : forall c, In c pws -> ~ fits_first fl max_time c).
  { apply (fill_of_nothing geodesic fl 5 max_time pws); [lia | exact Hnil]. }
  assert (Hempty : forall t, (1 <= t)%nat ->
                     pass geodesic fl pws max_time t = []).
  { intros t Ht. unfold pass.
    apply (fill_of_nothing geodesic fl t max_time pws Ht). exact Hnone. }
  destruct (find_optimal_places_outcome geodesic cos_sim fl self_places
              user_interests min_time max_time start_coords Hne)
    as [[t [total [Hin [Hfit [Hres _]]]]]|[_ Hres]]; fold pws in Hres.
  - exfalso. destruct Hfit as [Hlen _]. fold pws in Hlen.
    rewrite Hempty in Hlen by (simpl in Hin; lia). simpl in Hlen. lia.
  - rewrite Hres. unfold fallback_result. cbv zeta.
    rewrite (Hempty 5%nat) by lia. cbn [length Nat.ltb Nat.leb andb].
    reflexivity.
Qed.

Lemma empty_fill_top_three_aux :
  distinct_rows self_places -> (3 <= length self_places)%nat ->
  Trainer.fallback_loop geodesic fl max_time pws [] 0 = [] ->
  Trainer.find_optimal_places geodesic cos_sim fl self_places user_interests
    min_time max_time start_coords
  = Py.Ret (firstn 3 pws).
Proof.
  intros Hnd HN Hnil.
  assert (Hne : self_places <> []).
  { intros Hno. rewrite Hno in HN. simpl in HN. lia. }
  rewrite (empty_fill_result Hne Hnil).
  pose proof (ranked_length geodesic cos_sim fl self_places user_interests
                start_coords) as Hlen. fold pws in Hlen.
  assert (E : (3 <=? length pws)%nat = true) by (apply Nat.leb_le; lia).
  rewrite E. f_equal.
  rewrite minimum_loop_takes_first; [reflexivity | | reflexivity].
  apply (ranked_keys_NoDup geodesic cos_sim fl self_places user_interests
           start_coords Hnd).
Qed.

Lemma tiny_budget_fill :
  accurate fl -> max_time <= 0.28 ->
  Trainer.fallback_loop geodesic fl max_time pws [] 0 = [].
Proof.
  intros Hacc Htiny. rewrite fallback_is_pass.
  apply fill_of_nothing; [lia|].
  intros c Hc Hfit. unfold fits_first in Hfit.
  destruct (ranked_walk_ok c Hc) as [Hok [Hlo _]].
  unfold walk_from_start_ok in Hok. rewrite Hok in Hfit.
  pose proof (walking_time_bounds
                (geodesic start_coords (coords (base c)))) as [Hw _].
  set (w := Trainer.calculate_walking_time
              (geodesic start_coords (coords (base c)))) in *.
  assert (Hwalk : 1 # 12 <= w / 60).
  { setoid_replace (w / 60) with (w * (1 # 60)) by field. lra. }
  destruct (accurate_bounds fl (w / 60) Hacc ltac:(lra)) as [H1 _].
  set (a := fl (w / 60)) in *.
  destruct (accurate_bounds fl (time_required c + a) Hacc ltac:(lra))
    as [H2 _].
  set (b := fl (time_required c + a)) in *.
  destruct (accurate_bounds fl (0 + b) Hacc ltac:(lra)) as [H3 _].
  lra.
Qed.

(** When the fill bounded by [max_time] accepts no candidate, a catalog of
    at least 3 places, no two of them the same row, yields exactly the three
    top-ranked candidates, the budget being ignored. *)
Theorem empty_fill_gives_top_three :
  distinct_rows self_places -> (3 <= length self_places)%nat ->
  Trainer.fallback_loop geodesic fl max_time pws [] 0 = [] ->
  Trainer.find_optimal_places geodesic cos_sim fl self_places user_interests
    min_time max_time start_coords
  = Py.Ret (firstn 3 pws).
Proof.
  apply empty_fill_top_three_aux.
Qed.

(** A budget of at most 0.28 hours is below the shortest visit (0.2 hours)
    plus the shortest walk (5 minutes) by more than any rounding, so it
    admits no candidate: a catalog of fewer than 3 places then yields the
    empty list, and a catalog of at least 3 places, no two of them the same
    row, yields the three top-ranked candidates. *)
Theorem tiny_budget_result :
  accurate fl -> max_time <= 0.28 ->
  ((length self_places < 3)%nat ->
   Trainer.find_optimal_places geodesic cos_sim fl self_places user_interests
     min_time max_time start_coords = Py.Ret []) /\
  (distinct_rows self_places -> (3 <= length self_places)%nat ->
   Trainer.find_optimal_places geodesic cos_sim fl self_places user_interests
     min_time max_time start_coords = Py.Ret (firstn 3 pws)).
Proof.
  intros Hacc Htiny.
  pose proof (tiny_budget_fill Hacc Htiny) as Hnil.
  split.
  - intros Hfew.
    assert (Hcases : self_places = [] \/ self_places <> []).
    { destruct self_places; [left; reflexivity | right; discriminate]. }
    destruct Hcases as [Hno|Hne]; [rewrite Hno; reflexivity|].
    rewrite (empty_fill_result Hne Hnil).
    pose proof (ranked_length geodesic cos_sim fl self_places user_interests
                  start_coords) as Hlen. fold pws in Hlen.
    assert (E : (3 <=? length pws)%nat = false) by (apply Nat.leb_gt; lia).
    rewrite E. reflexivity.
  - intros Hnd HN. apply empty_fill_top_three_aux; assumption.
Qed.

End NothingAccepted.

Lemma no_rounding_accurate : accurate no_rounding.
Proof.
  intros x. unfold no_rounding.
  setoid_replace (x - x) with 0 by ring.
  change (Qabs 0) with 0.
  pose proof (Qabs_nonneg x). lra.
Qed.

Lemma tiny_budget_result_witness :
  Trainer.find_optimal_places taxicab sample_scores no_rounding sample_catalog
    "museums" (1 # 10) (1 # 5) sample_start
  = Py.Ret
      (firstn 3
         (Trainer.ranked_candidates taxicab sample_scores no_rounding
            sample_catalog "museums" sample_start)).
Proof.
  refine (proj2 (tiny_budget_result taxicab sample_scores no_rounding
                   sample_catalog "museums" (1 # 10) (1 # 5) sample_start
                   no_rounding_accurate _) _ _).
  - vm_compute. discriminate.
  - unfold distinct_rows. repeat constructor.
  - simpl. lia.
Defined.

Lemma empty_fill_gives_top_three_witness :
  Trainer.find_optimal_places taxicab sample_scores no_rounding sample_catalog
    "museums" (1 # 10) (1 # 5) sample_start
  = Py.Ret
      (firstn 3
         (Trainer.ranked_candidates taxicab sample_scores no_rounding
            sample_catalog "museums" sample_start)).
Proof.
  apply (empty_fill_gives_top_three taxicab sample_scores no_rounding
           sample_catalog "museums" (1 # 10) (1 # 5) sample_start).
  - unfold distinct_rows. repeat constructor.
  - simpl. lia.
  - vm_compute. reflexivity.
Defined.

(** ** The route plan *)

Lemma Qsum_permutation {A : Type} (f : A -> Q) (l l' : list A) :
  Permutation l l' -> Qsum (map f l) == Qsum (map f l').
Proof.
  unfold Qsum. induction 1 as [|x l l' _ IH|x y l|l l' l'' _ IH1 _ IH2];
    cbn [map fold_right].
  - reflexivity.
  - rewrite IH. reflexivity.
  - lra.
  - rewrite IH1. exact IH2.
Qed.

Lemma first_five {A : Type} (l : list A) :
  (if (5 <? length l)%nat then firstn 5 l else l) = firstn 5 l.
Proof.
  destruct (5 <? length l)%nat eqn:E; [reflexivity|].
  apply Nat.ltb_ge in E. symmetry. apply firstn_all2. exact E.
Qed.

Lemma stop_lines_scored (cs : list Candidate) :
  exists lines,
    Trainer.stop_lines (map Scored cs) = Py.Ret lines /\
    length lines = length cs.
Proof.
  induction cs as [|c cs [lines [Hl Hlen]]].
  - exists []. split; reflexivity.
  - exists ((similarity_score c, time_required c * 60) :: lines).
    cbn [map Trainer.stop_lines dict_similarity_score dict_time_required
         Py.bind].
    rewrite Hl. cbn [Py.bind length]. split; [reflexivity | lia].
Qed.

Section RoutePlanFacts.
Variable geodesic : Coord -> Coord -> Q.
Variable fl : Q -> Q.

Lemma plan_unfold (self_places : list Place) (places : list PlaceDict)
    (min_time max_time : Q) (user_interests start_location : string)
    (start_coords : Coord) :
  (3 <= length places)%nat ->
  Trainer.generate_route_plan geodesic self_places places min_time max_time
    user_interests start_location start_coords
  = (let optimized :=
       Trainer.optimize_route_sequence geodesic (firstn 5 places)
         start_coords in
     r <- Trainer.calculate_total_route_time geodesic optimized
            start_coords ;;
     total_visit_time <- Trainer.sum_time_required 0 optimized ;;
     lines <- Trainer.stop_lines optimized ;;
     Py.Ret (Trainer.Messages
       {| Trainer.optimized_places := optimized;
          Trainer.total_route_time := fst (fst r);
          Trainer.total_walking_time_min := snd (fst r);
          Trainer.total_visit_time := total_visit_time;
          Trainer.stops := lines |})).
Proof.
  intros Hlen. unfold Trainer.generate_route_plan.
  assert (E : (length places <? 3)%nat = false) by (apply Nat.ltb_ge; lia).
  rewrite E, first_five. reflexivity.
Qed.

Lemma route_plan_scored_aux (self_places : list Place)
    (cs : list Candidate) (min_time max_time : Q)
    (user_interests start_location : string) (start_coords : Coord) :
  (3 <= length cs)%nat ->
  exists plan,
    Trainer.generate_route_plan geodesic self_places (map Scored cs)
      min_time max_time user_interests start_location start_coords
    = Py.Ret (Trainer.Messages plan) /\
    Permutation (Trainer.optimized_places plan) (map Scored (firstn 5 cs)) /\
    length (Trainer.stops plan) = length (firstn 5 cs) /\
    Trainer.total_visit_time plan
      == Qsum (map time_required (firstn 5 cs)) /\
    5 * count (firstn 5 cs) <= Trainer.total_walking_time_min plan
      <= 120 * count (firstn 5 cs) /\
    Trainer.total_route_time plan
      == Trainer.total_visit_time plan
         + Trainer.total_walking_time_min plan / 60.
Proof.
  intros Hlen.
  rewrite plan_unfold by (rewrite length_map; exact Hlen).
  rewrite <- firstn_map. cbv zeta.
  pose proof (tour_permutation geodesic (map Scored (firstn 5 cs))
                start_coords) as Hperm.
  destruct (Permutation_map_inv _ _ Hperm) as [cs' [Heq Hp]].
  rewrite firstn_map in *. rewrite Heq.
  destruct (route_time_scored geodesic cs' start_coords)
    as [visit [total [walk [hours [Hv [Hr [Hvs [Hw [Hh Ht]]]]]]]]].
  destruct (stop_lines_scored cs') as [lines [Hl Hll]].
  rewrite Hr, Hv, Hl. cbn [Py.bind fst snd].
  eexists. split; [reflexivity|].
  cbn [Trainer.optimized_places Trainer.stops Trainer.total_visit_time
       Trainer.total_walking_time_min Trainer.total_route_time].
  split; [rewrite <- Heq; exact Hperm|].
  split; [rewrite Hll; symmetry; apply Permutation_length; exact Hp|].
  split; [rewrite Hvs; symmetry; apply Qsum_permutation; exact Hp|].
  split; [|exact Ht].
  destruct (route_walking_bounds_aux geodesic (map Scored cs') start_coords
              total walk hours Hr) as [Hb _].
  unfold count in *. rewrite length_map in Hb.
  rewrite (Permutation_length Hp). exact Hb.
Qed.

(** A list of at least 3 scored places always yields an itinerary, whatever
    the catalog: its stops are the first 5 given places reordered, one
    message line per stop; the visit time reported is the sum of their
    [time_required]; the walking time lies between 5 and 120 minutes per
    stop; and the total is the visit time plus the walking time in hours. *)
Theorem route_plan_of_scored (self_places : list Place)
    (cs : list Candidate) (min_time max_time : Q)
    (user_interests start_location : string) (start_coords : Coord) :
  (3 <= length cs)%nat ->
  exists plan,
    Trainer.generate_route_plan geodesic self_places (map Scored cs)
      min_time max_time user_interests start_location start_coords
    = Py.Ret (Trainer.Messages plan) /\
    Permutation (Trainer.optimized_places plan) (map Scored (firstn 5 cs)) /\
    length (Trainer.stops plan) = length (firstn 5 cs) /\
    Trainer.total_visit_time plan
      == Qsum (map time_required (firstn 5 cs)) /\
    5 * count (firstn 5 cs) <= Trainer.total_walking_time_min plan
      <= 120 * count (firstn 5 cs) /\
    Trainer.total_route_time plan
      == Trainer.total_visit_time plan
         + Trainer.total_walking_time_min plan / 60.
Proof.
  apply route_plan_scored_aux.
Qed.

(** For a list of at least 3 places, the plan is produced exactly when the
    first 5 places all carry the derived keys; as soon as one of them is a
    raw catalog entry the call raises [KeyError('time_required')]. *)
Theorem route_plan_succeeds_iff_scored (self_places : list Place)
    (places : list PlaceDict) (min_time max_time : Q)
    (user_interests start_location : string) (start_coords : Coord) :
  (3 <= length places)%nat ->
  (forallb is_scored (firstn 5 places) = true <->
   exists plan,
     Trainer.generate_route_plan geodesic self_places places min_time
       max_time user_interests start_location start_coords
     = Py.Ret (Trainer.Messages plan)) /\
  ((exists p, In (Raw p) (firstn 5 places)) <->
   Trainer.generate_route_plan geodesic self_places places min_time
     max_time user_interests start_location start_coords
   = Py.KeyError "time_required").
Proof.
  intros Hlen.
  destruct (scored_or_raw (firstn 5 places)) as [Hall|Hraw].
  - assert (Hcs : exists cs, firstn 5 places = map Scored cs).
    { clear Hlen. induction (firstn 5 places) as [|d l IH];
        [exists []; reflexivity|].
      cbn [forallb] in Hall. apply andb_true_iff in Hall.
      destruct Hall as [Hd Hall]. destruct d as [q|c]; [discriminate|].
      destruct (IH Hall) as [cs ->]. exists (c :: cs). reflexivity. }
    destruct Hcs as [cs Hcs].
    assert (Hplan : exists plan,
      Trainer.generate_route_plan geodesic self_places places min_time
        max_time user_interests start_location start_coords
      = Py.Ret (Trainer.Messages plan)).
    { rewrite (plan_unfold self_places places) by exact Hlen.
      rewrite Hcs. cbv zeta.
      pose proof (tour_permutation geodesic (map Scored cs) start_coords)
        as Hperm.
      destruct (Permutation_map_inv _ _ Hperm) as [cs' [Heq _]].
      rewrite Heq.
      destruct (route_time_scored geodesic cs' start_coords)
        as [visit [total [walk [hours [Hv [Hr _]]]]]].
      destruct (stop_lines_scored cs') as [lines [Hl _]].
      rewrite Hr, Hv, Hl. cbn [Py.bind]. eexists. reflexivity. }
    assert (Hnone : forall p, ~ In (Raw p) (firstn 5 places)).
    { intros p Hin. rewrite forallb_forall in Hall.
      specialize (Hall _ Hin). discriminate. }
    split; split.
    + intros _. exact Hplan.
    + intros _. exact Hall.
    + intros [p Hin]. exfalso. exact (Hnone p Hin).
    + intros Hk. destruct Hplan as [plan Hp]. congruence.
  - assert (Hk :
      Trainer.generate_route_plan geodesic self_places places min_time
        max_time user_interests start_location start_coords
      = Py.KeyError "time_required").
    { rewrite (plan_unfold self_places places) by exact Hlen. cbv zeta.
      assert (Hraw' : exists p,
        In (Raw p)
          (Trainer.optimize_route_sequence geodesic (firstn 5 places)
             start_coords)).
      { destruct Hraw as [p Hin]. exists p.
        eapply Permutation_in;
          [apply Permutation_sym, tour_permutation | exact Hin]. }
      apply (route_time_raises_aux geodesic _ start_coords) in Hraw'.
      rewrite Hraw'. reflexivity. }
    split; split.
    + intros Hall. exfalso. destruct Hraw as [p Hin].
      rewrite forallb_forall in Hall. specialize (Hall _ Hin). discriminate.
    + intros [plan Hp]. congruence.
    + intros _. exact Hk.
    + intros _. exact Hraw.
Qed.

End RoutePlanFacts.

(** ** Selection followed by planning *)

Lemma short_plan_raises (geodesic : Coord -> Coord -> Q)
    (self_places : list Place) (places : list PlaceDict)
    (min_time max_time : Q) (user_interests start_location : string)
    (start_coords : Coord) :
  self_places <> [] -> (length places < 3)%nat ->
  Trainer.generate_route_plan geodesic self_places places min_time max_time
    user_interests start_location start_coords
  = Py.KeyError "time_required".
Proof.
  intros Hne Hlen.
  assert (Hfirst : firstn 5 self_places <> []).
  { destruct self_places; [congruence | discriminate]. }
  destruct (raw_tour_shape geodesic (firstn 5 self_places) start_coords
              Hfirst) as [p [rest Heq]].
  unfold Trainer.generate_route_plan.
  apply Nat.ltb_lt in Hlen. rewrite Hlen.
  destruct self_places as [|p0 ps]; [congruence|].
  rewrite first_five.
  rewrite (firstn_all2 (n := 5) (map Raw (firstn 5 (p0 :: ps))))
    by (rewrite length_map; apply firstn_le_length).
  rewrite Heq. reflexivity.
Qed.

Section Pipeline.
Variable geodesic : Coord -> Coord -> Q.
Variable cos_sim : string -> nat -> Q.
Variable fl : Q -> Q.
Variable self_places : list Place.
Variable user_interests : string.
Variables min_time max_time : Q.
Variable start_coords : Coord.
Variable start_location : string.

Let pws :=
  Trainer.ranked_candidates geodesic cos_sim fl self_places user_interests
    start_coords.
Let selection :=
  Trainer.find_optimal_places geodesic cos_sim fl self_places user_interests
    min_time max_time start_coords.

Lemma selection_size :
  NoDup (map id self_places) -> (3 <= length self_places)%nat ->
  exists r, selection = Py.Ret r /\ (3 <= length r <= 5)%nat.
Proof.
  intros Hnd HN.
  assert (Hne : self_places <> []).
  { intros Hnil. rewrite Hnil in HN. simpl in HN. lia. }
  destruct (find_optimal_places_outcome geodesic cos_sim fl self_places
              user_interests min_time max_time start_coords Hne)
    as [[t [total [Hin [Hfit [Hres _]]]]]|[_ Hres]];
    fold pws in Hres; fold selection in Hres.
  - exists (pass geodesic fl pws max_time t). split; [exact Hres|].
    destruct Hfit as [Hthree _]. fold pws in Hthree.
    destruct (pass_subseq geodesic fl pws max_time t) as [_ Hcap].
    assert (t <= 5)%nat by (simpl in Hin; lia).
    lia.
  - exists (fallback_result geodesic fl pws max_time). split; [exact Hres|].
    apply (fallback_result_size geodesic cos_sim fl self_places
             user_interests max_time start_coords).
    apply distinct_rows_three; [|exact HN].
    apply unique_ids_distinct_rows. exact Hnd.
Qed.

Lemma small_catalog_selection :
  self_places <> [] -> (length self_places < 3)%nat ->
  selection = Py.Ret (pass geodesic fl pws max_time 5) /\
  (length (pass geodesic fl pws max_time 5) < 3)%nat.
Proof.
  intros Hne Hfew.
  pose proof (ranked_length geodesic cos_sim fl self_places user_interests
                start_coords) as Hlen. fold pws in Hlen.
  assert (Hshort :
    forall t, (length (pass geodesic fl pws max_time t) < 3)%nat).
  { intros t. destruct (pass_subseq geodesic fl pws max_time t) as [Hs _].
    apply subseq_length in Hs. lia. }
  split; [|apply Hshort].
  destruct (find_optimal_places_outcome geodesic cos_sim fl self_places
              user_interests min_time max_time start_coords Hne)
    as [[t [total [Hin [Hfit [Hres _]]]]]|[_ Hres]];
    fold pws in Hres; fold selection in Hres.
  - exfalso. destruct Hfit as [Hthree _]. fold pws in Hthree.
    specialize (Hshort t). lia.
  - rewrite Hres. unfold fallback_result. cbv zeta.
    assert (E : (3 <=? length pws)%nat = false) by (apply Nat.leb_gt; lia).
    rewrite E, andb_false_r. reflexivity.
Qed.

(** With a catalog of at least 3 places with distinct ids, the planning
    run prints an itinerary: selection returns 3 to 5 places, and the plan
    visits exactly these, reordered, with the visit time their
    [time_required] add up to. *)
Theorem walk_plan_for_full_catalog :
  NoDup (map id self_places) -> (3 <= length self_places)%nat ->
  exists r plan,
    selection = Py.Ret r /\
    Guide.create_walk_plan geodesic cos_sim fl self_places user_interests
      min_time max_time start_coords start_location
    = Py.Ret (Guide.PlanPrinted (Trainer.Messages plan)) /\
    Permutation (Trainer.optimized_places plan) (map Scored r) /\
    (3 <= length (Trainer.stops plan) <= 5)%nat /\
    Trainer.total_visit_time plan == Qsum (map time_required r).
Proof.
  intros Hnd HN.
  destruct (selection_size Hnd HN) as [r [Hsel Hsize]].
  destruct (route_plan_scored_aux geodesic self_places r min_time max_time
              user_interests start_location start_coords)
    as [plan [Hplan [Hperm [Hstops [Hvisit _]]]]]; [lia|].
  rewrite (firstn_all2 (n := 5) r) in * by lia.
  exists r, plan. split; [exact Hsel|].
  split.
  - unfold Guide.create_walk_plan. fold selection.
    destruct self_places as [|p0 ps] eqn:E; [simpl in HN; lia|].
    rewrite Hsel. cbn [Py.bind].
    destruct r as [|c r']; [simpl in Hsize; lia|].
    rewrite Hplan. reflexivity.
  - split; [exact Hperm|]. split; [lia | exact Hvisit].
Qed.

(** With a catalog of 1 or 2 places the planning run never prints an
    itinerary.  The selection is what the fill bounded by [max_time]
    accepted, fewer than 3 places; if it accepted any (the budget test, on
    the sums as the code rounds them, admits some candidate as the first
    stop), the 1 or 2 selected places are replaced by raw catalog entries
    and the run ends in [KeyError('time_required')]; otherwise it reports
    that nothing was found. *)
Theorem walk_plan_for_small_catalog :
  self_places <> [] -> (length self_places < 3)%nat ->
  exists r,
    selection = Py.Ret r /\
    r = Trainer.fallback_loop geodesic fl max_time pws [] 0 /\
    (length r < 3)%nat /\
    (r <> [] <-> exists c, In c pws /\ fits_first fl max_time c) /\
    Guide.create_walk_plan geodesic cos_sim fl self_places user_interests
      min_time max_time start_coords start_location
    = match r with
      | [] => Py.Ret Guide.NothingFound
      | _ :: _ => Py.KeyError "time_required"
      end.
Proof.
  intros Hne Hfew.
  destruct (small_catalog_selection Hne Hfew) as [Hsel Hshort].
  pose proof (fill_from_nothing geodesic fl 5 max_time pws
                ltac:(lia)) as Hiff.
  fold (pass geodesic fl pws max_time 5) in Hiff.
  exists (pass geodesic fl pws max_time 5).
  split; [exact Hsel|].
  split; [symmetry; apply fallback_is_pass|].
  split; [exact Hshort|]. split; [exact Hiff|].
  unfold Guide.create_walk_plan. fold selection.
  destruct self_places as [|p0 ps] eqn:E; [congruence|].
  rewrite Hsel. cbn [Py.bind].
  destruct (pass geodesic fl pws max_time 5) as [|c r'] eqn:Ep;
    [reflexivity|].
  rewrite <- E in *.
  rewrite (short_plan_raises geodesic self_places
             (map Scored (c :: r')) min_time max_time user_interests
             start_location start_coords Hne)
    by (rewrite length_map; exact Hshort).
  reflexivity.
Qed.

End Pipeline.

(** ** The bot's reply *)

Section BotReply.
Variable geodesic : Coord -> Coord -> Q.
Variable cos_sim : string -> nat -> Q.
Variable fl : Q -> Q.
Variable trained_places : list Place.
Variable session : Bot.UserSession.

Let pws :=
  Trainer.ranked_candidates geodesic cos_sim fl trained_places
    (Bot.user_interests session) (Bot.start_coords session).

(** With a catalog of at least 3 places with distinct ids the bot sends an
    itinerary of 3 to 5 stops. *)
Theorem bot_routes_full_catalog :
  NoDup (map id trained_places) -> (3 <= length trained_places)%nat ->
  exists plan,
    Bot.generate_route_state geodesic cos_sim fl (Some trained_places)
      session
    = Bot.RouteSent (Trainer.Messages plan) /\
    (3 <= length (Trainer.stops plan) <= 5)%nat.
Proof.
  intros Hnd HN.
  destruct (selection_size geodesic cos_sim fl trained_places
              (Bot.user_interests session) (Bot.min_time session)
              (Bot.max_time session) (Bot.start_coords session) Hnd HN)
    as [r [Hsel Hsize]].
  destruct (route_plan_scored_aux geodesic trained_places r
              (Bot.min_time session) (Bot.max_time session)
              (Bot.user_interests session) (Bot.start_location session)
              (Bot.start_coords session))
    as [plan [Hplan [_ [Hstops _]]]]; [lia|].
  rewrite (firstn_all2 (n := 5) r) in Hstops by lia.
  exists plan. split; [|lia].
  unfold Bot.generate_route_state. rewrite Hsel. cbn [Py.bind].
  destruct r as [|c r']; [simpl in Hsize; lia|].
  rewrite Hplan. reflexivity.
Qed.

(** The bot never sends an itinerary for a catalog of fewer than 3 places.
    While no catalog is loaded, as after a failed load, route generation
    fails on the missing model and the user gets the error reply.  With 1
    or 2 places loaded, the selection is what the fill bounded by
    [max_time] accepted: if it accepted any, route generation fails on the
    raw catalog entries and the user gets the error reply for
    ['time_required']; otherwise the user is told that no places were
    found. *)
Theorem bot_small_catalog :
  Bot.generate_route_state geodesic cos_sim fl None session
  = Bot.GenerationError Bot.RaisedTypeError /\
  (trained_places <> [] -> (length trained_places < 3)%nat ->
   exists r,
     Trainer.find_optimal_places geodesic cos_sim fl trained_places
       (Bot.user_interests session) (Bot.min_time session)
       (Bot.max_time session) (Bot.start_coords session) = Py.Ret r /\
     r = Trainer.fallback_loop geodesic fl (Bot.max_time session) pws [] 0 /\
     (length r < 3)%nat /\
     (r <> [] <->
      exists c, In c pws /\ fits_first fl (Bot.max_time session) c) /\
     Bot.generate_route_state geodesic cos_sim fl (Some trained_places)
       session
     = match r with
       | [] => Bot.NoPlacesFound
       | _ :: _ => Bot.GenerationError (Bot.RaisedKeyError "time_required")
       end).
Proof.
  split; [reflexivity|].
  intros Hne Hfew.
  destruct (small_catalog_selection geodesic cos_sim fl trained_places
              (Bot.user_interests session) (Bot.min_time session)
              (Bot.max_time session) (Bot.start_coords session) Hne Hfew)
    as [Hsel Hshort]. fold pws in Hsel, Hshort.
  pose proof (fill_from_nothing geodesic fl 5 (Bot.max_time session) pws
                ltac:(lia)) as Hiff.
  fold (pass geodesic fl pws (Bot.max_time session) 5) in Hiff.
  exists (pass geodesic fl pws (Bot.max_time session) 5).
  split; [exact Hsel|].
  split; [symmetry; apply fallback_is_pass|].
  split; [exact Hshort|]. split; [exact Hiff|].
  unfold Bot.generate_route_state. rewrite Hsel. cbn [Py.bind].
  destruct (pass geodesic fl pws (Bot.max_time session) 5) as [|c r'];
    [reflexivity|].
  rewrite (short_plan_raises geodesic trained_places
             (map Scored (c :: r')) (Bot.min_time session)
             (Bot.max_time session) (Bot.user_interests session)
             (Bot.start_location session) (Bot.start_coords session)
             Hne)
    by (rewrite length_map; exact Hshort).
  reflexivity.
Qed.

End BotReply.

(** ** Splitting long messages *)

Section Chunks.
Context {Char : Type}.

Lemma chunks_concat (n m : nat) :
  forall l : list Char,
    (length l <= m * n)%nat ->
    concat (map (fun k => firstn n (skipn (k * n) l)) (seq 0 m)) = l.
Proof.
  induction m as [|m IH]; intros l Hlen.
  - destruct l; [reflexivity | simpl in Hlen; lia].
  - cbn [seq map concat]. rewrite <- seq_shift, map_map.
    cbn [Nat.mul skipn].
    rewrite (map_ext _ (fun k => firstn n (skipn (k * n) (skipn n l)))).
    + rewrite IH; [apply firstn_skipn|].
      rewrite length_skipn. lia.
    + intros k. rewrite skipn_skipn. f_equal. f_equal. lia.
Qed.

Lemma range_covers (len n : nat) :
  (0 < n)%nat -> (len <= (len + n - 1) / n * n)%nat.
Proof.
  intros Hn.
  pose proof (Nat.mul_succ_div_gt (len + n - 1) n ltac:(lia)) as H.
  nia.
Qed.

Lemma range_starts_inside (len n k : nat) :
  (0 < n)%nat -> (k < (len + n - 1) / n)%nat -> (k * n < len)%nat.
Proof.
  intros Hn Hk.
  pose proof (Nat.Div0.mul_div_le (len + n - 1) n) as H.
  nia.
Qed.

(** The parts sent for a message, put together in order, are the message;
    no part is longer than 4096 characters; and a non-empty message is
    never sent as an empty part. *)
Theorem message_parts_rebuild (msg : list Char) :
  concat (Bot.message_parts msg) = msg /\
  Forall (fun part => (length part <= 4096)%nat) (Bot.message_parts msg) /\
  (msg <> [] -> Forall (fun part => part <> []) (Bot.message_parts msg)).
Proof.
  unfold Bot.message_parts.
  destruct (4096 <? length msg)%nat eqn:Elong.
  - apply Nat.ltb_lt in Elong.
    unfold Bot.py_range_step, Bot.py_slice. rewrite map_map.
    rewrite (map_ext _ (fun k => firstn 4096 (skipn (k * 4096) msg)))
      by (intros k; f_equal; lia).
    split; [|split].
    + apply chunks_concat. apply range_covers. lia.
    + apply Forall_forall. intros part Hp. apply in_map_iff in Hp.
      destruct Hp as [k [<- _]]. apply firstn_le_length.
    + intros _. apply Forall_forall. intros part Hp. apply in_map_iff in Hp.
      destruct Hp as [k [<- Hk]]. apply in_seq in Hk.
      assert (Hin : (k * 4096 < length msg)%nat)
        by (apply range_starts_inside; lia).
      intros Hnil. apply (f_equal (@length Char)) in Hnil.
      rewrite length_firstn, length_skipn in Hnil. cbn [length] in Hnil.
      lia.
  - apply Nat.ltb_ge in Elong. cbn [concat]. rewrite app_nil_r.
    split; [reflexivity|]. split.
    + constructor; [exact Elong | constructor].
    + intros Hne. constructor; [exact Hne | constructor].
Qed.

End Chunks.

(** ** Accepted coordinates *)

Lemma between_iff (lo x hi : Q) : between lo x hi = true <-> lo <= x <= hi.
Proof.
  unfold between. rewrite andb_true_iff, !Qle_bool_iff. reflexivity.
Qed.

Section Regions.
Variable strip lower : string -> string.
Variable findall_numbers : string -> list Q.
Variable re_split tokens : string -> list string.
Variable to_float : string -> option Q.
Variable geocode : string -> option (Q * Q * string).
Variable coordinates_label : Q -> Q -> string.

(** Whatever the cell holds, a coordinate accepted for the catalog lies in
    the box 56.0..56.5 by 43.0..44.5 and is returned latitude first; in the
    [POINT] form the first number of the text is the longitude. *)
Theorem catalog_coordinates_in_region (coord_str : string) (lat lon : Q) :
  TrainerInput.parse_coordinates strip findall_numbers re_split to_float
    coord_str = Some (lat, lon) ->
  56.0 <= lat <= 56.5 /\ 43.0 <= lon <= 44.5 /\
  (String.prefix "POINT" (strip coord_str) = true ->
   exists rest, findall_numbers (strip coord_str) = lon :: lat :: rest).
Proof.
  unfold TrainerInput.parse_coordinates.
  destruct (String.eqb coord_str "nan"); [discriminate|]. cbv zeta.
  destruct (String.prefix "POINT" (strip coord_str)).
  - destruct (findall_numbers (strip coord_str)) as [|n0 [|n1 rest]];
      try discriminate.
    destruct (between 43.0 n0 44.5 && between 56.0 n1 56.5) eqn:E;
      [|discriminate].
    intros H. injection H as <- <-.
    apply andb_true_iff in E. destruct E as [E1 E2].
    apply between_iff in E1, E2.
    split; [exact E2|]. split; [exact E1|].
    intros _. exists rest. reflexivity.
  - destruct (py_contains "," (strip coord_str)
              || py_contains " " (strip coord_str)); [|discriminate].
    destruct (re_split (strip coord_str)) as [|p0 [|p1 rest]];
      try discriminate.
    destruct (to_float (strip p0)) as [la|]; [|discriminate].
    destruct (to_float (strip p1)) as [lo|]; [|discriminate].
    destruct (between 56.0 la 56.5 && between 43.0 lo 44.5) eqn:E;
      [|discriminate].
    intros H. injection H as <- <-.
    apply andb_true_iff in E. destruct E as [E1 E2].
    apply between_iff in E1, E2.
    split; [exact E1|]. split; [exact E2|]. discriminate.
Qed.

Lemma geocoded_in_region (query : string) (lat lon : Q) (label : string) :
  Guide.geocode_address strip lower geocode query
  = Some ((lat, lon), label) ->
  55.8 <= lat <= 56.8 /\ 43.0 <= lon <= 44.8.
Proof.
  unfold Guide.geocode_address. cbv zeta.
  destruct (String.eqb (strip query) ""); [discriminate|].
  destruct (geocode _) as [[[la lo] address]|]; [|discriminate].
  destruct (between 55.8 la 56.8 && between 43.0 lo 44.8) eqn:E;
    [|discriminate].
  intros H. injection H as <- <- _.
  apply andb_true_iff in E. destruct E as [E1 E2].
  apply between_iff in E1, E2. split; assumption.
Qed.

(** A start point accepted from the user, typed as two numbers or found by
    the geocoder, lies in the box 55.8..56.8 by 43.0..44.8; two numbers
    outside the box are not rejected but looked up as an address. *)
Theorem start_point_in_region (coord_str : string) (lat lon : Q)
    (label : string) :
  Guide.parse_user_coordinates strip lower tokens to_float geocode
    coordinates_label coord_str = Some ((lat, lon), label) ->
  55.8 <= lat <= 56.8 /\ 43.0 <= lon <= 44.8 /\
  (forall p0 p1 la lo,
     tokens coord_str = [p0; p1] ->
     to_float p0 = Some la -> to_float p1 = Some lo ->
     ~ (55.8 <= la <= 56.8 /\ 43.0 <= lo <= 44.8) ->
     Guide.geocode_address strip lower geocode coord_str
     = Some ((lat, lon), label)).
Proof.
  unfold Guide.parse_user_coordinates. cbv zeta.
  destruct (String.eqb coord_str ""); [discriminate|].
  intros H.
  assert (Hbox : 55.8 <= lat <= 56.8 /\ 43.0 <= lon <= 44.8).
  { destruct (tokens coord_str) as [|p0 [|p1 [|p2 rest]]];
      try (apply geocoded_in_region in H; exact H).
    destruct (to_float p0) as [la|];
      [|apply geocoded_in_region in H; exact H].
    destruct (to_float p1) as [lo|];
      [|apply geocoded_in_region in H; exact H].
    destruct (between 55.8 la 56.8 && between 43.0 lo 44.8) eqn:E;
      [|apply geocoded_in_region in H; exact H].
    injection H as <- <- _.
    apply andb_true_iff in E. destruct E as [E1 E2].
    apply between_iff in E1, E2. split; assumption. }
  destruct Hbox as [Hlat Hlon]. split; [exact Hlat|]. split; [exact Hlon|].
  intros p0 p1 la lo Ht H0 H1 Hout.
  rewrite Ht, H0, H1 in H.
  destruct (between 55.8 la 56.8 && between 43.0 lo 44.8) eqn:E;
    [|exact H].
  exfalso. apply Hout.
  apply andb_true_iff in E. destruct E as [E1 E2].
  apply between_iff in E1, E2. split; assumption.
Qed.

End Regions.

Lemma catalog_coordinates_in_region_witness :
  56.0 <= 56.3 <= 56.5 /\ 43.0 <= 44.0 <= 44.5.
Proof.
  destruct (catalog_coordinates_in_region (fun s => s)
              (fun _ => [44.0; 56.3]) (fun _ => []) sample_float
              "POINT (44.0 56.3)" 56.3 44.0 eq_refl) as [H1 [H2 _]].
  split; assumption.
Defined.

Lemma start_point_in_region_witness :
  55.8 <= 56.3 <= 56.8 /\ 43.0 <= 44.0 <= 44.8.
Proof.
  destruct (start_point_in_region (fun s => s) (fun s => s) sample_tokens
              sample_float no_geocoder sample_label "56.3, 44.0" 56.3 44.0
              "coordinates" eq_refl) as [H1 [H2 _]].
  split; assumption.
Defined.

(** ** Instances of the planning properties *)

Lemma route_plan_of_scored_witness :
  exists plan,
    Trainer.generate_route_plan taxicab [] (map Scored sample_selection)
      1 2 "museums" "Pokrovskaya" sample_start
    = Py.Ret (Trainer.Messages plan).
Proof.
  destruct (route_plan_of_scored taxicab [] sample_selection 1 2 "museums"
              "Pokrovskaya" sample_start) as [plan [Hplan _]].
  - vm_compute. lia.
  - exists plan. exact Hplan.
Defined.

Lemma route_plan_succeeds_iff_scored_witness :
  exists p, In (Raw p) (firstn 5 (map Raw sample_catalog)).
Proof.
  apply (route_plan_succeeds_iff_scored taxicab sample_catalog
           (map Raw sample_catalog) 1 2 "museums" "Pokrovskaya"
           sample_start).
  - simpl. lia.
  - vm_compute. reflexivity.
Defined.

Lemma walk_plan_for_full_catalog_witness :
  exists r plan,
    Trainer.find_optimal_places taxicab sample_scores no_rounding sample_catalog
      "museums" 1 2 sample_start = Py.Ret r /\
    Guide.create_walk_plan taxicab sample_scores no_rounding
      sample_catalog "museums"
      1 2 sample_start "Pokrovskaya"
    = Py.Ret (Guide.PlanPrinted (Trainer.Messages plan)).
Proof.
  destruct (walk_plan_for_full_catalog taxicab sample_scores no_rounding
             sample_catalog
              "museums" 1 2 sample_start "Pokrovskaya")
    as [r [plan [Hsel [Hrun _]]]].
  - repeat constructor; simpl; intuition discriminate.
  - simpl. lia.
  - exists r, plan. split; assumption.
Defined.

Lemma walk_plan_for_small_catalog_witness :
  Guide.create_walk_plan taxicab sample_scores no_rounding [kremlin]
    "museums" 1 2 sample_start "Pokrovskaya"
  = Py.KeyError "time_required".
Proof.
  destruct (walk_plan_for_small_catalog taxicab sample_scores no_rounding
              [kremlin] "museums" 1 2 sample_start "Pokrovskaya")
    as [r [_ [Hr [_ [_ Hrun]]]]].
  - discriminate.
  - simpl. lia.
  - rewrite Hrun, Hr. vm_compute. reflexivity.
Defined.

Lemma bot_routes_full_catalog_witness :
  exists plan,
    Bot.generate_route_state taxicab sample_scores no_rounding
      (Some sample_catalog) sample_session
    = Bot.RouteSent (Trainer.Messages plan).
Proof.
  destruct (bot_routes_full_catalog taxicab sample_scores no_rounding
              sample_catalog sample_session) as [plan [Hplan _]].
  - repeat constructor; simpl; intuition discriminate.
  - simpl. lia.
  - exists plan. exact Hplan.
Defined.

Lemma bot_small_catalog_witness :
  Bot.generate_route_state taxicab sample_scores no_rounding (Some [kremlin])
    sample_session
  = Bot.GenerationError (Bot.RaisedKeyError "time_required").
Proof.
  destruct (proj2 (bot_small_catalog taxicab sample_scores no_rounding
                     [kremlin] sample_session))
    as [r [_ [Hr [_ [_ Hrun]]]]].
  - discriminate.
  - simpl. lia.
  - rewrite Hrun, Hr. vm_compute. reflexivity.
Defined.

(** ** What the result starts with, and where it comes from *)

Section ResultShape.
Variable geodesic : Coord -> Coord -> Q.
Variable cos_sim : string -> nat -> Q.
Variable fl : Q -> Q.
Variable self_places : list Place.
Variable user_interests : string.
Variables min_time max_time : Q.
Variable start_coords : Coord.

Let pws :=
  Trainer.ranked_candidates geodesic cos_sim fl self_places user_interests
    start_coords.

Lemma pass_starts_with_top (p : Candidate) (rest : list Candidate) (t : nat) :
  pws = p :: rest -> fits_first fl max_time p -> (1 <= t)%nat ->
  exists tail, pass geodesic fl pws max_time t = p :: tail.
Proof.
  intros Hpws Hfit Ht. unfold pass. rewrite Hpws.
  cbn [Trainer.fill_loop length Trainer.py_in existsb
       Trainer.place_total_time].
  assert (E : (t <=? 0)%nat = false) by (apply Nat.leb_gt; lia).
  rewrite E.
  assert (Efit : Qle_bool
                   (fl (0 + fl (time_required p + walk_time_to_place p)))
                   max_time = true).
  { apply Qle_bool_iff. exact Hfit. }
  rewrite Efit.
  destruct (fill_loop_shape geodesic fl t max_time rest ([] ++ [p])
              (fl (0 + fl (time_required p + walk_time_to_place p))))
    as [extra [Heq _]].
  exists extra. rewrite Heq. reflexivity.
Qed.

Lemma long_budget_fits (p : Candidate) :
  In p pws ->
  monotone fl -> representable fl 2 -> representable fl max_time ->
  12 # 5 <= max_time ->
  fits_first fl max_time p.
Proof.
  intros Hin Hmono Htwo Hmax Hlong.
  destruct (ranked_walk_ok geodesic cos_sim fl self_places user_interests
              start_coords p Hin) as [Hok [_ Hhi]].
  unfold walk_from_start_ok in Hok. unfold fits_first.
  pose proof (walking_time_bounds
                (geodesic start_coords (coords (base p)))) as [_ Hw].
  rewrite Hok.
  set (w := Trainer.calculate_walking_time
              (geodesic start_coords (coords (base p)))) in *.
  assert (Hwalk : w / 60 <= 2).
  { setoid_replace (w / 60) with (w * (1 # 60)) by field. lra. }
  unfold representable in Htwo, Hmax.
  pose proof (Hmono _ _ Hwalk) as H1. rewrite Htwo in H1.
  set (a := fl (w / 60)) in *.
  assert (Hsum : time_required p + a <= max_time) by lra.
  pose proof (Hmono _ _ Hsum) as H2. rewrite Hmax in H2.
  set (b := fl (time_required p + a)) in *.
  assert (Hacc : 0 + b <= max_time) by lra.
  pose proof (Hmono _ _ Hacc) as H3. rewrite Hmax in H3.
  exact H3.
Qed.

(** When the budget test admits the top-ranked candidate as the first stop
    (its visit plus the walk from the start, as the code rounds the sums,
    fits [max_time]), it is the first entry of the returned list.  This is
    certain once [max_time] is a double of at least 2.4 hours, the longest
    visit plus the longest walk, for a rounding that keeps the order. *)
Theorem top_candidate_leads (p : Candidate) (rest : list Candidate) :
  pws = p :: rest ->
  fits_first fl max_time p \/
  (monotone fl /\ representable fl 2 /\ representable fl max_time /\
   12 # 5 <= max_time) ->
  exists tail,
    Trainer.find_optimal_places geodesic cos_sim fl self_places user_interests
      min_time max_time start_coords = Py.Ret (p :: tail).
Proof.
  intros Hpws Hcase.
  assert (Hfit : fits_first fl max_time p).
  { destruct Hcase as [H|[Hmono [Htwo [Hmax Hlong]]]]; [exact H|].
    apply long_budget_fits; try assumption.
    rewrite Hpws. left. reflexivity. }
  assert (Hne : self_places <> []).
  { intros Hnil. unfold pws in Hpws. rewrite Hnil in Hpws. discriminate. }
  destruct (find_optimal_places_outcome geodesic cos_sim fl self_places
              user_interests min_time max_time start_coords Hne)
    as [[t [total [Hin [_ [Hres _]]]]]|[_ Hres]]; fold pws in Hres.
  - destruct (pass_starts_with_top p rest t Hpws Hfit) as [tail Ht];
      [simpl in Hin; lia|].
    exists tail. rewrite Hres, Ht. reflexivity.
  - destruct (pass_starts_with_top p rest 5 Hpws Hfit) as [tail Ht]; [lia|].
    rewrite Hres. unfold fallback_result. cbv zeta. rewrite Ht.
    destruct ((length (p :: tail) <? 3)%nat && (3 <=? length pws)%nat).
    + destruct (minimum_loop_shape pws (p :: tail)) as [extra [Heq _]].
      exists (tail ++ extra). rewrite Heq. reflexivity.
    + exists tail. reflexivity.
Qed.

(** Whatever the window, the returned list comes from one greedy fill, the
    one for up to 5 places: it is the first 5, 4 or 3 places of that fill,
    or, when the fill holds fewer than 3 places and the catalog at least 3,
    the fill topped up to 3 places from the ranked candidates. *)
Theorem result_comes_from_one_fill :
  exists r,
    Trainer.find_optimal_places geodesic cos_sim fl self_places user_interests
      min_time max_time start_coords = Py.Ret r /\
    ((exists t, In t [5; 4; 3]%nat /\
        r = firstn t (pass geodesic fl pws max_time 5))
     \/
     ((length (pass geodesic fl pws max_time 5) < 3)%nat /\
      (3 <= length self_places)%nat /\
      r = Trainer.minimum_loop pws (pass geodesic fl pws max_time 5))).
Proof.
  pose proof (ranked_length geodesic cos_sim fl self_places user_interests
                start_coords) as Hlen. fold pws in Hlen.
  assert (Hcases : self_places = [] \/ self_places <> []).
  { destruct self_places; [left; reflexivity | right; discriminate]. }
  destruct Hcases as [Hnil|Hne].
  - exists []. split; [rewrite Hnil; reflexivity|].
    left. exists 5%nat. split; [left; reflexivity|].
    rewrite Hnil in Hlen. apply length_zero_iff_nil in Hlen.
    rewrite Hlen. reflexivity.
  - destruct (find_optimal_places_outcome geodesic cos_sim fl self_places
                user_interests min_time max_time start_coords Hne)
      as [[t [total [Hin [_ [Hres _]]]]]|[_ Hres]]; fold pws in Hres.
    + exists (pass geodesic fl pws max_time t). split; [exact Hres|].
      left. exists t. split; [exact Hin|].
      unfold pass. apply fill_loop_prefix; simpl in *; lia.
    + exists (fallback_result geodesic fl pws max_time).
      split; [exact Hres|].
      unfold fallback_result. cbv zeta.
      destruct (length (pass geodesic fl pws max_time 5) <? 3)%nat eqn:Es;
        destruct (3 <=? length pws)%nat eqn:En; cbn [andb].
      * right. apply Nat.ltb_lt in Es. apply Nat.leb_le in En.
        split; [exact Es|]. split; [lia | reflexivity].
      * left. exists 5%nat. split; [left; reflexivity|].
        symmetry. apply firstn_all2. apply pass_subseq.
      * left. exists 5%nat. split; [left; reflexivity|].
        symmetry. apply firstn_all2. apply pass_subseq.
      * left. exists 5%nat. split; [left; reflexivity|].
        symmetry. apply firstn_all2. apply pass_subseq.
Qed.

End ResultShape.

Lemma top_candidate_leads_witness :
  exists tail,
    Trainer.find_optimal_places taxicab sample_scores no_rounding
      sample_catalog "museums" 1 3 sample_start
    = Py.Ret (Trainer.score_place taxicab sample_scores no_rounding "museums"
                sample_start 0%nat (mk 1 56.33 44) :: tail).
Proof.
  apply (top_candidate_leads taxicab sample_scores no_rounding sample_catalog
           "museums" 1 3 sample_start _
           (tl (Trainer.ranked_candidates taxicab sample_scores no_rounding
                  sample_catalog "museums" sample_start))).
  - vm_compute. reflexivity.
  - right. unfold monotone, representable, no_rounding.
    repeat split; try reflexivity; try (intros x y H; exact H).
    vm_compute. discriminate.
Defined.
